(** * Market advisor: analysis pipeline and advisory cache

    A shallow embedding of [data_analyzer.py] (class [DataAnalyzer]) and
    [llm_interface.py] (class [LLMAdvisor]), and the properties of the
    specification that concern them.

    Modelling conventions.
    - A Python [dict] literal is an association list in insertion order
      ([dict]); [self.analysis_results] and the [cache/] directory, where
      order plays no role, are finite maps ([gmap string _]).
    - A [float64] is modelled by the rational number it denotes ([Q]):
      rounding, infinities and NaN are outside the model.
    - Exceptions are explicit: a method is a function from the object's state
      to an [outcome] and the new state.
    - What the standard library and third-party packages compute
      ([hashlib.md5], [str] of a dict, [format], [str.upper], the square
      root inside [Series.std]) is a field of [PyRuntime].  The collector's
      frames, the language-model service, the clock and the faults of the
      file system are fields of the environment of a call; the analyzer's
      results, the files of the cache directory and the log are the state. *)

From Stdlib Require Import String Ascii ZArith QArith List Lia Lqa Bool.
From stdpp Require Import gmap strings list fin_maps.

Open Scope string_scope.
Open Scope Z_scope.

(** ** Python values *)

#[warnings="-register-all"]
Inductive value : Type :=
| VNone
| VStr (s : string)
| VInt (z : Z)
| VNum (q : Q)
| VList (l : list string)
| VDict (d : list (string * value)).

(** A [dict] literal, in insertion order. *)
Abbreviation dict := (list (string * value)).

Fixpoint dict_get (k : string) (d : dict) : option value :=
  match d with
  | [] => None
  | (k', v) :: d' => if String.eqb k k' then Some v else dict_get k d'
  end.

(** ** Exceptions and outcomes *)

Inductive exn : Type :=
| KeyError (key_repr : string)
| ValueError (msg : string)
| TypeError (msg : string)
| AttributeError (msg : string)
| ZeroDivisionError (msg : string)
| IndexError (msg : string)
| OSError (msg : string)
| ServiceError (msg : string).

(** [str(e)] *)
Definition str_exn (e : exn) : string :=
  match e with
  | KeyError m | ValueError m | TypeError m | AttributeError m
  | ZeroDivisionError m | IndexError m | OSError m | ServiceError m => m
  end.

Inductive outcome (A : Type) : Type :=
| Return (a : A)
| Raise (e : exn).
Arguments Return {A} a.
Arguments Raise {A} e.

(** ** Logging *)

Inductive level : Type := INFO | WARNING | ERROR.
Abbreviation log_record := (level * string)%type.

(** ** A state-and-exception monad *)

Section Monad.
Context {S : Type}.

Definition M (A : Type) : Type := S -> outcome A * S.

Definition ret {A} (a : A) : M A := fun s => (Return a, s).

Definition raise {A} (e : exn) : M A := fun s => (Raise e, s).

Definition bind {A B} (m : M A) (f : A -> M B) : M B :=
  fun s =>
    match m s with
    | (Return a, s') => f a s'
    | (Raise e, s') => (Raise e, s')
    end.

(** [try: body except Exception as e: handler e] *)
Definition try_except {A} (body : M A) (handler : exn -> M A) : M A :=
  fun s =>
    match body s with
    | (Return a, s') => (Return a, s')
    | (Raise e, s') => handler e s'
    end.

Definition get_state : M S := fun s => (Return s, s).
Definition put_state (s : S) : M unit := fun _ => (Return tt, s).

Definition lift {A} (o : outcome A) : M A := fun s => (o, s).
End Monad.
Arguments M : clear implicits.

Declare Scope py_scope.
Delimit Scope py_scope with py.
Notation "x <- m ;; k" := (bind m (fun x => k))
  (at level 100, m at next level, right associativity) : py_scope.
Notation "m ;;; k" := (bind m (fun _ => k))
  (at level 100, right associativity) : py_scope.

(** [d[k]] *)
Definition dict_item (d : dict) (k : string) : outcome value :=
  match dict_get k d with
  | Some v => Return v
  | None => Raise (KeyError ("'" ++ k ++ "'"))
  end.

(** ** What the Python runtime and its packages compute *)

Record PyRuntime : Type := {
  (** [hashlib.md5(s.encode()).hexdigest()] *)
  md5_hexdigest : string -> string;
  (** [repr(v)], which is also [str(v)] for everything but a [str] *)
  py_repr : value -> string;
  (** [format(x, '.<n>f')] *)
  format_fixed : nat -> Q -> string;
  (** [s.upper()] *)
  str_upper : string -> string;
  (** the square root taken by [Series.std] *)
  float_sqrt : Q -> Q
}.

(** ** Numbers, sequences and strings *)

Definition Qgt_bool (x y : Q) : bool := negb (Qle_bool x y).
Definition Qlt_bool (x y : Q) : bool := negb (Qle_bool y x).

Definition Qsum (l : list Q) : Q := fold_right Qplus (0 # 1)%Q l.

Definition Qlen {A} (l : list A) : Q := inject_Z (Z.of_nat (length l)).

(** [Series.mean()] *)
Definition mean (l : list Q) : Q := (Qsum l / Qlen l)%Q.

(** [Series.std()], the sample standard deviation *)
Definition std (rt : PyRuntime) (l : list Q) : Q :=
  let m := mean l in
  float_sqrt rt
    (Qsum (map (fun x => (x - m) * (x - m)) l) / (Qlen l - 1))%Q.

(** Where a slice bound [i] lands in a sequence of length [n]. *)
Definition slice_bound (n i : Z) : Z :=
  if i <? 0 then Z.max (n + i) 0 else Z.min i n.

(** [s.iloc[start:stop]] *)
Definition iloc_slice {A} (start stop : option Z) (l : list A) : list A :=
  let n := Z.of_nat (length l) in
  let lo := match start with Some i => slice_bound n i | None => 0 end in
  let hi := match stop with Some j => slice_bound n j | None => n end in
  firstn (Z.to_nat (hi - lo)) (skipn (Z.to_nat lo) l).

(** [s.iloc[i]] *)
Definition iloc {A} (l : list A) (i : Z) : outcome A :=
  let n := Z.of_nat (length l) in
  let j := if i <? 0 then n + i else i in
  if (j <? 0) || (n <=? j)
  then Raise (IndexError "single positional indexer is out-of-bounds")
  else match nth_error l (Z.to_nat j) with
       | Some x => Return x
       | None => Raise (IndexError "single positional indexer is out-of-bounds")
       end.

(** [s[0]] on a column whose index is the default [RangeIndex]: the label
    [0] is the first row, and is missing from an empty column. *)
Definition label_zero {A} (l : list A) : outcome A :=
  match l with
  | x :: _ => Return x
  | [] => Raise (KeyError "0")
  end.

(** [s.replace(' ', '_')] *)
Fixpoint replace_spaces (s : string) : string :=
  match s with
  | EmptyString => EmptyString
  | String c s' =>
      String (if Ascii.eqb c " " then "_"%char else c) (replace_spaces s')
  end.

(** [s[:n]] on a string *)
Definition str_prefix (n : nat) (s : string) : string := String.substring 0 n s.

(** ** The market data source ([DataCollector], an external collaborator) *)

(** A row of the historical-price frame; [p_date] is the parsed date in
    seconds. *)
Record price_row : Type := {
  p_date : Z;
  p_crop : string;
  p_price : Q
}.

Record news_row : Type := {
  n_date : Z;
  n_crop : string;
  n_headline : string;
  n_sentiment : string
}.

Record weather_row : Type := {
  w_date : Z;
  w_region : string;
  w_temperature : Q;
  w_precipitation : Q;
  w_conditions : string
}.

(** What one call of an analyzer sees of the outside: the three frames the
    collector hands out, the clock, and whether drawing the chart fails. *)
Record data_source : Type := {
  load_or_fetch_historical_prices : string -> list price_row;
  load_or_fetch_market_news : string -> list news_row;
  load_or_fetch_weather_forecast : string -> list weather_row;
  (** [datetime.now()], in seconds *)
  datetime_now : Z;
  (** [datetime.now().strftime('%Y-%m-%d')] *)
  today : string;
  (** the exception [matplotlib] raises, if it does *)
  chart_fault : option exn
}.

(** ** [DataAnalyzer] *)

Module DataAnalyzer.

Record state : Type := {
  analysis_results : gmap string dict;
  log : list log_record
}.

Definition logging (lv : level) (msg : string) : M state unit :=
  fun s => (Return tt,
            {| analysis_results := analysis_results s;
               log := log s ++ [(lv, msg)] |}).

(** [self.analysis_results[key] = analysis] *)
Definition store (key : string) (analysis : dict) : M state unit :=
  fun s => (Return tt,
            {| analysis_results := <[key := analysis]> (analysis_results s);
               log := log s |}).

Open Scope py_scope.

Definition timeframe_days (timeframe : string) : Z :=
  if String.eqb timeframe "1 week" then 7
  else if String.eqb timeframe "1 month" then 30
  else if String.eqb timeframe "3 months" then 90
  else 30.

Definition _generate_price_chart (src : data_source) (crop timeframe : string)
  : M state (option string) :=
  try_except
    (match chart_fault src with
     | Some e => raise e
     | None =>
         let chart_path :=
           "analysis/" ++ crop ++ "_" ++ replace_spaces timeframe ++ "_chart.png" in
         logging INFO ("Chart saved to " ++ chart_path) ;;;
         ret (Some chart_path)
     end)
    (fun e =>
       logging ERROR ("Error generating chart: " ++ str_exn e) ;;;
       ret None).

(** The trend ladder of [analyze_price_trends]. *)
Definition price_trend (price_change_pct : Q) : string :=
  if Qgt_bool price_change_pct (5 # 1) then "strongly increasing"
  else if Qgt_bool price_change_pct (1 # 1) then "slightly increasing"
  else if Qlt_bool price_change_pct (- 5 # 1) then "strongly decreasing"
  else if Qlt_bool price_change_pct (- 1 # 1) then "slightly decreasing"
  else "stable".

Definition analyze_price_trends (rt : PyRuntime) (src : data_source)
    (crop timeframe : string) : M state (option dict) :=
  logging INFO ("Analyzing price trends for " ++ crop ++ " over " ++ timeframe) ;;;
  let historical_data := load_or_fetch_historical_prices src crop in
  let days := timeframe_days timeframe in
  let end_date := datetime_now src in
  _ <- lift (label_zero (map p_date historical_data)) ;;
  let start_date := end_date - days * 86400 in
  let filtered_data :=
    List.filter (fun r => start_date <=? p_date r) historical_data in
  let price := map p_price filtered_data in
  if (0 <? length filtered_data)%nat then
    current_price <- lift (iloc price (-1)) ;;
    let avg_price := mean price in
    first_price <- lift (iloc price 0) ;;
    let price_change := (current_price - first_price)%Q in
    let price_change_pct := (price_change / first_price * (100 # 1))%Q in
    let trend := price_trend price_change_pct in
    let volatility := std rt price in
    let '(projected_price, projection_pct) :=
      if (7 <? length filtered_data)%nat then
        let last_week := iloc_slice (Some (-7)) None price in
        let week_before := iloc_slice (Some (-14)) (Some (-7)) price in
        let recent_trend := (mean last_week - mean week_before)%Q in
        let projected_price := (current_price + recent_trend)%Q in
        (projected_price,
         VNum ((projected_price / current_price - 1) * (100 # 1))%Q)
      else (current_price, VInt 0) in
    let analysis : dict :=
      [ ("crop", VStr crop);
        ("timeframe", VStr timeframe);
        ("current_price", VNum current_price);
        ("average_price", VNum avg_price);
        ("price_change", VNum price_change);
        ("price_change_pct", VNum price_change_pct);
        ("trend", VStr trend);
        ("volatility", VNum volatility);
        ("projected_price", VNum projected_price);
        ("projection_pct", projection_pct) ] in
    store (crop ++ "_" ++ timeframe) analysis ;;;
    _generate_price_chart src crop timeframe ;;;
    ret (Some analysis)
  else
    logging WARNING ("No data available for " ++ crop ++ " over " ++ timeframe) ;;;
    ret None.

(** [sentiment_counts.get(label, 0)] *)
Definition sentiment_count (label : string) (news_data : list news_row) : Z :=
  Z.of_nat
    (length (List.filter (fun r => String.eqb (n_sentiment r) label) news_data)).

(** The ladder on the sentiment score. *)
Definition sentiment_trend_of (sentiment_score : Q) : string :=
  if Qgt_bool sentiment_score (5 # 10) then "strongly positive"
  else if Qgt_bool sentiment_score (1 # 10) then "positive"
  else if Qlt_bool sentiment_score (- 5 # 10) then "strongly negative"
  else if Qlt_bool sentiment_score (- 1 # 10) then "negative"
  else "neutral".

(** The number a numeric value denotes. *)
Definition number (v : value) : Q :=
  match v with
  | VNum q => q
  | VInt z => inject_Z z
  | _ => 0 # 1
  end.

(** [a / b] on two integers *)
Definition truediv (a b : Z) : outcome Q :=
  if b =? 0 then Raise (ZeroDivisionError "division by zero")
  else Return (inject_Z a / inject_Z b)%Q.

Definition analyze_market_sentiment (src : data_source) (crop : string)
  : M state (option dict) :=
  logging INFO ("Analyzing market sentiment for " ++ crop) ;;;
  let news_data := load_or_fetch_market_news src crop in
  if (0 <? length news_data)%nat then
    let pos_count := sentiment_count "positive" news_data in
    let neg_count := sentiment_count "negative" news_data in
    let neutral_count := sentiment_count "neutral" news_data in
    let total_count := pos_count + neg_count + neutral_count in
    sentiment_score <-
      (if 0 <? total_count
       then q <- lift (truediv (pos_count - neg_count) total_count) ;; ret (VNum q)
       else ret (VInt 0)) ;;
    let sentiment_trend := sentiment_trend_of (number sentiment_score) in
    let analysis : dict :=
      [ ("crop", VStr crop);
        ("sentiment_score", sentiment_score);
        ("sentiment_trend", VStr sentiment_trend);
        ("positive_news_count", VInt pos_count);
        ("negative_news_count", VInt neg_count);
        ("neutral_news_count", VInt neutral_count);
        ("headlines", VList (map n_headline news_data)) ] in
    store (crop ++ "_sentiment") analysis ;;;
    ret (Some analysis)
  else
    logging WARNING ("No news data available for " ++ crop) ;;;
    ret None.

(** The crop-specific verdict of [analyze_weather_impact]: impact and
    explanation. *)
Definition weather_verdict (crop : string) (avg_temp total_precip : Q)
  : string * string :=
  if String.eqb crop "wheat" then
    if Qgt_bool avg_temp (25 # 1) && Qlt_bool total_precip (10 # 1) then
      ("negative",
       "High temperatures and low precipitation may stress wheat crops.")
    else if Qlt_bool avg_temp (15 # 1) && Qgt_bool total_precip (30 # 1) then
      ("negative",
       "Low temperatures and excessive rainfall may damage wheat crops.")
    else
      ("neutral to positive",
       "Weather conditions appear favorable for wheat crops.")
  else if String.eqb crop "corn" then
    if Qlt_bool avg_temp (18 # 1) || Qlt_bool total_precip (15 # 1) then
      ("negative",
       "Low temperatures or insufficient rainfall may reduce corn yields.")
    else if Qgt_bool avg_temp (30 # 1) && Qlt_bool total_precip (20 # 1) then
      ("negative",
       "High heat and insufficient moisture may stress corn crops.")
    else
      ("neutral to positive",
       "Weather conditions appear favorable for corn growth.")
  else if String.eqb crop "soybeans" then
    if Qlt_bool avg_temp (20 # 1) || Qlt_bool total_precip (10 # 1) then
      ("negative",
       "Low temperatures or dry conditions may reduce soybean yields.")
    else if Qgt_bool total_precip (40 # 1) then
      ("negative",
       "Excessive rainfall may lead to disease pressure in soybeans.")
    else
      ("neutral to positive",
       "Weather conditions appear favorable for soybean development.")
  else
    ("uncertain",
     "Weather impact analysis not specifically calibrated for " ++ crop ++ ".").

Definition analyze_weather_impact (src : data_source) (crop region : string)
  : M state (option dict) :=
  logging INFO ("Analyzing weather impact for " ++ crop ++ " in " ++ region) ;;;
  let weather_data := load_or_fetch_weather_forecast src region in
  if (0 <? length weather_data)%nat then
    let avg_temp := mean (map w_temperature weather_data) in
    let total_precip := Qsum (map w_precipitation weather_data) in
    let '(impact, explanation) := weather_verdict crop avg_temp total_precip in
    let analysis : dict :=
      [ ("crop", VStr crop);
        ("region", VStr region);
        ("average_temperature", VNum avg_temp);
        ("total_precipitation", VNum total_precip);
        ("weather_impact", VStr impact);
        ("explanation", VStr explanation) ] in
    store (crop ++ "_weather") analysis ;;;
    ret (Some analysis)
  else
    logging WARNING ("No weather data available for " ++ region) ;;;
    ret None.

(** [if key not in self.analysis_results: analyzer] *)
Definition unless_present {A} (key : string) (analyzer : M state A)
  : M state unit :=
  s <- get_state ;;
  match analysis_results s !! key with
  | Some _ => ret tt
  | None => analyzer ;;; ret tt
  end.

(** [self.analysis_results.get(key, {})] *)
Definition results_get (key : string) : M state dict :=
  s <- get_state ;;
  ret (default [] (analysis_results s !! key)).

Definition get_comprehensive_analysis (rt : PyRuntime) (src : data_source)
    (crop timeframe : string) : M state dict :=
  logging INFO ("Generating comprehensive analysis for " ++ crop) ;;;
  unless_present (crop ++ "_" ++ timeframe)
    (analyze_price_trends rt src crop timeframe) ;;;
  unless_present (crop ++ "_sentiment")
    (analyze_market_sentiment src crop) ;;;
  unless_present (crop ++ "_weather")
    (analyze_weather_impact src crop "midwest") ;;;
  price_analysis <- results_get (crop ++ "_" ++ timeframe) ;;
  sentiment_analysis <- results_get (crop ++ "_sentiment") ;;
  weather_analysis <- results_get (crop ++ "_weather") ;;
  let comprehensive : dict :=
    [ ("crop", VStr crop);
      ("timeframe", VStr timeframe);
      ("price_analysis", VDict price_analysis);
      ("sentiment_analysis", VDict sentiment_analysis);
      ("weather_analysis", VDict weather_analysis);
      ("analysis_date", VStr (today src)) ] in
  ret comprehensive.

(** A freshly constructed analyzer. *)
Definition init : state := {| analysis_results := ∅; log := [] |}.

End DataAnalyzer.

(** ** [LLMAdvisor] *)

(** What a file of the [cache/] directory yields when it is opened and
    parsed: the stored JSON value, or the exception raised by [open] or
    [json.load]. *)
Inductive file : Type :=
| Json (v : value)
| Unreadable (e : exn).

(** The request sent to the chat-completion service. *)
Record chat_request : Type := {
  req_model : string;
  req_system : string;
  req_user : string;
  req_temperature : Q;
  req_max_tokens : Z
}.

(** What one call of the advisor sees of the outside. *)
Record environment : Type := {
  (** [config.MODEL_NAME] *)
  model : string;
  (** [client.chat.completions.create(...)] followed by
      [response.choices[0].message.content]: the text, or the exception *)
  chat_completion : chat_request -> outcome string;
  (** [datetime.now().strftime('%Y-%m-%d %H:%M:%S')] *)
  strftime_now : string;
  (** the exception raised when the cache file is opened for writing or
      dumped, if one is *)
  write_fault : option exn
}.

Module LLMAdvisor.

Record state : Type := {
  files : gmap string file;
  log : list log_record
}.

Definition logging (lv : level) (msg : string) : M state unit :=
  fun s => (Return tt, {| files := files s; log := log s ++ [(lv, msg)] |}).

Open Scope py_scope.

Definition nl : string := String (ascii_of_nat 10) EmptyString.

(** [obj.get(key, dflt)] *)
Definition obj_get (obj : value) (key : string) (dflt : value) : outcome value :=
  match obj with
  | VDict d => Return (default dflt (dict_get key d))
  | VNone => Raise (AttributeError "'NoneType' object has no attribute 'get'")
  | VStr _ => Raise (AttributeError "'str' object has no attribute 'get'")
  | VInt _ => Raise (AttributeError "'int' object has no attribute 'get'")
  | VNum _ => Raise (AttributeError "'float' object has no attribute 'get'")
  | VList _ => Raise (AttributeError "'list' object has no attribute 'get'")
  end.

(** [f"{v:.<n>f}"] *)
Definition format_f (rt : PyRuntime) (n : nat) (v : value) : outcome string :=
  match v with
  | VNum q => Return (format_fixed rt n q)
  | VInt z => Return (format_fixed rt n (inject_Z z))
  | VStr _ =>
      Raise (ValueError "Unknown format code 'f' for object of type 'str'")
  | VNone =>
      Raise (TypeError "unsupported format string passed to NoneType.__format__")
  | VList _ =>
      Raise (TypeError "unsupported format string passed to list.__format__")
  | VDict _ =>
      Raise (TypeError "unsupported format string passed to dict.__format__")
  end.

(** [f"{v}"], that is [str(v)] *)
Definition py_str (rt : PyRuntime) (v : value) : string :=
  match v with
  | VStr s => s
  | _ => py_repr rt v
  end.

(** [crop.upper()] *)
Definition upper (rt : PyRuntime) (v : value) : outcome string :=
  match v with
  | VStr s => Return (str_upper rt s)
  | VNone => Raise (AttributeError "'NoneType' object has no attribute 'upper'")
  | VInt _ => Raise (AttributeError "'int' object has no attribute 'upper'")
  | VNum _ => Raise (AttributeError "'float' object has no attribute 'upper'")
  | VList _ => Raise (AttributeError "'list' object has no attribute 'upper'")
  | VDict _ => Raise (AttributeError "'dict' object has no attribute 'upper'")
  end.

Fixpoint chars (s : string) : list string :=
  match s with
  | EmptyString => []
  | String c s' => String c EmptyString :: chars s'
  end.

(** [['  - ' + headline for headline in v[:3]]] *)
Definition headline_lines (v : value) : outcome (list string) :=
  match v with
  | VList l => Return (map (fun headline => "  - " ++ headline) (firstn 3 l))
  | VStr s =>
      Return (map (fun headline => "  - " ++ headline) (chars (str_prefix 3 s)))
  | VNone => Raise (TypeError "'NoneType' object is not subscriptable")
  | VInt _ => Raise (TypeError "'int' object is not subscriptable")
  | VNum _ => Raise (TypeError "'float' object is not subscriptable")
  | VDict _ => Raise (TypeError "unhashable type: 'slice'")
  end.

(** [sep.join(l)] *)
Fixpoint join (sep : string) (l : list string) : string :=
  match l with
  | [] => EmptyString
  | [x] => x
  | x :: l' => x ++ sep ++ join sep l'
  end.

Definition _format_prompt {S} (rt : PyRuntime)
    (crop timeframe price_analysis sentiment_analysis weather_analysis : value)
    (farmer_query : string) : M S string :=
  CROP <- lift (upper rt crop) ;;
  let timeframe := py_str rt timeframe in
  v <- lift (obj_get price_analysis "current_price" (VStr "N/A")) ;;
  current_price <- lift (format_f rt 2 v) ;;
  trend <- lift (obj_get price_analysis "trend" (VStr "N/A")) ;;
  v <- lift (obj_get price_analysis "price_change_pct" (VStr "N/A")) ;;
  price_change_pct <- lift (format_f rt 2 v) ;;
  v <- lift (obj_get price_analysis "projection_pct" (VStr "N/A")) ;;
  projection_pct <- lift (format_f rt 2 v) ;;
  v <- lift (obj_get price_analysis "volatility" (VStr "N/A")) ;;
  volatility <- lift (format_f rt 2 v) ;;
  sentiment_trend <- lift (obj_get sentiment_analysis "sentiment_trend" (VStr "N/A")) ;;
  v <- lift (obj_get sentiment_analysis "headlines" (VList [])) ;;
  headlines <- lift (headline_lines v) ;;
  weather_impact <- lift (obj_get weather_analysis "weather_impact" (VStr "N/A")) ;;
  explanation <- lift (obj_get weather_analysis "explanation" (VStr "N/A")) ;;
  v <- lift (obj_get weather_analysis "average_temperature" (VStr "N/A")) ;;
  average_temperature <- lift (format_f rt 1 v) ;;
  v <- lift (obj_get weather_analysis "total_precipitation" (VStr "N/A")) ;;
  total_precipitation <- lift (format_f rt 1 v) ;;
  let context :=
    nl ++ "Here is the current market analysis for " ++ CROP ++ ":" ++ nl
    ++ nl
    ++ "PRICE ANALYSIS (" ++ timeframe ++ "):" ++ nl
    ++ "- Current price: $" ++ current_price ++ " per bushel" ++ nl
    ++ "- Price trend: " ++ py_str rt trend ++ nl
    ++ "- Price change: " ++ price_change_pct ++ "% over the last "
    ++ timeframe ++ nl
    ++ "- Projected price change: " ++ projection_pct ++ "% in the coming "
    ++ timeframe ++ nl
    ++ "- Price volatility: " ++ volatility ++ nl
    ++ nl
    ++ "MARKET SENTIMENT:" ++ nl
    ++ "- Overall sentiment: " ++ py_str rt sentiment_trend ++ nl
    ++ "- Recent headlines:" ++ nl
    ++ join nl headlines ++ nl
    ++ nl
    ++ "WEATHER FORECAST IMPACT:" ++ nl
    ++ "- Weather impact: " ++ py_str rt weather_impact ++ nl
    ++ "- Explanation: " ++ py_str rt explanation ++ nl
    ++ "- Average temperature: " ++ average_temperature ++ "Â°C" ++ nl
    ++ "- Total precipitation forecast: " ++ total_precipitation ++ " mm" ++ nl
    ++ nl
    ++ "Based on this analysis, provide specific advice in response to the farmer's question:" ++ nl
    ++ String (ascii_of_nat 34) EmptyString ++ farmer_query
    ++ String (ascii_of_nat 34) EmptyString ++ nl
    ++ nl
    ++ "Your advice should include:" ++ nl
    ++ "1. A clear recommendation (sell now, hold, or partial sale)" ++ nl
    ++ "2. Reasoning behind your recommendation" ++ nl
    ++ "3. Timing suggestions (when to sell if not now)" ++ nl
    ++ "4. Risks to be aware of" ++ nl
    ++ "5. Alternative strategies to consider" ++ nl in
  ret context.

Definition cache_key (rt : PyRuntime) (analysis_data : dict)
    (farmer_query : string) : string :=
  md5_hexdigest rt (py_repr rt (VDict analysis_data) ++ "_" ++ farmer_query).

Definition cache_file (rt : PyRuntime) (analysis_data : dict)
    (farmer_query : string) : string :=
  "cache/" ++ cache_key rt analysis_data farmer_query ++ ".json".

(** [os.path.exists(path)] *)
Definition exists_ (path : string) (s : state) : bool :=
  match files s !! path with
  | Some _ => true
  | None => false
  end.

(** [with open(path, 'r') as f: json.load(f)] *)
Definition json_load (path : string) : M state value :=
  fun s =>
    match files s !! path with
    | Some (Json v) => (Return v, s)
    | Some (Unreadable e) => (Raise e, s)
    | None => (Raise (OSError "No such file or directory"), s)
    end.

(** [with open(path, 'w') as f: json.dump(v, f)] *)
Definition json_dump (env : environment) (path : string) (v : value)
  : M state unit :=
  fun s =>
    match write_fault env with
    | Some e => (Raise e, s)
    | None =>
        (Return tt, {| files := <[path := Json v]> (files s); log := log s |})
    end.

Definition system_message : string :=
  "You are an agricultural market analyst and advisor. "
  ++ "You provide farmers with informed, practical advice on crop marketing decisions "
  ++ "based on data analysis, market trends, and weather forecasts. Your advice should "
  ++ "be clear, concise, and actionable with specific recommendations.".

Definition request (env : environment) (prompt : string) : chat_request :=
  {| req_model := model env;
     req_system := system_message;
     req_user := prompt;
     req_temperature := 2 # 10;
     req_max_tokens := 1024 |}.

(** The response of the [except] branch of [get_advisory]. *)
Definition degraded_response (env : environment) (farmer_query : string)
    (crop : value) (e : exn) : dict :=
  [ ("query", VStr farmer_query);
    ("crop", crop);
    ("advice",
     VStr ("Unable to generate advisory at this time. Error: " ++ str_exn e));
    ("timestamp", VStr (strftime_now env)) ].

Definition get_advisory (rt : PyRuntime) (env : environment)
    (analysis_data : dict) (farmer_query : string) (force_refresh : bool)
  : M state value :=
  let cache_file := cache_file rt analysis_data farmer_query in
  s <- get_state ;;
  cached <-
    (if negb force_refresh && exists_ cache_file s then
       try_except
         (cached_response <- json_load cache_file ;;
          logging INFO ("Using cached LLM response for query: "
                        ++ str_prefix 30 farmer_query ++ "...") ;;;
          ret (Some cached_response))
         (fun e =>
            logging ERROR ("Error reading cache: " ++ str_exn e) ;;;
            ret None)
     else ret None) ;;
  match cached with
  | Some cached_response => ret cached_response
  | None =>
      logging INFO ("Generating new LLM advisory for query: "
                    ++ str_prefix 30 farmer_query ++ "...") ;;;
      crop <- lift (dict_item analysis_data "crop") ;;
      timeframe <- lift (dict_item analysis_data "timeframe") ;;
      price_analysis <- lift (dict_item analysis_data "price_analysis") ;;
      sentiment_analysis <- lift (dict_item analysis_data "sentiment_analysis") ;;
      weather_analysis <- lift (dict_item analysis_data "weather_analysis") ;;
      prompt <- _format_prompt rt crop timeframe price_analysis
                  sentiment_analysis weather_analysis farmer_query ;;
      try_except
        (advice_text <- lift (chat_completion env (request env prompt)) ;;
         current_price <- lift (obj_get price_analysis "current_price" VNone) ;;
         price_trend <- lift (obj_get price_analysis "trend" VNone) ;;
         projected_price_change <-
           lift (obj_get price_analysis "projection_pct" VNone) ;;
         market_sentiment <-
           lift (obj_get sentiment_analysis "sentiment_trend" VNone) ;;
         weather_impact <-
           lift (obj_get weather_analysis "weather_impact" VNone) ;;
         let advisory_response : dict :=
           [ ("query", VStr farmer_query);
             ("crop", crop);
             ("advice", VStr advice_text);
             ("data_summary",
              VDict [ ("current_price", current_price);
                      ("price_trend", price_trend);
                      ("projected_price_change", projected_price_change);
                      ("market_sentiment", market_sentiment);
                      ("weather_impact", weather_impact) ]);
             ("timestamp", VStr (strftime_now env)) ] in
         json_dump env cache_file (VDict advisory_response) ;;;
         logging INFO "Advisory generated and cached" ;;;
         ret (VDict advisory_response))
        (fun e =>
           logging ERROR ("Error generating advisory: " ++ str_exn e) ;;;
           ret (VDict (degraded_response env farmer_query crop e)))
  end.

(** An advisor whose [cache/] directory is empty. *)
Definition init : state := {| files := ∅; log := [] |}.

End LLMAdvisor.

(** ** A runtime and data to compute with

    The theorems below hold for every [PyRuntime]; this instance only serves
    to run the model on concrete inputs.  Its hash is the identity, which is
    collision-free as MD5 is meant to be; its other fields print and round in
    the obvious way. *)

Module Sample.

Definition upper_char (c : ascii) : ascii :=
  let n := nat_of_ascii c in
  if ((97 <=? n) && (n <=? 122))%nat then ascii_of_nat (n - 32) else c.

Fixpoint upper (s : string) : string :=
  match s with
  | EmptyString => EmptyString
  | String c s' => String (upper_char c) (upper s')
  end.

Fixpoint digits (fuel : nat) (n : Z) (acc : string) : string :=
  match fuel with
  | O => acc
  | S fuel' =>
      let acc' := String (ascii_of_nat (48 + Z.to_nat (n mod 10))) acc in
      if n / 10 =? 0 then acc' else digits fuel' (n / 10) acc'
  end.

Definition decimal (z : Z) : string :=
  let body := digits (S (Z.to_nat (Z.log2 (Z.abs z)))) (Z.abs z) EmptyString in
  if z <? 0 then "-" ++ body else body.

Fixpoint pad_zeros (fuel width : nat) (s : string) : string :=
  match fuel with
  | O => s
  | S fuel' =>
      if (String.length s <? width)%nat
      then pad_zeros fuel' width ("0" ++ s)
      else s
  end.

(** [q] rounded to [n] decimals, halves away from zero. *)
Definition fixed (n : nat) (q : Q) : string :=
  let scale := 10 ^ Z.of_nat n in
  let scaled :=
    (2 * Z.abs (Qnum q) * scale + Z.pos (Qden q)) / (2 * Z.pos (Qden q)) in
  let whole := scaled / scale in
  let frac := scaled mod scale in
  (if Qnum q <? 0 then "-" else EmptyString)
  ++ decimal whole
  ++ (if (0 <? n)%nat then "." ++ pad_zeros n n (decimal frac) else EmptyString).

Definition repr_scalar (v : value) : string :=
  match v with
  | VNone => "None"
  | VStr s => "'" ++ s ++ "'"
  | VInt z => decimal z
  | VNum q => fixed 6 q
  | VList l =>
      "[" ++ LLMAdvisor.join ", " (map (fun s => "'" ++ s ++ "'") l) ++ "]"
  | VDict _ => "{...}"
  end.

Fixpoint repr (v : value) : string :=
  match v with
  | VDict d =>
      "{"
      ++ LLMAdvisor.join ", "
           ((fix items (d : dict) : list string :=
               match d with
               | [] => []
               | (k, x) :: d' => ("'" ++ k ++ "': " ++ repr x) :: items d'
               end) d)
      ++ "}"
  | _ => repr_scalar v
  end.

Definition sqrt (q : Q) : Q :=
  Z.sqrt (Qnum q * 10 ^ 12 / Z.pos (Qden q)) # 1000000.

Definition runtime : PyRuntime :=
  {| md5_hexdigest := fun s => s;
     py_repr := repr;
     format_fixed := fixed;
     str_upper := upper;
     float_sqrt := sqrt |}.

Definition price (day : Z) (p : Q) : price_row :=
  {| p_date := day * 86400; p_crop := "wheat"; p_price := p |}.

Definition news (day : Z) (headline sentiment : string) : news_row :=
  {| n_date := day * 86400; n_crop := "wheat";
     n_headline := headline; n_sentiment := sentiment |}.

Definition weather (day : Z) (t p : Q) : weather_row :=
  {| w_date := day * 86400; w_region := "midwest";
     w_temperature := t; w_precipitation := p; w_conditions := "sunny" |}.

(** Eight days of prices (the window of the specification's example), four
    news items and three forecast days, seen on day 9. *)
Definition source : data_source :=
  {| load_or_fetch_historical_prices := fun _ =>
       [ price 1 100; price 2 102; price 3 99; price 4 101;
         price 5 105; price 6 108; price 7 107; price 8 110 ];
     load_or_fetch_market_news := fun _ =>
       [ news 1 "Global demand for wheat increases amid supply concerns" "positive";
         news 2 "New trade deal may boost wheat exports" "positive";
         news 2 "Report shows increased wheat stockpiles" "negative";
         news 3 "Analysts predict strong wheat market for next quarter" "positive" ];
     load_or_fetch_weather_forecast := fun _ =>
       [ weather 9 22 4; weather 10 24 0; weather 11 20 6 ];
     datetime_now := 9 * 86400;
     today := "1970-01-10";
     chart_fault := None |}.

(** The same source when the price file holds a header and no row. *)
Definition source_without_prices : data_source :=
  {| load_or_fetch_historical_prices := fun _ => [];
     load_or_fetch_market_news := load_or_fetch_market_news source;
     load_or_fetch_weather_forecast := load_or_fetch_weather_forecast source;
     datetime_now := datetime_now source;
     today := today source;
     chart_fault := None |}.

(** The same source when no news item is stored. *)
Definition source_without_news : data_source :=
  {| load_or_fetch_historical_prices := load_or_fetch_historical_prices source;
     load_or_fetch_market_news := fun _ => [];
     load_or_fetch_weather_forecast := load_or_fetch_weather_forecast source;
     datetime_now := datetime_now source;
     today := today source;
     chart_fault := None |}.

(** The comprehensive analysis of wheat over one month on [source]. *)
Definition analysis : dict :=
  match fst (DataAnalyzer.get_comprehensive_analysis runtime source
               "wheat" "1 month" DataAnalyzer.init) with
  | Return d => d
  | Raise _ => []
  end.

Definition query : string := "Should I sell my wheat now or wait?".

(** The service answers. *)
Definition service_up (now : string) : environment :=
  {| model := "llama3-70b-8192";
     chat_completion := fun _ => Return "Hold for two weeks.";
     strftime_now := now;
     write_fault := None |}.

(** The service is unreachable. *)
Definition service_down (now : string) : environment :=
  {| model := "llama3-70b-8192";
     chat_completion := fun _ => Raise (ServiceError "Connection error.");
     strftime_now := now;
     write_fault := None |}.

(** The service answers, and the [cache/] directory cannot be written. *)
Definition read_only_cache (now : string) : environment :=
  {| model := "llama3-70b-8192";
     chat_completion := fun _ => Return "Hold for two weeks.";
     strftime_now := now;
     write_fault := Some (OSError "[Errno 30] Read-only file system") |}.

End Sample.

(** * Specification-side definitions *)

Import DataAnalyzer.

(** The prices of the filtered window: the rows of the frame dated within
    the timeframe's number of days before now. *)
Definition price_window (src : data_source) (crop timeframe : string) : list Q :=
  map p_price
    (List.filter
       (fun r => datetime_now src - timeframe_days timeframe * 86400 <=? p_date r)
       (load_or_fetch_historical_prices src crop)).

(** The threshold ladder of the specification on [price_change_pct], each
    rung with the rungs above it excluded. *)
Inductive trend_ladder (pct : Q) : string -> Prop :=
| rung_strongly_increasing :
    (5 < pct)%Q -> trend_ladder pct "strongly increasing"
| rung_slightly_increasing :
    ~ (5 < pct)%Q -> (1 < pct)%Q -> trend_ladder pct "slightly increasing"
| rung_strongly_decreasing :
    ~ (5 < pct)%Q -> ~ (1 < pct)%Q -> (pct < -5)%Q ->
    trend_ladder pct "strongly decreasing"
| rung_slightly_decreasing :
    ~ (5 < pct)%Q -> ~ (1 < pct)%Q -> ~ (pct < -5)%Q -> (pct < -1)%Q ->
    trend_ladder pct "slightly decreasing"
| rung_stable :
    ~ (5 < pct)%Q -> ~ (1 < pct)%Q -> ~ (pct < -5)%Q -> ~ (pct < -1)%Q ->
    trend_ladder pct "stable".

(** The lines the analyzers log when they are entered, and the line the
    chart leaves. *)
Definition price_line (crop timeframe : string) : log_record :=
  (INFO, "Analyzing price trends for " ++ crop ++ " over " ++ timeframe).

Definition sentiment_line (crop : string) : log_record :=
  (INFO, "Analyzing market sentiment for " ++ crop).

Definition weather_line (crop region : string) : log_record :=
  (INFO, "Analyzing weather impact for " ++ crop ++ " in " ++ region).

Definition chart_line (src : data_source) (crop timeframe : string) : log_record :=
  match chart_fault src with
  | Some e => (ERROR, "Error generating chart: " ++ str_exn e)
  | None =>
      (INFO, "Chart saved to " ++ "analysis/" ++ crop ++ "_"
             ++ replace_spaces timeframe ++ "_chart.png")
  end.

(** A log record is the entry line of an analyzer. *)
Definition is_entry (r : log_record) : bool :=
  match r with
  | (INFO, msg) => String.prefix "Analyzing " msg
  | _ => false
  end.

Definition level_eqb (a b : level) : bool :=
  match a, b with
  | INFO, INFO | WARNING, WARNING | ERROR, ERROR => true
  | _, _ => false
  end.

(** How many times a line occurs in a log: for an entry line, how many times
    its analyzer ran. *)
Definition runs (line : log_record) (l : list log_record) : nat :=
  length
    (List.filter
       (fun r => level_eqb (fst r) (fst line) && String.eqb (snd r) (snd line))
       l).

(** * Facts about numbers and sequences *)

Lemma Qgt_boolP (x y : Q) : reflect (y < x)%Q (Qgt_bool x y).
Proof.
  unfold Qgt_bool. destruct (Qle_bool x y) eqn:E; constructor.
  - apply Qle_not_lt. now apply Qle_bool_iff.
  - apply Qnot_le_lt. intros H. apply Qle_bool_iff in H. congruence.
Qed.

Lemma Qlt_boolP (x y : Q) : reflect (x < y)%Q (Qlt_bool x y).
Proof.
  unfold Qlt_bool. destruct (Qle_bool y x) eqn:E; constructor.
  - apply Qle_not_lt. now apply Qle_bool_iff.
  - apply Qnot_le_lt. intros H. apply Qle_bool_iff in H. congruence.
Qed.

Lemma iloc_first {A} (x : A) (l : list A) : iloc (x :: l) 0 = Return x.
Proof.
  unfold iloc. cbn [length Z.ltb Z.compare orb].
  destruct (Z.leb_spec (Z.of_nat (S (length l))) 0); [lia | reflexivity].
Qed.

Lemma last_cons {A} (x y : A) (l : list A) :
  List.last (y :: l) x = List.last l y.
Proof.
  revert x y. induction l as [| z l IH]; intros x y; [reflexivity |].
  change (List.last (y :: z :: l) x) with (List.last (z :: l) x).
  now rewrite (IH x z), (IH y z).
Qed.

Lemma nth_error_last {A} (x : A) (l : list A) :
  nth_error (x :: l) (length l) = Some (List.last l x).
Proof.
  revert x. induction l as [| y l IH]; intros x; [reflexivity |].
  cbn [length nth_error]. now rewrite IH, last_cons.
Qed.

Lemma iloc_last {A} (x : A) (l : list A) :
  iloc (x :: l) (-1) = Return (List.last l x).
Proof.
  unfold iloc.
  replace (-1 <? 0) with true by reflexivity.
  set (n := Z.of_nat (length (x :: l))).
  assert (Hn : n = Z.of_nat (length l) + 1) by (unfold n; cbn [length]; lia).
  destruct (Z.ltb_spec (n + -1) 0); [lia |].
  destruct (Z.leb_spec n (n + -1)); [lia |].
  cbn [orb].
  replace (Z.to_nat (n + -1)) with (length l) by lia.
  now rewrite nth_error_last.
Qed.

Lemma filter_nonempty {A} (f : A -> bool) (l : list A) :
  List.filter f l <> [] -> l <> [].
Proof. destruct l; [intros H; now apply H | discriminate]. Qed.

Lemma price_trend_ladder (pct : Q) : trend_ladder pct (price_trend pct).
Proof.
  unfold price_trend.
  destruct (Qgt_boolP pct (5 # 1)); [now constructor |].
  destruct (Qgt_boolP pct (1 # 1)); [now constructor |].
  destruct (Qlt_boolP pct (- 5 # 1)); [now constructor |].
  destruct (Qlt_boolP pct (- 1 # 1)); now constructor.
Qed.

(** * [analyze_price_trends] *)

Ltac run_monad :=
  unfold bind, ret, raise, lift, try_except, get_state, put_state,
    DataAnalyzer.logging, DataAnalyzer.store; cbn beta iota zeta.

(** What the analyzer returns on a window that is not empty. *)
Lemma analyze_price_trends_window rt src crop timeframe s first rest :
  price_window src crop timeframe = first :: rest ->
  let w := first :: rest in
  let cur := List.last rest first in
  let pct := ((cur - first) / first * (100 # 1))%Q in
  let projected :=
    (cur + (mean (iloc_slice (Some (-7)%Z) None w)
            - mean (iloc_slice (Some (-14)%Z) (Some (-7)%Z) w)))%Q in
  exists analysis s',
    analyze_price_trends rt src crop timeframe s = (Return (Some analysis), s')
    /\ (analysis_results s'
        = <[crop ++ "_" ++ timeframe := analysis]> (analysis_results s)
        /\ log s' = (log s ++ [price_line crop timeframe;
                               chart_line src crop timeframe])%list)
    /\ dict_get "current_price" analysis = Some (VNum cur)
    /\ dict_get "price_change_pct" analysis = Some (VNum pct)
    /\ dict_get "trend" analysis = Some (VStr (price_trend pct))
    /\ dict_get "projected_price" analysis
       = Some (VNum (if (7 <? length w)%nat then projected else cur))
    /\ dict_get "projection_pct" analysis
       = Some (if (7 <? length w)%nat
               then VNum ((projected / cur - 1) * (100 # 1))%Q
               else VInt 0).
Proof.
  intros Hw w cur pct projected.
  unfold price_window in Hw. unfold analyze_price_trends.
  set (F := List.filter _ _) in *.
  assert (HF : length F = length w)
    by (now rewrite <- (length_map p_price), Hw).
  assert (Hframe : load_or_fetch_historical_prices src crop <> []).
  { apply (filter_nonempty (fun r =>
      datetime_now src - timeframe_days timeframe * 86400 <=? p_date r)).
    fold F. intros E. rewrite E in Hw. discriminate. }
  destruct (load_or_fetch_historical_prices src crop) as [| r0 frame] eqn:Eframe;
    [congruence |].
  run_monad. cbn [map label_zero].
  rewrite HF, Hw. fold w.
  change (0 <? length w)%nat with true. cbn iota.
  unfold w at 1 2. rewrite iloc_last, iloc_first. fold w cur pct.
  unfold _generate_price_chart. run_monad.
  unfold chart_line, price_line.
  destruct (7 <? length w)%nat eqn:E7;
    fold projected; destruct (chart_fault src);
    run_monad; do 2 eexists; (split; [reflexivity |]);
    cbn [analysis_results log]; rewrite <- ?app_assoc; repeat split.
Qed.

Lemma trend_ladder_functional (pct : Q) (l1 l2 : string) :
  trend_ladder pct l1 -> trend_ladder pct l2 -> l1 = l2.
Proof. intros H1 H2; destruct H1; destruct H2; solve [reflexivity | tauto]. Qed.

Lemma price_trend_at_boundaries (pct : Q) :
  ((pct == 5)%Q -> price_trend pct = "slightly increasing")
  /\ ((pct == 1)%Q -> price_trend pct = "stable")
  /\ ((pct == 0)%Q -> price_trend pct = "stable")
  /\ ((pct == -1)%Q -> price_trend pct = "stable")
  /\ ((pct == -5)%Q -> price_trend pct = "slightly decreasing").
Proof.
  unfold price_trend.
  destruct (Qgt_boolP pct (5 # 1)), (Qgt_boolP pct (1 # 1)),
    (Qlt_boolP pct (- 5 # 1)), (Qlt_boolP pct (- 1 # 1));
    repeat split; intros E; solve [reflexivity | exfalso; lra].
Qed.

(** C2. On every non-empty price window the analyzer returns an analysis
    whose trend label is determined by its [price_change_pct] through the
    threshold ladder (more than 5: strongly increasing; else more than 1:
    slightly increasing; else less than -5: strongly decreasing; else less
    than -1: slightly decreasing; else stable).  At the boundaries the weaker
    rung applies: 5 is slightly increasing, 1, 0 and -1 are stable, -5 is
    slightly decreasing. *)
Theorem trend_label_follows_ladder rt src crop timeframe s :
  price_window src crop timeframe <> [] ->
  exists analysis s' pct label,
    analyze_price_trends rt src crop timeframe s = (Return (Some analysis), s')
    /\ dict_get "price_change_pct" analysis = Some (VNum pct)
    /\ dict_get "trend" analysis = Some (VStr label)
    /\ trend_ladder pct label
    /\ (forall l, trend_ladder pct l -> l = label)
    /\ ((pct == 5)%Q -> label = "slightly increasing")
    /\ ((pct == 1)%Q -> label = "stable")
    /\ ((pct == 0)%Q -> label = "stable")
    /\ ((pct == -1)%Q -> label = "stable")
    /\ ((pct == -5)%Q -> label = "slightly decreasing").
Proof.
  intros Hne.
  destruct (price_window src crop timeframe) as [| first rest] eqn:Hw;
    [congruence |].
  destruct (analyze_price_trends_window rt src crop timeframe s first rest Hw)
    as (analysis & s' & Hrun & _ & _ & Hpct & Htrend & _).
  exists analysis, s'. do 2 eexists.
  split; [exact Hrun |]. split; [exact Hpct |]. split; [exact Htrend |].
  split; [apply price_trend_ladder |].
  split.
  - intros l Hl. eapply trend_ladder_functional; [exact Hl |].
    apply price_trend_ladder.
  - apply price_trend_at_boundaries.
Qed.

Lemma trend_label_follows_ladder_witness :
  price_window Sample.source "wheat" "1 month" <> []
  /\ exists analysis s' pct label,
       analyze_price_trends Sample.runtime Sample.source "wheat" "1 month"
         DataAnalyzer.init = (Return (Some analysis), s')
       /\ dict_get "price_change_pct" analysis = Some (VNum pct)
       /\ dict_get "trend" analysis = Some (VStr label)
       /\ trend_ladder pct label
       /\ (forall l, trend_ladder pct l -> l = label)
       /\ ((pct == 5)%Q -> label = "slightly increasing")
       /\ ((pct == 1)%Q -> label = "stable")
       /\ ((pct == 0)%Q -> label = "stable")
       /\ ((pct == -1)%Q -> label = "stable")
       /\ ((pct == -5)%Q -> label = "slightly decreasing").
Proof.
  split; [vm_compute; discriminate |].
  apply (trend_label_follows_ladder Sample.runtime Sample.source
           "wheat" "1 month" DataAnalyzer.init).
  vm_compute; discriminate.
Defined.

(** The window of the specification's example rises by ten percent. *)
Example trend_of_sample_window :
  exists s',
    analyze_price_trends Sample.runtime Sample.source "wheat" "1 month"
      DataAnalyzer.init
    = (Return (Some [ ("crop", VStr "wheat");
                      ("timeframe", VStr "1 month");
                      ("current_price", VNum 110);
                      ("average_price", VNum (832 # 8));
                      ("price_change", VNum 10);
                      ("price_change_pct", VNum (1000 # 100));
                      ("trend", VStr "strongly increasing");
                      ("volatility", VNum (4070801 # 1000000));
                      ("projected_price", VNum (802 # 7));
                      ("projection_pct", VNum (3200 # 770)) ]), s').
Proof. eexists. vm_compute. reflexivity. Qed.

(** * The projection of [analyze_price_trends] *)

(** The last [n] points of a window. *)
Definition last_points {A} (n : nat) (w : list A) : list A :=
  drop (length w - n) w.

(** The points of a window at the given offsets from its end (offset [k]
    is the point [k] places before the end), those that exist. *)
Definition points_at_offsets {A} (offsets : list nat) (w : list A) : list A :=
  omap (fun k => if (k <=? length w)%nat then w !! (length w - k)%nat else None)
       offsets.

Lemma take_drop_lookups {A} (w : list A) (m lo : nat) :
  (lo + m <= length w)%nat ->
  take m (drop lo w) = omap (fun i => w !! i) (seq lo m).
Proof.
  revert lo. induction m as [| m IH]; intros lo Hlen; [reflexivity |].
  destruct (lookup_lt_is_Some_2 w lo ltac:(lia)) as [x Hx].
  rewrite (drop_S _ _ _ Hx). cbn. rewrite Hx.
  f_equal. apply IH. lia.
Qed.

Lemma iloc_slice_last_week {A} (w : list A) :
  iloc_slice (Some (-7)) None w = last_points 7 w.
Proof.
  unfold iloc_slice, last_points, slice_bound.
  change (-7 <? 0) with true. cbn iota.
  replace (Z.to_nat (Z.max (Z.of_nat (length w) + -7) 0))
    with (length w - 7)%nat by lia.
  apply firstn_all2. rewrite length_skipn. lia.
Qed.

Lemma iloc_slice_from_14 {A} (w : list A) :
  (14 <= length w)%nat ->
  iloc_slice (Some (-14)) (Some (-7)) w
  = points_at_offsets [14; 13; 12; 11; 10; 9; 8]%nat w.
Proof.
  intros Hlen. unfold iloc_slice, points_at_offsets, slice_bound.
  change (-14 <? 0) with true. change (-7 <? 0) with true. cbn iota.
  replace (Z.to_nat (Z.max (Z.of_nat (length w) + -14) 0))
    with (length w - 14)%nat by lia.
  replace (Z.to_nat (Z.max (Z.of_nat (length w) + -7) 0
                     - Z.max (Z.of_nat (length w) + -14) 0))
    with 7%nat by lia.
  change (firstn 7 (skipn (length w - 14) w))
    with (take 7 (drop (length w - 14) w)).
  rewrite take_drop_lookups by lia.
  unfold omap. cbn [seq list_omap].
  repeat match goal with
         | |- context [(?k <=? length w)%nat] =>
             destruct (Nat.leb_spec k (length w)); [| lia]
         end.
  replace (length w - 13)%nat with (S (length w - 14)) by lia.
  replace (length w - 12)%nat with (S (S (length w - 14))) by lia.
  replace (length w - 11)%nat with (S (S (S (length w - 14)))) by lia.
  replace (length w - 10)%nat with (S (S (S (S (length w - 14))))) by lia.
  replace (length w - 9)%nat with (S (S (S (S (S (length w - 14)))))) by lia.
  replace (length w - 8)%nat
    with (S (S (S (S (S (S (length w - 14))))))) by lia.
  reflexivity.
Qed.

Lemma iloc_slice_week_before {A} (w : list A) :
  (7 < length w)%nat ->
  iloc_slice (Some (-14)) (Some (-7)) w
  = points_at_offsets [14; 13; 12; 11; 10; 9; 8]%nat w.
Proof.
  intros Hlen.
  destruct (le_lt_dec 14 (length w)) as [H14 | H14];
    [now apply iloc_slice_from_14 |].
  do 14 (destruct w as [| ? w]; [first [cbn in Hlen; lia | reflexivity] |]).
  cbn [length] in H14. lia.
Qed.

Lemma last_cons_Some {A} (x : A) (l : list A) :
  last (x :: l) = Some (List.last l x).
Proof.
  revert x. induction l as [| y l IH]; intros x; [reflexivity |].
  change (last (x :: y :: l)) with (last (y :: l)).
  now rewrite IH, last_cons.
Qed.

(** C7. On every non-empty price window, [current_price] is its last point.
    If the window has more than 7 points, [recent_trend] is the mean of the
    last 7 points minus the mean of the points at offsets -14 to -8,
    [projected_price] is [current_price + recent_trend] and [projection_pct]
    is [(projected_price / current_price - 1) * 100]; with 7 points or fewer
    [projected_price] is [current_price] and [projection_pct] is 0. *)
Theorem projection_of_window rt src crop timeframe s :
  price_window src crop timeframe <> [] ->
  let w := price_window src crop timeframe in
  exists analysis s' cur,
    analyze_price_trends rt src crop timeframe s = (Return (Some analysis), s')
    /\ last w = Some cur
    /\ dict_get "current_price" analysis = Some (VNum cur)
    /\ ((7 < length w)%nat ->
        let recent_trend :=
          (mean (last_points 7 w)
           - mean (points_at_offsets [14; 13; 12; 11; 10; 9; 8]%nat w))%Q in
        let projected_price := (cur + recent_trend)%Q in
        dict_get "projected_price" analysis = Some (VNum projected_price)
        /\ dict_get "projection_pct" analysis
           = Some (VNum ((projected_price / cur - 1) * (100 # 1))%Q))
    /\ ((length w <= 7)%nat ->
        dict_get "projected_price" analysis = Some (VNum cur)
        /\ dict_get "projection_pct" analysis = Some (VInt 0)).
Proof.
  intros Hne w.
  destruct (price_window src crop timeframe) as [| first rest] eqn:Hw;
    [congruence |].
  destruct (analyze_price_trends_window rt src crop timeframe s first rest Hw)
    as (analysis & s' & Hrun & _ & Hcur & _ & _ & Hproj & Hpct).
  exists analysis, s', (List.last rest first).
  split; [exact Hrun |]. split; [apply last_cons_Some |].
  split; [exact Hcur |]. fold w in Hproj, Hpct. split.
  - intros Hlen. apply Nat.ltb_lt in Hlen as Hb. rewrite Hb in Hproj, Hpct.
    rewrite iloc_slice_last_week, iloc_slice_week_before in Hproj, Hpct
      by exact Hlen.
    split; assumption.
  - intros Hlen. apply Nat.ltb_ge in Hlen. rewrite Hlen in Hproj, Hpct.
    split; assumption.
Qed.

Lemma projection_of_window_witness :
  price_window Sample.source "wheat" "1 month" <> []
  /\ exists analysis s' cur,
       analyze_price_trends Sample.runtime Sample.source "wheat" "1 month"
         DataAnalyzer.init = (Return (Some analysis), s')
       /\ last (price_window Sample.source "wheat" "1 month") = Some cur
       /\ dict_get "current_price" analysis = Some (VNum cur)
       /\ ((7 < length (price_window Sample.source "wheat" "1 month"))%nat ->
           dict_get "projected_price" analysis
           = Some (VNum (cur
                + (mean (last_points 7
                           (price_window Sample.source "wheat" "1 month"))
                   - mean (points_at_offsets [14; 13; 12; 11; 10; 9; 8]%nat
                             (price_window Sample.source "wheat" "1 month")))))
           /\ dict_get "projection_pct" analysis
              = Some (VNum (((cur
                   + (mean (last_points 7
                              (price_window Sample.source "wheat" "1 month"))
                      - mean (points_at_offsets [14; 13; 12; 11; 10; 9; 8]%nat
                                (price_window Sample.source "wheat" "1 month"))))
                  / cur - 1) * (100 # 1))))
       /\ ((length (price_window Sample.source "wheat" "1 month") <= 7)%nat ->
           dict_get "projected_price" analysis = Some (VNum cur)
           /\ dict_get "projection_pct" analysis = Some (VInt 0)).
Proof.
  split; [vm_compute; discriminate |].
  apply (projection_of_window Sample.runtime Sample.source "wheat" "1 month"
           DataAnalyzer.init).
  vm_compute; discriminate.
Defined.

(** On the eight points of the sample window the week before is the single
    point at offset -8. *)
Example week_before_of_sample_window :
  iloc_slice (Some (-14)) (Some (-7))
    (price_window Sample.source "wheat" "1 month") = [100 # 1]%Q
  /\ iloc_slice (Some (-7)) None (price_window Sample.source "wheat" "1 month")
     = [102 # 1; 99 # 1; 101 # 1; 105 # 1; 108 # 1; 107 # 1; 110 # 1]%Q.
Proof. split; reflexivity. Qed.

(** * [analyze_market_sentiment] *)

(** The number of news items that carry a sentiment label. *)
Definition label_count (label : string) (news_data : list news_row) : Z :=
  Z.of_nat (count_occ String.string_dec (map n_sentiment news_data) label).

Lemma sentiment_count_label_count label news_data :
  sentiment_count label news_data = label_count label news_data.
Proof.
  unfold sentiment_count, label_count. f_equal.
  induction news_data as [| r news_data IH]; [reflexivity |].
  cbn [List.filter map count_occ].
  destruct (String.eqb_spec (n_sentiment r) label) as [E | E];
    destruct (String.string_dec (n_sentiment r) label) as [E' | E'];
    try congruence; cbn [length]; now rewrite IH.
Qed.

Lemma label_count_nonneg label news_data : 0 <= label_count label news_data.
Proof. unfold label_count. lia. Qed.

Lemma quotient_in_unit_range (a b : Z) :
  0 < b -> - b <= a <= b ->
  (- (1) <= inject_Z a / inject_Z b <= 1)%Q.
Proof.
  intros Hb Hab.
  assert (HbQ : (0 < inject_Z b)%Q) by (unfold Qlt; cbn; lia).
  split.
  - apply Qle_shift_div_l; [exact HbQ |].
    unfold Qle; cbn; lia.
  - apply Qle_shift_div_r; [exact HbQ |].
    unfold Qle; cbn; lia.
Qed.

Lemma sentiment_trend_of_zero : sentiment_trend_of (0 # 1) = "neutral".
Proof. reflexivity. Qed.

(** C6. On every non-empty news list the analyzer returns an analysis and
    never raises.  When the positive, negative and neutral counts sum to more
    than 0 its [sentiment_score] is [(positive - negative) / total]; the
    score always lies between -1 and 1; when the counts sum to 0 no division
    takes place, the score is the integer 0 and the trend is neutral. *)
Theorem sentiment_score_range src crop s :
  load_or_fetch_market_news src crop <> [] ->
  let news_data := load_or_fetch_market_news src crop in
  let positive := label_count "positive" news_data in
  let negative := label_count "negative" news_data in
  let neutral := label_count "neutral" news_data in
  let total := positive + negative + neutral in
  exists analysis s' score,
    analyze_market_sentiment src crop s = (Return (Some analysis), s')
    /\ dict_get "sentiment_score" analysis = Some score
    /\ (0 < total ->
        score = VNum (inject_Z (positive - negative) / inject_Z total)%Q)
    /\ (- (1) <= number score <= 1)%Q
    /\ (total = 0 ->
        score = VInt 0
        /\ dict_get "sentiment_trend" analysis = Some (VStr "neutral")).
Proof.
  intros Hne.
  destruct (load_or_fetch_market_news src crop) as [| r news_rest] eqn:Enews;
    [congruence |].
  intros news_data positive negative neutral total.
  assert (Hp := label_count_nonneg "positive" news_data).
  assert (Hn := label_count_nonneg "negative" news_data).
  assert (Hu := label_count_nonneg "neutral" news_data).
  fold positive in Hp. fold negative in Hn. fold neutral in Hu.
  unfold analyze_market_sentiment. run_monad.
  rewrite Enews, !sentiment_count_label_count.
  fold news_data positive negative neutral total.
  change (0 <? length news_data)%nat with true. cbn iota.
  destruct (Z.ltb_spec 0 total) as [Hpos | Hzero].
  - unfold truediv. destruct (Z.eqb_spec total 0) as [E0 | _]; [lia |].
    cbn iota. do 3 eexists. split; [reflexivity |].
    split; [reflexivity |]. split; [reflexivity |]. split.
    + cbn [number]. apply quotient_in_unit_range; lia.
    + lia.
  - do 3 eexists. split; [reflexivity |].
    split; [reflexivity |]. split; [lia |]. split.
    + cbn [number inject_Z]. split; discriminate.
    + intros _. split; reflexivity.
Qed.

Lemma sentiment_score_range_witness :
  load_or_fetch_market_news Sample.source "wheat" <> []
  /\ exists analysis s' score,
       analyze_market_sentiment Sample.source "wheat" DataAnalyzer.init
       = (Return (Some analysis), s')
       /\ dict_get "sentiment_score" analysis = Some score
       /\ (0 < 3 + 1 + 0 -> score = VNum (inject_Z (3 - 1) / inject_Z (3 + 1 + 0))%Q)
       /\ (- (1) <= number score <= 1)%Q
       /\ (3 + 1 + 0 = 0 ->
           score = VInt 0
           /\ dict_get "sentiment_trend" analysis = Some (VStr "neutral")).
Proof.
  split; [vm_compute; discriminate |].
  apply (sentiment_score_range Sample.source "wheat" DataAnalyzer.init).
  vm_compute; discriminate.
Defined.

(** Three positive items and one negative give exactly one half, which is
    not strongly positive. *)
Example sentiment_of_sample_news :
  exists analysis s',
    analyze_market_sentiment Sample.source "wheat" DataAnalyzer.init
    = (Return (Some analysis), s')
    /\ dict_get "sentiment_score" analysis = Some (VNum (2 # 4))
    /\ dict_get "sentiment_trend" analysis = Some (VStr "positive").
Proof. do 2 eexists. vm_compute. repeat split. Qed.

(** * [analyze_weather_impact] *)

(** The branches the specification documents. *)
Inductive branch : Type :=
| WheatHeatAndDryness
| WheatColdAndExcessRain
| WheatFavorable
| CornColdOrInsufficientRain
| CornHeatAndMoisture
| CornFavorable
| SoybeansColdOrDry
| SoybeansExcessRain
| SoybeansFavorable
| OtherCrop.

(** When a documented branch applies to a crop, an average temperature and a
    total precipitation; an [elif] branch requires the one before it to
    fail. *)
Definition applies (b : branch) (crop : string) (t p : Q) : Prop :=
  match b with
  | WheatHeatAndDryness => crop = "wheat" /\ (25 < t /\ p < 10)%Q
  | WheatColdAndExcessRain =>
      crop = "wheat" /\ ~ (25 < t /\ p < 10)%Q /\ (t < 15 /\ 30 < p)%Q
  | WheatFavorable =>
      crop = "wheat" /\ ~ (25 < t /\ p < 10)%Q /\ ~ (t < 15 /\ 30 < p)%Q
  | CornColdOrInsufficientRain => crop = "corn" /\ (t < 18 \/ p < 15)%Q
  | CornHeatAndMoisture =>
      crop = "corn" /\ ~ (t < 18 \/ p < 15)%Q /\ (30 < t /\ p < 20)%Q
  | CornFavorable =>
      crop = "corn" /\ ~ (t < 18 \/ p < 15)%Q /\ ~ (30 < t /\ p < 20)%Q
  | SoybeansColdOrDry => crop = "soybeans" /\ (t < 20 \/ p < 10)%Q
  | SoybeansExcessRain =>
      crop = "soybeans" /\ ~ (t < 20 \/ p < 10)%Q /\ (40 < p)%Q
  | SoybeansFavorable =>
      crop = "soybeans" /\ ~ (t < 20 \/ p < 10)%Q /\ ~ (40 < p)%Q
  | OtherCrop => crop <> "wheat" /\ crop <> "corn" /\ crop <> "soybeans"
  end.

(** The impact the specification gives each branch. *)
Definition impact_of (b : branch) : string :=
  match b with
  | WheatHeatAndDryness | WheatColdAndExcessRain
  | CornColdOrInsufficientRain | CornHeatAndMoisture
  | SoybeansColdOrDry | SoybeansExcessRain => "negative"
  | WheatFavorable | CornFavorable | SoybeansFavorable => "neutral to positive"
  | OtherCrop => "uncertain"
  end.

(** The branch the code takes. *)
Definition branch_taken (crop : string) (t p : Q) : branch :=
  if String.eqb crop "wheat" then
    if Qgt_bool t (25 # 1) && Qlt_bool p (10 # 1) then WheatHeatAndDryness
    else if Qlt_bool t (15 # 1) && Qgt_bool p (30 # 1) then WheatColdAndExcessRain
    else WheatFavorable
  else if String.eqb crop "corn" then
    if Qlt_bool t (18 # 1) || Qlt_bool p (15 # 1) then CornColdOrInsufficientRain
    else if Qgt_bool t (30 # 1) && Qlt_bool p (20 # 1) then CornHeatAndMoisture
    else CornFavorable
  else if String.eqb crop "soybeans" then
    if Qlt_bool t (20 # 1) || Qlt_bool p (10 # 1) then SoybeansColdOrDry
    else if Qgt_bool p (40 # 1) then SoybeansExcessRain
    else SoybeansFavorable
  else OtherCrop.

Lemma weather_verdict_impact crop t p :
  fst (weather_verdict crop t p) = impact_of (branch_taken crop t p).
Proof.
  unfold weather_verdict, branch_taken.
  repeat match goal with
         | |- context [if ?c then _ else _] => destruct c
         end; reflexivity.
Qed.

Lemma branch_taken_applies crop t p : applies (branch_taken crop t p) crop t p.
Proof.
  unfold branch_taken.
  destruct (String.eqb_spec crop "wheat") as [-> | Hw].
  { destruct (Qgt_boolP t (25 # 1)), (Qlt_boolP p (10 # 1)),
      (Qlt_boolP t (15 # 1)), (Qgt_boolP p (30 # 1));
      cbn; repeat split; tauto. }
  destruct (String.eqb_spec crop "corn") as [-> | Hc].
  { destruct (Qlt_boolP t (18 # 1)), (Qlt_boolP p (15 # 1)),
      (Qgt_boolP t (30 # 1)), (Qlt_boolP p (20 # 1));
      cbn; repeat split; tauto. }
  destruct (String.eqb_spec crop "soybeans") as [-> | Hs].
  { destruct (Qlt_boolP t (20 # 1)), (Qlt_boolP p (10 # 1)),
      (Qgt_boolP p (40 # 1));
      cbn; repeat split; tauto. }
  cbn. tauto.
Qed.

Lemma applies_unique b1 b2 crop t p :
  applies b1 crop t p -> applies b2 crop t p -> b1 = b2.
Proof.
  destruct b1, b2; cbn; intros H1 H2;
    solve [reflexivity | exfalso; intuition congruence].
Qed.

Lemma weather_verdict_other_crop crop t p :
  crop <> "wheat" -> crop <> "corn" -> crop <> "soybeans" ->
  weather_verdict crop t p
  = ("uncertain",
     "Weather impact analysis not specifically calibrated for " ++ crop ++ ".").
Proof.
  intros Hw Hc Hs. unfold weather_verdict.
  destruct (String.eqb_spec crop "wheat"); [congruence |].
  destruct (String.eqb_spec crop "corn"); [congruence |].
  destruct (String.eqb_spec crop "soybeans"); [congruence |].
  reflexivity.
Qed.

(** What the analyzer returns on a forecast that is not empty. *)
Lemma analyze_weather_impact_forecast src crop region s :
  load_or_fetch_weather_forecast src region <> [] ->
  let weather_data := load_or_fetch_weather_forecast src region in
  let avg_temp := mean (map w_temperature weather_data) in
  let total_precip := Qsum (map w_precipitation weather_data) in
  exists analysis s',
    analyze_weather_impact src crop region s = (Return (Some analysis), s')
    /\ analysis_results s'
       = <[crop ++ "_weather" := analysis]> (analysis_results s)
    /\ dict_get "average_temperature" analysis = Some (VNum avg_temp)
    /\ dict_get "total_precipitation" analysis = Some (VNum total_precip)
    /\ dict_get "weather_impact" analysis
       = Some (VStr (fst (weather_verdict crop avg_temp total_precip)))
    /\ dict_get "explanation" analysis
       = Some (VStr (snd (weather_verdict crop avg_temp total_precip))).
Proof.
  intros Hne weather_data avg_temp total_precip.
  unfold analyze_weather_impact. run_monad.
  fold weather_data avg_temp total_precip.
  destruct weather_data as [| r rest] eqn:E; [now subst weather_data |].
  change (0 <? length (r :: rest))%nat with true. cbn iota.
  destruct (weather_verdict crop avg_temp total_precip) as [impact explanation].
  run_monad. do 2 eexists. repeat split.
Qed.

(** C5. The weather classification is a total function of the crop, the
    average temperature and the total precipitation: for every such triple
    exactly one documented branch applies and the code's impact is that
    branch's; a crop other than wheat, corn and soybeans gets "uncertain"
    and an explanation that names it.  On every non-empty forecast the
    analyzer returns the classification of the crop at the forecast's mean
    temperature and summed precipitation. *)
Theorem weather_classification_total src crop region s :
  load_or_fetch_weather_forecast src region <> [] ->
  let weather_data := load_or_fetch_weather_forecast src region in
  let avg_temp := mean (map w_temperature weather_data) in
  let total_precip := Qsum (map w_precipitation weather_data) in
  (forall t p,
     exists b,
       applies b crop t p
       /\ (forall b', applies b' crop t p -> b' = b)
       /\ fst (weather_verdict crop t p) = impact_of b)
  /\ (crop <> "wheat" -> crop <> "corn" -> crop <> "soybeans" ->
      forall t p,
        weather_verdict crop t p
        = ("uncertain",
           "Weather impact analysis not specifically calibrated for "
           ++ crop ++ "."))
  /\ exists analysis s' b,
       analyze_weather_impact src crop region s = (Return (Some analysis), s')
       /\ applies b crop avg_temp total_precip
       /\ dict_get "weather_impact" analysis = Some (VStr (impact_of b))
       /\ dict_get "explanation" analysis
          = Some (VStr (snd (weather_verdict crop avg_temp total_precip))).
Proof.
  intros Hne weather_data avg_temp total_precip.
  split; [| split].
  - intros t p. exists (branch_taken crop t p).
    split; [apply branch_taken_applies |]. split.
    + intros b' Hb'. eapply applies_unique; [exact Hb' |].
      apply branch_taken_applies.
    + apply weather_verdict_impact.
  - intros Hw Hc Hs t p. now apply weather_verdict_other_crop.
  - destruct (analyze_weather_impact_forecast src crop region s Hne)
      as (analysis & s' & Hrun & _ & _ & _ & Himpact & Hexpl).
    exists analysis, s', (branch_taken crop avg_temp total_precip).
    split; [exact Hrun |]. split; [apply branch_taken_applies |].
    split; [| exact Hexpl].
    rewrite <- weather_verdict_impact. exact Himpact.
Qed.

Lemma weather_classification_total_witness :
  load_or_fetch_weather_forecast Sample.source "midwest" <> []
  /\ exists analysis s' b,
       analyze_weather_impact Sample.source "rice" "midwest" DataAnalyzer.init
       = (Return (Some analysis), s')
       /\ applies b "rice" (66 # 3) (10 # 1)
       /\ dict_get "weather_impact" analysis = Some (VStr (impact_of b))
       /\ dict_get "explanation" analysis
          = Some (VStr (snd (weather_verdict "rice" (66 # 3) (10 # 1)))).
Proof.
  split; [vm_compute; discriminate |].
  apply (weather_classification_total Sample.source "rice" "midwest"
           DataAnalyzer.init).
  vm_compute; discriminate.
Defined.

(** Rice is outside the calibrated crops. *)
Example weather_of_rice :
  exists s',
    analyze_weather_impact Sample.source "rice" "midwest" DataAnalyzer.init
    = (Return (Some [ ("crop", VStr "rice");
                      ("region", VStr "midwest");
                      ("average_temperature", VNum (66 # 3));
                      ("total_precipitation", VNum (10 # 1));
                      ("weather_impact", VStr "uncertain");
                      ("explanation",
                       VStr "Weather impact analysis not specifically calibrated for rice.") ]),
       s').
Proof. eexists. vm_compute. reflexivity. Qed.

(** * What each analyzer does to the analyzer's state *)

(** The analyzer appended [new] to the log. *)
Definition logged (s s' : state) (new : list log_record) : Prop :=
  log s' = (log s ++ new)%list.

Lemma analyze_price_trends_effect rt src crop timeframe s :
  exists o s' tail,
    analyze_price_trends rt src crop timeframe s = (o, s')
    /\ logged s s' (price_line crop timeframe :: tail)
    /\ Forall (fun r => is_entry r = false) tail
    /\ ((o = Raise (KeyError "0")
         /\ load_or_fetch_historical_prices src crop = []
         /\ analysis_results s' = analysis_results s)
        \/ (o = Return None
            /\ load_or_fetch_historical_prices src crop <> []
            /\ price_window src crop timeframe = []
            /\ analysis_results s' = analysis_results s)
        \/ (exists analysis,
              o = Return (Some analysis)
              /\ price_window src crop timeframe <> []
              /\ analysis_results s'
                 = <[crop ++ "_" ++ timeframe := analysis]> (analysis_results s))).
Proof.
  destruct (price_window src crop timeframe) as [| first rest] eqn:Hw.
  - unfold price_window in Hw. unfold analyze_price_trends, logged, price_line.
    destruct (load_or_fetch_historical_prices src crop) as [| r0 frame] eqn:Ef.
    + run_monad. cbn [map label_zero]. do 3 eexists.
      split; [reflexivity |]. cbn [log analysis_results].
      split; [reflexivity |]. split; [constructor |]. left. repeat split.
    + run_monad. cbn [map label_zero].
      apply map_eq_nil in Hw. rewrite Hw. cbn [length Nat.ltb Nat.leb].
      do 3 eexists. split; [reflexivity |]. cbn [log analysis_results].
      rewrite <- app_assoc. split; [reflexivity |].
      split; [repeat constructor |]. right. left. repeat split. discriminate.
  - destruct (analyze_price_trends_window rt src crop timeframe s first rest Hw)
      as (analysis & s' & Hrun & [Hres Hlog] & _).
    exists (Return (Some analysis)), s', [chart_line src crop timeframe].
    split; [exact Hrun |]. split; [exact Hlog |]. split.
    + constructor; [| constructor]. unfold chart_line.
      destruct (chart_fault src); reflexivity.
    + right. right. exists analysis. repeat split; [discriminate | exact Hres].
Qed.

Lemma analyze_market_sentiment_effect src crop s :
  exists o s' tail,
    analyze_market_sentiment src crop s = (Return o, s')
    /\ logged s s' (sentiment_line crop :: tail)
    /\ Forall (fun r => is_entry r = false) tail
    /\ ((o = None
         /\ load_or_fetch_market_news src crop = []
         /\ analysis_results s' = analysis_results s)
        \/ (exists analysis,
              o = Some analysis
              /\ load_or_fetch_market_news src crop <> []
              /\ analysis_results s'
                 = <[crop ++ "_sentiment" := analysis]> (analysis_results s))).
Proof.
  unfold analyze_market_sentiment, logged, sentiment_line. run_monad.
  destruct (load_or_fetch_market_news src crop) as [| r rest] eqn:E.
  - cbn [length Nat.ltb Nat.leb]. do 3 eexists. split; [reflexivity |].
    cbn [log analysis_results]. rewrite <- app_assoc.
    split; [reflexivity |]. split; [repeat constructor |].
    left. repeat split.
  - change (0 <? length (r :: rest))%nat with true. cbn iota.
    set (total := sentiment_count "positive" (r :: rest)
                  + sentiment_count "negative" (r :: rest)
                  + sentiment_count "neutral" (r :: rest)).
    destruct (Z.ltb_spec 0 total) as [Hpos | Hzero].
    + unfold truediv. destruct (Z.eqb_spec total 0) as [E0 | _]; [lia |].
      cbn iota. do 3 eexists. split; [reflexivity |].
      cbn [log analysis_results]. split; [reflexivity |].
      split; [constructor |]. right. eexists. repeat split. discriminate.
    + do 3 eexists. split; [reflexivity |].
      cbn [log analysis_results]. split; [reflexivity |].
      split; [constructor |]. right. eexists. repeat split. discriminate.
Qed.

Lemma analyze_weather_impact_effect src crop region s :
  exists o s' tail,
    analyze_weather_impact src crop region s = (Return o, s')
    /\ logged s s' (weather_line crop region :: tail)
    /\ Forall (fun r => is_entry r = false) tail
    /\ ((o = None
         /\ load_or_fetch_weather_forecast src region = []
         /\ analysis_results s' = analysis_results s)
        \/ (exists analysis,
              o = Some analysis
              /\ load_or_fetch_weather_forecast src region <> []
              /\ analysis_results s'
                 = <[crop ++ "_weather" := analysis]> (analysis_results s))).
Proof.
  unfold analyze_weather_impact, logged, weather_line. run_monad.
  destruct (load_or_fetch_weather_forecast src region) as [| r rest] eqn:E.
  - cbn [length Nat.ltb Nat.leb]. do 3 eexists. split; [reflexivity |].
    cbn [log analysis_results]. rewrite <- app_assoc.
    split; [reflexivity |]. split; [repeat constructor |].
    left. repeat split.
  - change (0 <? length (r :: rest))%nat with true. cbn iota.
    destruct (weather_verdict crop _ _) as [impact explanation].
    run_monad. do 3 eexists. split; [reflexivity |].
    cbn [log analysis_results]. split; [reflexivity |].
    split; [constructor |]. right. eexists. repeat split. discriminate.
Qed.

(** * Counting the runs of an analyzer in a log *)

Lemma runs_app line l1 l2 :
  runs line (l1 ++ l2)%list = (runs line l1 + runs line l2)%nat.
Proof. unfold runs. now rewrite List.filter_app, length_app. Qed.

Lemma level_eqb_eq a b : level_eqb a b = true -> a = b.
Proof. destruct a, b; (reflexivity || discriminate). Qed.

Lemma runs_tail line tail :
  is_entry line = true ->
  Forall (fun r => is_entry r = false) tail ->
  runs line tail = 0%nat.
Proof.
  intros Hline Htail. unfold runs.
  induction Htail as [| r tail Hr _ IH]; [reflexivity |].
  cbn [List.filter].
  destruct (level_eqb (fst r) (fst line) && String.eqb (snd r) (snd line))
    eqn:E; [| exact IH].
  apply andb_prop in E as [E1 E2].
  apply level_eqb_eq in E1. apply String.eqb_eq in E2.
  destruct r, line; cbn in E1, E2; subst. congruence.
Qed.

Lemma runs_cons line r l :
  runs line (r :: l)
  = ((if level_eqb (fst r) (fst line) && String.eqb (snd r) (snd line)
      then 1 else 0) + runs line l)%nat.
Proof. unfold runs. cbn [List.filter]. now destruct (_ && _). Qed.

Lemma is_entry_price_line crop timeframe :
  is_entry (price_line crop timeframe) = true.
Proof. reflexivity. Qed.

Lemma is_entry_sentiment_line crop : is_entry (sentiment_line crop) = true.
Proof. reflexivity. Qed.

Lemma is_entry_weather_line crop region :
  is_entry (weather_line crop region) = true.
Proof. reflexivity. Qed.

(** * The steps of [get_comprehensive_analysis] *)

Lemma unless_present_run {A} key (analyzer : M state A) s :
  unless_present key analyzer s
  = match analysis_results s !! key with
    | Some _ => (Return tt, s)
    | None =>
        match analyzer s with
        | (Return _, s') => (Return tt, s')
        | (Raise e, s') => (Raise e, s')
        end
    end.
Proof.
  unfold unless_present. run_monad.
  destruct (analysis_results s !! key); [reflexivity |].
  destruct (analyzer s) as [[a | e] s']; reflexivity.
Qed.

(** What a guarded analyzer does: it logs [new], keeps every entry that is
    present, does nothing when its own key is present, logs its entry line
    first when it runs, when it returns on data that is not empty its key
    is present afterwards, and it adds no entry but its own, and that one
    only on data that is not empty. *)
Definition step_spec (key : string) (line : log_record) (nonempty : Prop)
    (s : state) (o : outcome unit) (s' : state) (new : list log_record) : Prop :=
  logged s s' new
  /\ (forall k v, analysis_results s !! k = Some v ->
                  analysis_results s' !! k = Some v)
  /\ (is_Some (analysis_results s !! key) -> new = [])
  /\ (new = []
      \/ exists tail, new = line :: tail
                      /\ Forall (fun r => is_entry r = false) tail)
  /\ (o = Return tt -> nonempty -> is_Some (analysis_results s' !! key))
  /\ (forall k, analysis_results s !! k = None -> (k = key -> ~ nonempty) ->
                analysis_results s' !! k = None).

Lemma logged_nil s : logged s s [].
Proof. unfold logged. now rewrite app_nil_r. Qed.

Lemma insert_keeps (m : gmap string dict) key a k v :
  m !! key = None -> m !! k = Some v -> <[key := a]> m !! k = Some v.
Proof.
  intros Hkey Hk. rewrite lookup_insert_ne; [exact Hk |]. congruence.
Qed.

Lemma step_spec_skipped key line nonempty s a :
  analysis_results s !! key = Some a ->
  step_spec key line nonempty s (Return tt) s [].
Proof.
  intros Hk. unfold step_spec.
  split; [apply logged_nil |]. split; [auto |]. split; [auto |].
  split; [now left |]. split; [| auto]. intros _ _. rewrite Hk. eauto.
Qed.

Lemma step_spec_no_result key line nonempty s o s' tail :
  analysis_results s !! key = None ->
  logged s s' (line :: tail) ->
  Forall (fun r => is_entry r = false) tail ->
  analysis_results s' = analysis_results s ->
  (o = Return tt -> ~ nonempty) ->
  step_spec key line nonempty s o s' (line :: tail).
Proof.
  intros Hk Hlog Htail Hres Hempty. unfold step_spec.
  split; [exact Hlog |]. split; [now rewrite Hres |].
  split; [intros [? ?]; congruence |]. split; [right; eauto |].
  split; [| now rewrite Hres].
  intros Ho Hne. now destruct (Hempty Ho).
Qed.

Lemma step_spec_stored key line (nonempty : Prop) s o s' tail a :
  nonempty ->
  analysis_results s !! key = None ->
  logged s s' (line :: tail) ->
  Forall (fun r => is_entry r = false) tail ->
  analysis_results s' = <[key := a]> (analysis_results s) ->
  step_spec key line nonempty s o s' (line :: tail).
Proof.
  intros Hne Hk Hlog Htail Hres. unfold step_spec.
  split; [exact Hlog |]. split.
  { intros k v Hkv. rewrite Hres. now apply insert_keeps. }
  split; [intros [? ?]; congruence |]. split; [right; eauto |].
  split; [intros _ _; rewrite Hres, lookup_insert_eq; eauto |].
  intros k Hkn Hother. rewrite Hres.
  destruct (decide (key = k)) as [<- | Hneq]; [now destruct Hother |].
  now rewrite lookup_insert_ne.
Qed.

Lemma price_step rt src crop timeframe s :
  exists o s' new,
    unless_present (crop ++ "_" ++ timeframe)
      (analyze_price_trends rt src crop timeframe) s = (o, s')
    /\ step_spec (crop ++ "_" ++ timeframe) (price_line crop timeframe)
         (price_window src crop timeframe <> []) s o s' new
    /\ (forall e, o = Raise e -> load_or_fetch_historical_prices src crop = []).
Proof.
  rewrite unless_present_run.
  destruct (analysis_results s !! (crop ++ "_" ++ timeframe)) as [a |] eqn:Ek.
  - exists (Return tt), s, []. split; [reflexivity |].
    split; [now apply step_spec_skipped with a | discriminate].
  - destruct (analyze_price_trends_effect rt src crop timeframe s)
      as (o & s' & tail & Hrun & Hlog & Htail & Hcases).
    rewrite Hrun.
    destruct Hcases as [(-> & Hf & Hres) | [(-> & _ & Hw & Hres)
                                           | (a & -> & Hne & Hres)]].
    + do 3 eexists. split; [reflexivity |]. split; [| auto].
      apply step_spec_no_result with (tail := tail); auto. discriminate.
    + do 3 eexists. split; [reflexivity |]. split; [| discriminate].
      apply step_spec_no_result with (tail := tail); auto.
    + do 3 eexists. split; [reflexivity |]. split; [| discriminate].
      now apply step_spec_stored with (tail := tail) (a := a).
Qed.

Lemma sentiment_step src crop s :
  exists s' new,
    unless_present (crop ++ "_sentiment")
      (analyze_market_sentiment src crop) s = (Return tt, s')
    /\ step_spec (crop ++ "_sentiment") (sentiment_line crop)
         (load_or_fetch_market_news src crop <> []) s (Return tt) s' new.
Proof.
  rewrite unless_present_run.
  destruct (analysis_results s !! (crop ++ "_sentiment")) as [a |] eqn:Ek.
  - exists s, []. split; [reflexivity |].
    now apply step_spec_skipped with a.
  - destruct (analyze_market_sentiment_effect src crop s)
      as (o & s' & tail & Hrun & Hlog & Htail & Hcases).
    rewrite Hrun.
    destruct Hcases as [(-> & Hn & Hres) | (a & -> & Hne & Hres)].
    + do 2 eexists. split; [reflexivity |].
      apply step_spec_no_result with (tail := tail); auto.
    + do 2 eexists. split; [reflexivity |].
      now apply step_spec_stored with (tail := tail) (a := a).
Qed.

Lemma weather_step src crop s :
  exists s' new,
    unless_present (crop ++ "_weather")
      (analyze_weather_impact src crop "midwest") s = (Return tt, s')
    /\ step_spec (crop ++ "_weather") (weather_line crop "midwest")
         (load_or_fetch_weather_forecast src "midwest" <> [])
         s (Return tt) s' new.
Proof.
  rewrite unless_present_run.
  destruct (analysis_results s !! (crop ++ "_weather")) as [a |] eqn:Ek.
  - exists s, []. split; [reflexivity |].
    now apply step_spec_skipped with a.
  - destruct (analyze_weather_impact_effect src crop "midwest" s)
      as (o & s' & tail & Hrun & Hlog & Htail & Hcases).
    rewrite Hrun.
    destruct Hcases as [(-> & Hn & Hres) | (a & -> & Hne & Hres)].
    + do 2 eexists. split; [reflexivity |].
      apply step_spec_no_result with (tail := tail); auto.
    + do 2 eexists. split; [reflexivity |].
      now apply step_spec_stored with (tail := tail) (a := a).
Qed.

Lemma bind_run {S A B} (m : M S A) (f : A -> M S B) (s : S) :
  bind m f s
  = match m s with
    | (Return a, s') => f a s'
    | (Raise e, s') => (Raise e, s')
    end.
Proof. reflexivity. Qed.

(** The record [get_comprehensive_analysis] builds from the analyzer's
    results. *)
Definition comprehensive_of (src : data_source) (crop timeframe : string)
    (results : gmap string dict) : dict :=
  [ ("crop", VStr crop);
    ("timeframe", VStr timeframe);
    ("price_analysis", VDict (default [] (results !! (crop ++ "_" ++ timeframe))));
    ("sentiment_analysis", VDict (default [] (results !! (crop ++ "_sentiment"))));
    ("weather_analysis", VDict (default [] (results !! (crop ++ "_weather"))));
    ("analysis_date", VStr (today src)) ].

Definition comprehensive_line (crop : string) : log_record :=
  (INFO, "Generating comprehensive analysis for " ++ crop).

(** [get_comprehensive_analysis] is its three guarded analyzers in a row;
    only the first can raise. *)
Lemma get_comprehensive_analysis_steps rt src crop timeframe s :
  let s0 := {| analysis_results := analysis_results s;
               log := (log s ++ [comprehensive_line crop])%list |} in
  exists o1 s1 new1,
    step_spec (crop ++ "_" ++ timeframe) (price_line crop timeframe)
      (price_window src crop timeframe <> []) s0 o1 s1 new1
    /\ ((exists e,
           o1 = Raise e
           /\ load_or_fetch_historical_prices src crop = []
           /\ get_comprehensive_analysis rt src crop timeframe s = (Raise e, s1))
        \/ (o1 = Return tt
            /\ exists s2 new2 s3 new3,
                 step_spec (crop ++ "_sentiment") (sentiment_line crop)
                   (load_or_fetch_market_news src crop <> [])
                   s1 (Return tt) s2 new2
                 /\ step_spec (crop ++ "_weather") (weather_line crop "midwest")
                      (load_or_fetch_weather_forecast src "midwest" <> [])
                      s2 (Return tt) s3 new3
                 /\ get_comprehensive_analysis rt src crop timeframe s
                    = (Return (comprehensive_of src crop timeframe
                                 (analysis_results s3)), s3))).
Proof.
  intros s0.
  destruct (price_step rt src crop timeframe s0)
    as (o1 & s1 & new1 & Hrun1 & Hspec1 & Hraise).
  exists o1, s1, new1. split; [exact Hspec1 |].
  assert (Hfirst :
    get_comprehensive_analysis rt src crop timeframe s
    = match o1 with
      | Return _ =>
          bind (unless_present (crop ++ "_sentiment")
                  (analyze_market_sentiment src crop))
            (fun _ =>
               bind (unless_present (crop ++ "_weather")
                       (analyze_weather_impact src crop "midwest"))
                 (fun _ =>
                    bind (results_get (crop ++ "_" ++ timeframe))
                      (fun price_analysis =>
                         bind (results_get (crop ++ "_sentiment"))
                           (fun sentiment_analysis =>
                              bind (results_get (crop ++ "_weather"))
                                (fun weather_analysis =>
                                   ret [ ("crop", VStr crop);
                                         ("timeframe", VStr timeframe);
                                         ("price_analysis", VDict price_analysis);
                                         ("sentiment_analysis",
                                          VDict sentiment_analysis);
                                         ("weather_analysis",
                                          VDict weather_analysis);
                                         ("analysis_date", VStr (today src)) ])))))
            s1
      | Raise e => (Raise e, s1)
      end).
  { unfold get_comprehensive_analysis.
    rewrite bind_run. unfold DataAnalyzer.logging at 1. cbn iota beta.
    fold (comprehensive_line crop). fold s0.
    rewrite bind_run, Hrun1. now destruct o1. }
  destruct o1 as [[] | e]; [right | left; eauto].
  split; [reflexivity |].
  destruct (sentiment_step src crop s1) as (s2 & new2 & Hrun2 & Hspec2).
  destruct (weather_step src crop s2) as (s3 & new3 & Hrun3 & Hspec3).
  exists s2, new2, s3, new3. split; [exact Hspec2 |]. split; [exact Hspec3 |].
  rewrite Hfirst, bind_run, Hrun2, bind_run, Hrun3. reflexivity.
Qed.

Definition same_line (r line : log_record) : bool :=
  level_eqb (fst r) (fst line) && String.eqb (snd r) (snd line).

Lemma runs_part line line' new :
  is_entry line = true ->
  (new = []
   \/ exists tail, new = line' :: tail
                   /\ Forall (fun r => is_entry r = false) tail) ->
  (runs line new <= 1)%nat
  /\ (same_line line' line = false -> runs line new = 0%nat).
Proof.
  intros Hline [-> | (tail & -> & Htail)]; [split; auto |].
  rewrite runs_cons, (runs_tail line tail Hline Htail).
  fold (same_line line' line).
  destruct (same_line line' line); split; (lia || discriminate || reflexivity).
Qed.

Lemma runs_comprehensive_line line crop :
  is_entry line = true -> runs line [comprehensive_line crop] = 0%nat.
Proof. intros H. apply runs_tail; [exact H |]. now repeat constructor. Qed.

Lemma is_Some_kept (m m' : gmap string dict) k :
  (forall k v, m !! k = Some v -> m' !! k = Some v) ->
  is_Some (m !! k) -> is_Some (m' !! k).
Proof. intros H [v Hv]. exists v. now apply H. Qed.

(** C9, as the code has it.  [get_comprehensive_analysis] runs each analyzer
    at most once in a call, and not at all when its key is already in
    [analysis_results]; an entry that is present is never replaced; when the
    call returns, the key of every analyzer whose data is not empty is
    present, so that no later call runs that analyzer again; and an analyzer
    whose data is empty adds no entry, so that its key stays absent. *)
Theorem sub_analyses_are_memoized rt src crop timeframe s :
  exists o s' new,
    get_comprehensive_analysis rt src crop timeframe s = (o, s')
    /\ logged s s' new
    /\ (forall k v, analysis_results s !! k = Some v ->
                    analysis_results s' !! k = Some v)
    /\ (is_Some (analysis_results s !! (crop ++ "_" ++ timeframe)) ->
        runs (price_line crop timeframe) new = 0%nat)
    /\ (is_Some (analysis_results s !! (crop ++ "_sentiment")) ->
        runs (sentiment_line crop) new = 0%nat)
    /\ (is_Some (analysis_results s !! (crop ++ "_weather")) ->
        runs (weather_line crop "midwest") new = 0%nat)
    /\ (runs (price_line crop timeframe) new <= 1)%nat
    /\ (runs (sentiment_line crop) new <= 1)%nat
    /\ (runs (weather_line crop "midwest") new <= 1)%nat
    /\ (forall c, o = Return c ->
          (price_window src crop timeframe <> [] ->
           is_Some (analysis_results s' !! (crop ++ "_" ++ timeframe)))
          /\ (load_or_fetch_market_news src crop <> [] ->
              is_Some (analysis_results s' !! (crop ++ "_sentiment")))
          /\ (load_or_fetch_weather_forecast src "midwest" <> [] ->
              is_Some (analysis_results s' !! (crop ++ "_weather"))))
    /\ (forall k,
          analysis_results s !! k = None ->
          (k = crop ++ "_" ++ timeframe -> price_window src crop timeframe = []) ->
          (k = crop ++ "_sentiment" -> load_or_fetch_market_news src crop = []) ->
          (k = crop ++ "_weather" ->
           load_or_fetch_weather_forecast src "midwest" = []) ->
          analysis_results s' !! k = None).
Proof.
  destruct (get_comprehensive_analysis_steps rt src crop timeframe s)
    as (o1 & s1 & new1 & (Hlog1 & Hkeep1 & Hskip1 & Hnew1 & Hend1 & Habs1)
        & Hrest).
  cbn [analysis_results log] in *.
  assert (Hp := runs_part (price_line crop timeframe)
                  (price_line crop timeframe) new1 eq_refl Hnew1).
  assert (Hs1 := runs_part (sentiment_line crop)
                   (price_line crop timeframe) new1 eq_refl Hnew1).
  assert (Hw1 := runs_part (weather_line crop "midwest")
                   (price_line crop timeframe) new1 eq_refl Hnew1).
  destruct Hp as [Hp _]. destruct Hs1 as [_ Hs1]. destruct Hw1 as [_ Hw1].
  specialize (Hs1 eq_refl). specialize (Hw1 eq_refl).
  destruct Hrest as [(e & -> & _ & Hrun)
                    | (-> & s2 & new2 & s3 & new3
                       & (Hlog2 & Hkeep2 & Hskip2 & Hnew2 & Hend2 & Habs2)
                       & (Hlog3 & Hkeep3 & Hskip3 & Hnew3 & Hend3 & Habs3)
                       & Hrun)].
  - exists (Raise e), s1, ([comprehensive_line crop] ++ new1)%list.
    split; [exact Hrun |].
    split. { unfold logged in *. cbn [log] in Hlog1. now rewrite Hlog1, <- app_assoc. }
    split; [exact Hkeep1 |].
    rewrite !runs_app, !runs_comprehensive_line by reflexivity.
    rewrite Hs1, Hw1.
    split. { intros H. rewrite (Hskip1 H). reflexivity. }
    split; [reflexivity |]. split; [reflexivity |].
    split; [lia |]. split; [lia |]. split; [lia |].
    split; [intros c Hc; discriminate Hc |].
    intros k Hk Hp' _ _. apply Habs1; [exact Hk |].
    intros E Hne. now apply Hne, Hp'.
  - assert (Hp2 := runs_part (price_line crop timeframe)
                     (sentiment_line crop) new2 eq_refl Hnew2).
    assert (Hs2 := runs_part (sentiment_line crop)
                     (sentiment_line crop) new2 eq_refl Hnew2).
    assert (Hw2 := runs_part (weather_line crop "midwest")
                     (sentiment_line crop) new2 eq_refl Hnew2).
    assert (Hp3 := runs_part (price_line crop timeframe)
                     (weather_line crop "midwest") new3 eq_refl Hnew3).
    assert (Hs3 := runs_part (sentiment_line crop)
                     (weather_line crop "midwest") new3 eq_refl Hnew3).
    assert (Hw3 := runs_part (weather_line crop "midwest")
                     (weather_line crop "midwest") new3 eq_refl Hnew3).
    destruct Hp2 as [_ Hp2]. destruct Hs2 as [Hs2 _]. destruct Hw2 as [_ Hw2].
    destruct Hp3 as [_ Hp3]. destruct Hs3 as [_ Hs3]. destruct Hw3 as [Hw3 _].
    specialize (Hp2 eq_refl). specialize (Hw2 eq_refl).
    specialize (Hp3 eq_refl). specialize (Hs3 eq_refl).
    eexists _, s3, ([comprehensive_line crop] ++ new1 ++ new2 ++ new3)%list.
    split; [exact Hrun |].
    split.
    { unfold logged in *. cbn [log] in Hlog1.
      rewrite Hlog3, Hlog2, Hlog1, <- !app_assoc. reflexivity. }
    split; [intros k v Hk; auto |].
    rewrite !runs_app, !runs_comprehensive_line by reflexivity.
    rewrite Hs1, Hw1, Hp2, Hw2, Hp3, Hs3.
    split. { intros H. rewrite (Hskip1 H). reflexivity. }
    split. { intros H. rewrite (Hskip2 (is_Some_kept _ _ _ Hkeep1 H)).
             reflexivity. }
    split. { intros H.
             rewrite (Hskip3 (is_Some_kept _ _ _ Hkeep2
                                (is_Some_kept _ _ _ Hkeep1 H))).
             reflexivity. }
    split; [cbn; lia |]. split; [cbn; lia |]. split; [cbn; lia |].
    split.
    { intros c _. split; [| split].
      - intros H. apply (is_Some_kept _ _ _ Hkeep3), (is_Some_kept _ _ _ Hkeep2).
        now apply Hend1.
      - intros H. apply (is_Some_kept _ _ _ Hkeep3). now apply Hend2.
      - intros H. now apply Hend3. }
    intros k Hk Hp' Hs' Hw'.
    apply Habs3; [| intros E Hne; now apply Hne, Hw'].
    apply Habs2; [| intros E Hne; now apply Hne, Hs'].
    apply Habs1; [exact Hk |]. intros E Hne. now apply Hne, Hp'.
Qed.

(** The claim C9 as stated fails: with no news stored the sentiment analyzer
    yields no result, nothing is stored under its key, and a second call in
    the same process runs it again. *)
Lemma sentiment_analyzer_runs_twice :
  let first_call :=
    get_comprehensive_analysis Sample.runtime Sample.source_without_news
      "wheat" "1 month" DataAnalyzer.init in
  let second_call :=
    get_comprehensive_analysis Sample.runtime Sample.source_without_news
      "wheat" "1 month" (snd first_call) in
  analysis_results (snd first_call) !! "wheat_sentiment" = None
  /\ runs (sentiment_line "wheat") (log (snd second_call)) = 2%nat
  /\ ~ (runs (sentiment_line "wheat") (log (snd second_call)) <= 1)%nat.
Proof.
  cbv zeta.
  assert (H : runs (sentiment_line "wheat")
                (log (snd (get_comprehensive_analysis Sample.runtime
                             Sample.source_without_news "wheat" "1 month"
                             (snd (get_comprehensive_analysis Sample.runtime
                                     Sample.source_without_news "wheat"
                                     "1 month" DataAnalyzer.init)))))
              = 2%nat) by (vm_compute; reflexivity).
  split; [vm_compute; reflexivity |]. split; [exact H |]. rewrite H. lia.
Qed.

(** * Sub-analyses without data *)

(** C3, at the input on which the code fails.  When the price file holds no
    row, the look at the first date, [historical_data['date'][0]], raises
    before the emptiness of the window is tested: [analyze_price_trends]
    raises [KeyError] instead of yielding no result, and
    [get_comprehensive_analysis] raises with it instead of returning a
    record with an empty price section. *)
Theorem empty_price_frame_raises rt :
  analyze_price_trends rt Sample.source_without_prices "wheat" "1 month"
    DataAnalyzer.init
  = (Raise (KeyError "0"),
     {| analysis_results := ∅;
        log := [price_line "wheat" "1 month"] |})
  /\ get_comprehensive_analysis rt Sample.source_without_prices
       "wheat" "1 month" DataAnalyzer.init
     = (Raise (KeyError "0"),
        {| analysis_results := ∅;
           log := [comprehensive_line "wheat"; price_line "wheat" "1 month"] |}).
Proof. split; reflexivity. Qed.

(** The same on every source, crop and timeframe. *)
Lemma analyze_price_trends_empty_frame rt src crop timeframe s :
  load_or_fetch_historical_prices src crop = [] ->
  analyze_price_trends rt src crop timeframe s
  = (Raise (KeyError "0"),
     {| analysis_results := analysis_results s;
        log := (log s ++ [price_line crop timeframe])%list |}).
Proof.
  intros Hframe. unfold analyze_price_trends. run_monad.
  now rewrite Hframe.
Qed.

(** The part of C3 that holds: an analyzer whose data is empty yields no
    result and stores nothing, provided the price frame itself has a row. *)
Lemma analyze_price_trends_empty_window rt src crop timeframe s :
  load_or_fetch_historical_prices src crop <> [] ->
  price_window src crop timeframe = [] ->
  exists s',
    analyze_price_trends rt src crop timeframe s = (Return None, s')
    /\ analysis_results s' = analysis_results s.
Proof.
  intros Hframe Hw.
  destruct (analyze_price_trends_effect rt src crop timeframe s)
    as (o & s' & tail & Hrun & _ & _ & [(_ & He & _) | [(-> & _ & _ & Hres)
                                                      | (a & _ & Hne & _)]]);
    [congruence | eauto | congruence].
Qed.

Lemma analyze_market_sentiment_no_news src crop s :
  load_or_fetch_market_news src crop = [] ->
  exists s',
    analyze_market_sentiment src crop s = (Return None, s')
    /\ analysis_results s' = analysis_results s.
Proof.
  intros Hnews.
  destruct (analyze_market_sentiment_effect src crop s)
    as (o & s' & tail & Hrun & _ & _ & [(-> & _ & Hres) | (a & _ & Hne & _)]);
    [eauto | congruence].
Qed.

Lemma analyze_weather_impact_no_forecast src crop region s :
  load_or_fetch_weather_forecast src region = [] ->
  exists s',
    analyze_weather_impact src crop region s = (Return None, s')
    /\ analysis_results s' = analysis_results s.
Proof.
  intros Hforecast.
  destruct (analyze_weather_impact_effect src crop region s)
    as (o & s' & tail & Hrun & _ & _ & [(-> & _ & Hres) | (a & _ & Hne & _)]);
    [eauto | congruence].
Qed.

Lemma sentiment_key_is_not_weather_key crop :
  crop ++ "_sentiment" <> crop ++ "_weather".
Proof. intros E. apply (inj (String.app crop)) in E. discriminate. Qed.

(** The rest of C3: when the price frame has a row the aggregator returns
    its record, and a section whose key is absent and whose data is empty is
    the empty record (the timeframe not being one that makes the price key
    coincide with another key). *)
Lemma sections_without_data_are_empty rt src crop timeframe s :
  load_or_fetch_historical_prices src crop <> [] ->
  timeframe <> "sentiment" -> timeframe <> "weather" ->
  exists c s',
    get_comprehensive_analysis rt src crop timeframe s = (Return c, s')
    /\ c = comprehensive_of src crop timeframe (analysis_results s')
    /\ (analysis_results s !! (crop ++ "_" ++ timeframe) = None ->
        price_window src crop timeframe = [] ->
        dict_get "price_analysis" c = Some (VDict []))
    /\ (analysis_results s !! (crop ++ "_sentiment") = None ->
        load_or_fetch_market_news src crop = [] ->
        dict_get "sentiment_analysis" c = Some (VDict []))
    /\ (analysis_results s !! (crop ++ "_weather") = None ->
        load_or_fetch_weather_forecast src "midwest" = [] ->
        dict_get "weather_analysis" c = Some (VDict [])).
Proof.
  intros Hframe Hts Htw.
  assert (Hps : crop ++ "_sentiment" <> crop ++ "_" ++ timeframe).
  { intros E. apply (inj (String.app crop)) in E. vm_compute in E. congruence. }
  assert (Hpw : crop ++ "_weather" <> crop ++ "_" ++ timeframe).
  { intros E. apply (inj (String.app crop)) in E. vm_compute in E. congruence. }
  assert (Hsw := sentiment_key_is_not_weather_key crop).
  destruct (get_comprehensive_analysis_steps rt src crop timeframe s)
    as (o1 & s1 & new1 & (_ & _ & _ & _ & _ & Habs1) & Hrest).
  cbn [analysis_results] in Habs1.
  destruct Hrest as [(e & _ & He & _)
                    | (-> & s2 & new2 & s3 & new3
                       & (_ & _ & _ & _ & _ & Habs2)
                       & (_ & _ & _ & _ & _ & Habs3) & Hrun)];
    [congruence |].
  do 2 eexists. split; [exact Hrun |]. split; [reflexivity |].
  unfold comprehensive_of. cbn [dict_get String.eqb Ascii.eqb Bool.eqb].
  split; [| split]; intros Habsent Hempty.
  - rewrite (Habs3 _ (Habs2 _ (Habs1 _ Habsent ltac:(tauto))
                        ltac:(congruence)) ltac:(congruence)).
    reflexivity.
  - rewrite (Habs3 _ (Habs2 _ (Habs1 _ Habsent ltac:(congruence))
                        ltac:(tauto)) ltac:(congruence)).
    reflexivity.
  - rewrite (Habs3 _ (Habs2 _ (Habs1 _ Habsent ltac:(congruence))
                        ltac:(congruence)) ltac:(tauto)).
    reflexivity.
Qed.

(** * [get_advisory] *)

Section Advisory.
Import LLMAdvisor.

Variable rt : PyRuntime.

(** The prompt, or the exception formatting raises; formatting does not
    touch the advisor's state. *)
Definition prompt_of (crop timeframe price_analysis sentiment_analysis
    weather_analysis : value) (farmer_query : string) : outcome string :=
  fst (_format_prompt (S := unit) rt crop timeframe price_analysis
         sentiment_analysis weather_analysis farmer_query tt).

Ltac case_outcomes :=
  repeat match goal with
         | |- context [match ?o with Return _ => _ | Raise _ => _ end] =>
             match type of o with
             | outcome _ => destruct o; cbn beta iota zeta; try reflexivity
             end
         end.

Lemma _format_prompt_pure {S} crop timeframe price_analysis
    sentiment_analysis weather_analysis farmer_query (s : S) :
  _format_prompt rt crop timeframe price_analysis sentiment_analysis
    weather_analysis farmer_query s
  = (prompt_of crop timeframe price_analysis sentiment_analysis
       weather_analysis farmer_query, s).
Proof.
  unfold prompt_of, _format_prompt, bind, lift, ret. cbn beta iota zeta.
  case_outcomes.
Qed.

Lemma prompt_needs_dicts crop timeframe pa sa wa farmer_query prompt :
  prompt_of crop timeframe pa sa wa farmer_query = Return prompt ->
  exists price_analysis sentiment_analysis weather_analysis,
    pa = VDict price_analysis
    /\ sa = VDict sentiment_analysis
    /\ wa = VDict weather_analysis.
Proof.
  intros H.
  destruct pa, sa, wa; try solve [do 3 eexists; repeat split];
    exfalso;
    unfold prompt_of, _format_prompt, bind, lift, ret in H;
    cbn beta iota zeta in H; cbn [obj_get] in H;
    repeat match type of H with
           | context [match ?o with Return _ => _ | Raise _ => _ end] =>
               destruct o; cbn beta iota zeta in H
           end;
    cbn [fst] in H; discriminate.
Qed.

(** Lines 41 to 48 of [get_advisory] complete: the five items are in the
    analysis data and the prompt is formatted. *)
Definition prepared (analysis_data : dict) (farmer_query : string)
    (crop price_analysis sentiment_analysis weather_analysis : value)
    (prompt : string) : Prop :=
  dict_get "crop" analysis_data = Some crop
  /\ exists timeframe,
       dict_get "timeframe" analysis_data = Some timeframe
       /\ dict_get "price_analysis" analysis_data = Some price_analysis
       /\ dict_get "sentiment_analysis" analysis_data = Some sentiment_analysis
       /\ dict_get "weather_analysis" analysis_data = Some weather_analysis
       /\ prompt_of crop timeframe price_analysis sentiment_analysis
            weather_analysis farmer_query = Return prompt.

(** No stored response is served: the refresh is forced, or the cache has
    no file under the key, or the file cannot be read. *)
Definition not_served (analysis_data : dict) (farmer_query : string)
    (force_refresh : bool) (s : state) : Prop :=
  force_refresh = true
  \/ files s !! cache_file rt analysis_data farmer_query = None
  \/ exists e,
       files s !! cache_file rt analysis_data farmer_query
       = Some (Unreadable e).

(** What is logged before the prompt is built when no stored response is
    served. *)
Definition miss_log (analysis_data : dict) (farmer_query : string)
    (force_refresh : bool) (s : state) : list log_record :=
  (if force_refresh then []
   else match files s !! cache_file rt analysis_data farmer_query with
        | Some (Unreadable e) =>
            [(ERROR, "Error reading cache: " ++ str_exn e)]
        | _ => []
        end)
  ++ [(INFO, "Generating new LLM advisory for query: "
             ++ str_prefix 30 farmer_query ++ "...")].

(** [d.get(key)] on a dictionary *)
Definition get_or_none (key : string) (d : value) : value :=
  match d with
  | VDict d => default VNone (dict_get key d)
  | _ => VNone
  end.

(** The response of the [try] branch of [get_advisory]. *)
Definition advisory_response (env : environment) (farmer_query : string)
    (crop price_analysis sentiment_analysis weather_analysis : value)
    (advice_text : string) : dict :=
  [ ("query", VStr farmer_query);
    ("crop", crop);
    ("advice", VStr advice_text);
    ("data_summary",
     VDict [ ("current_price", get_or_none "current_price" price_analysis);
             ("price_trend", get_or_none "trend" price_analysis);
             ("projected_price_change",
              get_or_none "projection_pct" price_analysis);
             ("market_sentiment",
              get_or_none "sentiment_trend" sentiment_analysis);
             ("weather_impact",
              get_or_none "weather_impact" weather_analysis) ]);
    ("timestamp", VStr (strftime_now env)) ].

Ltac run_advisor :=
  unfold bind, ret, raise, lift, try_except, get_state, put_state,
    logging; cbn beta iota zeta.

Ltac finish_generation Hprompt :=
  rewrite _format_prompt_pure, Hprompt; cbn beta iota;
  match goal with
  | |- context [chat_completion ?env ?req] =>
      destruct (chat_completion env req); cbn beta iota;
      [ cbn [obj_get]; cbn beta iota; unfold json_dump;
        destruct (write_fault env); cbn beta iota |];
      cbn [files log]; rewrite <- ?app_assoc; reflexivity
  end.

(** The cache hit. *)
Lemma get_advisory_hit env analysis_data farmer_query s v :
  files s !! cache_file rt analysis_data farmer_query = Some (Json v) ->
  get_advisory rt env analysis_data farmer_query false s
  = (Return v,
     {| files := files s;
        log := log s ++ [(INFO, "Using cached LLM response for query: "
                                ++ str_prefix 30 farmer_query ++ "...")] |}).
Proof.
  intros Hfile. unfold get_advisory. run_advisor.
  unfold exists_. rewrite Hfile. cbn [negb andb]. cbn beta iota.
  unfold json_load. rewrite Hfile. reflexivity.
Qed.

(** The path through the service. *)
Lemma get_advisory_generates env analysis_data farmer_query force_refresh s
    crop price_analysis sentiment_analysis weather_analysis prompt :
  not_served analysis_data farmer_query force_refresh s ->
  prepared analysis_data farmer_query crop price_analysis sentiment_analysis
    weather_analysis prompt ->
  let before :=
    (log s ++ miss_log analysis_data farmer_query force_refresh s)%list in
  get_advisory rt env analysis_data farmer_query force_refresh s
  = match chat_completion env (request env prompt) with
    | Raise e =>
        (Return (VDict (degraded_response env farmer_query crop e)),
         {| files := files s;
            log := before ++ [(ERROR, "Error generating advisory: "
                                      ++ str_exn e)] |})
    | Return advice_text =>
        let response :=
          advisory_response env farmer_query crop price_analysis
            sentiment_analysis weather_analysis advice_text in
        match write_fault env with
        | Some e =>
            (Return (VDict (degraded_response env farmer_query crop e)),
             {| files := files s;
                log := before ++ [(ERROR, "Error generating advisory: "
                                          ++ str_exn e)] |})
        | None =>
            (Return (VDict response),
             {| files :=
                  <[cache_file rt analysis_data farmer_query
                    := Json (VDict response)]> (files s);
                log := before ++ [(INFO, "Advisory generated and cached")] |})
        end
    end.
Proof.
  intros Hmiss (Hcrop & timeframe & Htf & Hpa & Hsa & Hwa & Hprompt) before.
  destruct (prompt_needs_dicts _ _ _ _ _ _ _ Hprompt)
    as (dpa & dsa & dwa & -> & -> & ->).
  unfold get_advisory. run_advisor.
  unfold dict_item. rewrite Hcrop, Htf, Hpa, Hsa, Hwa.
  unfold before, miss_log, exists_, json_load.
  destruct Hmiss as [-> | [Hnone | [e Hbad]]].
  - cbn [negb andb]. cbn beta iota. finish_generation Hprompt.
  - rewrite Hnone, andb_false_r. cbn beta iota.
    destruct force_refresh; finish_generation Hprompt.
  - rewrite Hbad, andb_true_r.
    destruct force_refresh; cbn [negb]; cbn beta iota;
      rewrite ?Hbad; cbn beta iota; finish_generation Hprompt.
Qed.

(** C1. Whenever the call to the language-model service is reached and
    fails, with whatever exception, [get_advisory] returns (it does not
    raise) the degraded response: the query, the crop, an [advice] that
    reads "Unable to generate advisory at this time. Error: " followed by
    the text of the exception, a timestamp, and no [data_summary]. *)
Theorem service_failure_degrades env analysis_data farmer_query
    force_refresh s crop price_analysis sentiment_analysis weather_analysis
    prompt e :
  not_served analysis_data farmer_query force_refresh s ->
  prepared analysis_data farmer_query crop price_analysis
    sentiment_analysis weather_analysis prompt ->
  chat_completion env (request env prompt) = Raise e ->
  exists response s',
    get_advisory rt env analysis_data farmer_query force_refresh s
    = (Return (VDict response), s')
    /\ response = degraded_response env farmer_query crop e
    /\ dict_get "query" response = Some (VStr farmer_query)
    /\ dict_get "crop" response = Some crop
    /\ dict_get "advice" response
       = Some (VStr ("Unable to generate advisory at this time. Error: "
                     ++ str_exn e))
    /\ dict_get "timestamp" response = Some (VStr (strftime_now env))
    /\ dict_get "data_summary" response = None.
Proof.
  intros Hmiss Hprep Hfail.
  rewrite (get_advisory_generates env _ _ _ _ _ _ _ _ _ Hmiss Hprep), Hfail.
  do 2 eexists. split; [reflexivity |]. repeat split.
Qed.

(** C10. When the call to the service is reached and fails, the cache
    directory is left as it was: no entry is written under the key or any
    other.  A later call for the same analysis and query that finds no
    readable entry goes to the service again: if the service then answers
    and the entry can be written, the call returns the fresh response. *)
Theorem failure_is_not_cached env analysis_data farmer_query force_refresh s
    crop price_analysis sentiment_analysis weather_analysis prompt e :
  not_served analysis_data farmer_query force_refresh s ->
  prepared analysis_data farmer_query crop price_analysis
    sentiment_analysis weather_analysis prompt ->
  chat_completion env (request env prompt) = Raise e ->
  let s' :=
    snd (get_advisory rt env analysis_data farmer_query force_refresh s) in
  files s' = files s
  /\ (not_served analysis_data farmer_query false s ->
      forall env2 advice_text,
        chat_completion env2 (request env2 prompt) = Return advice_text ->
        write_fault env2 = None ->
        exists s'',
          get_advisory rt env2 analysis_data farmer_query false s'
          = (Return (VDict (advisory_response env2 farmer_query crop
                              price_analysis sentiment_analysis
                              weather_analysis advice_text)), s'')
          /\ files s'' !! cache_file rt analysis_data farmer_query
             = Some (Json (VDict (advisory_response env2 farmer_query crop
                                    price_analysis sentiment_analysis
                                    weather_analysis advice_text)))).
Proof.
  intros Hmiss Hprep Hfail s'.
  assert (Hfiles : files s' = files s).
  { unfold s'.
    rewrite (get_advisory_generates env _ _ _ _ _ _ _ _ _ Hmiss Hprep), Hfail.
    reflexivity. }
  split; [exact Hfiles |].
  intros Hmiss2 env2 advice_text Hanswer Hwrite.
  assert (Hmiss' : not_served analysis_data farmer_query false s').
  { unfold not_served in *. now rewrite Hfiles. }
  rewrite (get_advisory_generates env2 _ _ _ _ _ _ _ _ _ Hmiss' Hprep),
    Hanswer, Hwrite.
  eexists. split; [reflexivity |]. cbn [files]. apply lookup_insert_eq.
Qed.

(** C4, as the code has it.  When the first call is served from the cache,
    or reaches the service, gets an answer and writes it, a second call
    with the same analysis data and query and no forced refresh returns
    the very same response, timestamp included, whatever the service and
    the clock then are, and leaves the cache as it is.  The cache key is
    the MD5 digest of the string of the analysis data, an underscore and
    the query; a request whose key is different and has no entry finds
    none after these calls either. *)
Theorem repeated_call_is_served_from_cache env1 env2 analysis_data
    farmer_query s crop price_analysis sentiment_analysis weather_analysis
    prompt advice_text :
  (exists v,
     files s !! cache_file rt analysis_data farmer_query = Some (Json v))
  \/ (prepared analysis_data farmer_query crop price_analysis
        sentiment_analysis weather_analysis prompt
      /\ chat_completion env1 (request env1 prompt) = Return advice_text
      /\ write_fault env1 = None) ->
  exists response s1 s2,
    get_advisory rt env1 analysis_data farmer_query false s
    = (Return response, s1)
    /\ get_advisory rt env2 analysis_data farmer_query false s1
       = (Return response, s2)
    /\ files s2 = files s1
    /\ cache_key rt analysis_data farmer_query
       = md5_hexdigest rt
           (py_repr rt (VDict analysis_data) ++ "_" ++ farmer_query)
    /\ (forall analysis_data' farmer_query',
          cache_file rt analysis_data' farmer_query'
          <> cache_file rt analysis_data farmer_query ->
          files s !! cache_file rt analysis_data' farmer_query' = None ->
          files s2 !! cache_file rt analysis_data' farmer_query' = None).
Proof.
  intros Hfirst.
  destruct (files s !! cache_file rt analysis_data farmer_query)
    as [[v | e] |] eqn:Hfile.
  - exists v. do 2 eexists.
    rewrite (get_advisory_hit env1 _ _ _ v Hfile).
    split; [reflexivity |].
    rewrite (get_advisory_hit env2 _ _ _ v) by exact Hfile.
    split; [reflexivity |]. split; [reflexivity |].
    split; [reflexivity |]. intros a' q' _ Hnone. exact Hnone.
  - destruct Hfirst as [[v Hv] | (Hprep & Hanswer & Hwrite)]; [congruence |].
    assert (Hmiss : not_served analysis_data farmer_query false s)
      by (right; right; eauto).
    do 3 eexists.
    rewrite (get_advisory_generates env1 _ _ _ _ _ _ _ _ _ Hmiss Hprep),
      Hanswer, Hwrite.
    split; [reflexivity |].
    rewrite (get_advisory_hit env2 _ _ _ _ (lookup_insert_eq _ _ _)).
    split; [reflexivity |]. split; [reflexivity |].
    split; [reflexivity |]. intros a' q' Hkey Hnone. cbn [files].
    rewrite lookup_insert_ne by congruence. exact Hnone.
  - destruct Hfirst as [[v Hv] | (Hprep & Hanswer & Hwrite)]; [congruence |].
    assert (Hmiss : not_served analysis_data farmer_query false s)
      by (right; left; exact Hfile).
    do 3 eexists.
    rewrite (get_advisory_generates env1 _ _ _ _ _ _ _ _ _ Hmiss Hprep),
      Hanswer, Hwrite.
    split; [reflexivity |].
    rewrite (get_advisory_hit env2 _ _ _ _ (lookup_insert_eq _ _ _)).
    split; [reflexivity |]. split; [reflexivity |].
    split; [reflexivity |]. intros a' q' Hkey Hnone. cbn [files].
    rewrite lookup_insert_ne by congruence. exact Hnone.
Qed.

(** A failed write, on every input: the answer of the service is
    discarded and the degraded response returned. *)
Lemma write_failure_degrades env analysis_data farmer_query force_refresh s
    crop price_analysis sentiment_analysis weather_analysis prompt
    advice_text e :
  not_served analysis_data farmer_query force_refresh s ->
  prepared analysis_data farmer_query crop price_analysis
    sentiment_analysis weather_analysis prompt ->
  chat_completion env (request env prompt) = Return advice_text ->
  write_fault env = Some e ->
  exists s',
    get_advisory rt env analysis_data farmer_query force_refresh s
    = (Return (VDict (degraded_response env farmer_query crop e)), s')
    /\ files s' = files s.
Proof.
  intros Hmiss Hprep Hanswer Hwrite.
  rewrite (get_advisory_generates env _ _ _ _ _ _ _ _ _ Hmiss Hprep),
    Hanswer, Hwrite.
  eexists. split; reflexivity.
Qed.

(** The part of C8 that holds: an entry that cannot be read is logged and
    treated as a miss, and the fresh response is returned and stored. *)
Lemma unreadable_entry_is_a_miss env analysis_data farmer_query s
    crop price_analysis sentiment_analysis weather_analysis prompt
    advice_text e :
  files s !! cache_file rt analysis_data farmer_query = Some (Unreadable e) ->
  prepared analysis_data farmer_query crop price_analysis
    sentiment_analysis weather_analysis prompt ->
  chat_completion env (request env prompt) = Return advice_text ->
  write_fault env = None ->
  let response :=
    advisory_response env farmer_query crop price_analysis
      sentiment_analysis weather_analysis advice_text in
  get_advisory rt env analysis_data farmer_query false s
  = (Return (VDict response),
     {| files := <[cache_file rt analysis_data farmer_query
                   := Json (VDict response)]> (files s);
        log := log s
               ++ [ (ERROR, "Error reading cache: " ++ str_exn e);
                    (INFO, "Generating new LLM advisory for query: "
                           ++ str_prefix 30 farmer_query ++ "...");
                    (INFO, "Advisory generated and cached") ] |}).
Proof.
  intros Hfile Hprep Hanswer Hwrite response.
  assert (Hmiss : not_served analysis_data farmer_query false s)
    by (right; right; eauto).
  rewrite (get_advisory_generates env _ _ _ _ _ _ _ _ _ Hmiss Hprep),
    Hanswer, Hwrite.
  unfold miss_log. rewrite Hfile. cbn [app]. rewrite <- app_assoc.
  reflexivity.
Qed.
(** The boundary of C1: formatting precedes the [try].  With an empty price
    section the placeholder 'N/A' meets the format [.2f], and [get_advisory]
    raises before the service is called, whatever the service would do. *)
Lemma empty_price_section_raises env analysis_data farmer_query force_refresh s
    crop timeframe sentiment_analysis weather_analysis :
  not_served analysis_data farmer_query force_refresh s ->
  dict_get "crop" analysis_data = Some (VStr crop) ->
  dict_get "timeframe" analysis_data = Some timeframe ->
  dict_get "price_analysis" analysis_data = Some (VDict []) ->
  dict_get "sentiment_analysis" analysis_data = Some sentiment_analysis ->
  dict_get "weather_analysis" analysis_data = Some weather_analysis ->
  fst (get_advisory rt env analysis_data farmer_query force_refresh s)
  = Raise (ValueError "Unknown format code 'f' for object of type 'str'")
  /\ files (snd (get_advisory rt env analysis_data farmer_query force_refresh s))
     = files s.
Proof.
  intros Hmiss Hcrop Htf Hpa Hsa Hwa.
  assert (Hprompt :
    prompt_of (VStr crop) timeframe (VDict []) sentiment_analysis
      weather_analysis farmer_query
    = Raise (ValueError "Unknown format code 'f' for object of type 'str'"))
    by reflexivity.
  unfold get_advisory. run_advisor.
  unfold dict_item. rewrite Hcrop, Htf, Hpa, Hsa, Hwa.
  unfold exists_, json_load.
  destruct Hmiss as [-> | [Hnone | [e Hbad]]].
  - cbn [negb andb]. cbn beta iota.
    rewrite _format_prompt_pure, Hprompt. split; reflexivity.
  - rewrite Hnone, andb_false_r. cbn beta iota.
    rewrite _format_prompt_pure, Hprompt. split; reflexivity.
  - rewrite Hbad, andb_true_r.
    destruct force_refresh; cbn [negb]; cbn beta iota;
      rewrite ?Hbad; cbn beta iota;
      rewrite _format_prompt_pure, Hprompt; split; reflexivity.
Qed.
End Advisory.

(** ** The advisory claims on the sample analysis *)

Lemma sample_analysis_prepared rt :
  exists prompt,
    prepared rt Sample.analysis Sample.query (VStr "wheat")
      (default VNone (dict_get "price_analysis" Sample.analysis))
      (default VNone (dict_get "sentiment_analysis" Sample.analysis))
      (default VNone (dict_get "weather_analysis" Sample.analysis))
      prompt.
Proof.
  eexists. split; [reflexivity |]. eexists.
  split; [reflexivity |]. split; [reflexivity |].
  split; [reflexivity |]. split; [reflexivity |]. reflexivity.
Qed.

Lemma service_failure_degrades_witness :
  exists response s',
    LLMAdvisor.get_advisory Sample.runtime
      (Sample.service_down "2026-11-03 10:00:00")
      Sample.analysis Sample.query false LLMAdvisor.init
    = (Return (VDict response), s')
    /\ response
       = LLMAdvisor.degraded_response
           (Sample.service_down "2026-11-03 10:00:00") Sample.query
           (VStr "wheat") (ServiceError "Connection error.")
    /\ dict_get "query" response = Some (VStr Sample.query)
    /\ dict_get "crop" response = Some (VStr "wheat")
    /\ dict_get "advice" response
       = Some (VStr ("Unable to generate advisory at this time. Error: "
                     ++ "Connection error."))
    /\ dict_get "timestamp" response = Some (VStr "2026-11-03 10:00:00")
    /\ dict_get "data_summary" response = None.
Proof.
  eapply (service_failure_degrades Sample.runtime
            (Sample.service_down "2026-11-03 10:00:00")
            Sample.analysis Sample.query false LLMAdvisor.init).
  - right; left. vm_compute. reflexivity.
  - split; [reflexivity |]. eexists.
    split; [reflexivity |]. split; [reflexivity |].
    split; [reflexivity |]. split; [reflexivity |].
    vm_compute. reflexivity.
  - reflexivity.
Defined.

Lemma failure_is_not_cached_witness :
  LLMAdvisor.files
    (snd (LLMAdvisor.get_advisory Sample.runtime
            (Sample.service_down "2026-11-03 10:00:00")
            Sample.analysis Sample.query false LLMAdvisor.init))
  = LLMAdvisor.files LLMAdvisor.init
  /\ (not_served Sample.runtime Sample.analysis Sample.query false
        LLMAdvisor.init ->
      forall env2 advice_text,
        chat_completion env2
          (LLMAdvisor.request env2
             (match prompt_of Sample.runtime (VStr "wheat") (VStr "1 month")
                      (default VNone (dict_get "price_analysis" Sample.analysis))
                      (default VNone (dict_get "sentiment_analysis" Sample.analysis))
                      (default VNone (dict_get "weather_analysis" Sample.analysis))
                      Sample.query with
              | Return prompt => prompt
              | Raise _ => EmptyString
              end)) = Return advice_text ->
        write_fault env2 = None ->
        exists s'',
          LLMAdvisor.get_advisory Sample.runtime env2 Sample.analysis
            Sample.query false
            (snd (LLMAdvisor.get_advisory Sample.runtime
                    (Sample.service_down "2026-11-03 10:00:00")
                    Sample.analysis Sample.query false LLMAdvisor.init))
          = (Return (VDict (advisory_response env2 Sample.query (VStr "wheat")
                              (default VNone (dict_get "price_analysis" Sample.analysis))
                              (default VNone (dict_get "sentiment_analysis" Sample.analysis))
                              (default VNone (dict_get "weather_analysis" Sample.analysis))
                              advice_text)), s'')
          /\ LLMAdvisor.files s''
             !! LLMAdvisor.cache_file Sample.runtime Sample.analysis Sample.query
             = Some (Json (VDict (advisory_response env2 Sample.query
                                    (VStr "wheat")
                              (default VNone (dict_get "price_analysis" Sample.analysis))
                              (default VNone (dict_get "sentiment_analysis" Sample.analysis))
                              (default VNone (dict_get "weather_analysis" Sample.analysis))
                                    advice_text)))).
Proof.
  eapply (failure_is_not_cached Sample.runtime
            (Sample.service_down "2026-11-03 10:00:00")
            Sample.analysis Sample.query false LLMAdvisor.init).
  - right; left. vm_compute. reflexivity.
  - split; [reflexivity |]. eexists.
    split; [reflexivity |]. split; [reflexivity |].
    split; [reflexivity |]. split; [reflexivity |].
    vm_compute. reflexivity.
  - reflexivity.
Defined.

Lemma repeated_call_is_served_from_cache_witness :
  exists response s1 s2,
    LLMAdvisor.get_advisory Sample.runtime
      (Sample.service_up "2026-11-03 10:00:00")
      Sample.analysis Sample.query false LLMAdvisor.init
    = (Return response, s1)
    /\ LLMAdvisor.get_advisory Sample.runtime
         (Sample.service_down "2026-11-03 10:00:05")
         Sample.analysis Sample.query false s1
       = (Return response, s2)
    /\ LLMAdvisor.files s2 = LLMAdvisor.files s1
    /\ LLMAdvisor.cache_key Sample.runtime Sample.analysis Sample.query
       = md5_hexdigest Sample.runtime
           (py_repr Sample.runtime (VDict Sample.analysis)
            ++ "_" ++ Sample.query)
    /\ (forall analysis_data' farmer_query',
          LLMAdvisor.cache_file Sample.runtime analysis_data' farmer_query'
          <> LLMAdvisor.cache_file Sample.runtime Sample.analysis Sample.query ->
          LLMAdvisor.files LLMAdvisor.init
          !! LLMAdvisor.cache_file Sample.runtime analysis_data' farmer_query'
          = None ->
          LLMAdvisor.files s2
          !! LLMAdvisor.cache_file Sample.runtime analysis_data' farmer_query'
          = None).
Proof.
  eapply (repeated_call_is_served_from_cache Sample.runtime
            (Sample.service_up "2026-11-03 10:00:00")
            (Sample.service_down "2026-11-03 10:00:05")
            Sample.analysis Sample.query LLMAdvisor.init).
  right. split; [| split; reflexivity].
  split; [reflexivity |]. eexists.
  split; [reflexivity |]. split; [reflexivity |].
  split; [reflexivity |]. split; [reflexivity |].
  vm_compute. reflexivity.
Defined.

(** The claim C4 as stated fails: when the service is down the first call
    returns the degraded response and stores nothing, and a second call with
    the same analysis, the same query and no forced refresh is no cache hit:
    it goes to the service again and returns a response with a new
    timestamp. *)
Lemma repeated_call_after_failure_differs :
  let first_call :=
    LLMAdvisor.get_advisory Sample.runtime
      (Sample.service_down "2026-11-03 10:00:00")
      Sample.analysis Sample.query false LLMAdvisor.init in
  let second_call :=
    LLMAdvisor.get_advisory Sample.runtime
      (Sample.service_down "2026-11-03 10:00:05")
      Sample.analysis Sample.query false (snd first_call) in
  fst first_call
  = Return (VDict (LLMAdvisor.degraded_response
                     (Sample.service_down "2026-11-03 10:00:00") Sample.query
                     (VStr "wheat") (ServiceError "Connection error.")))
  /\ fst second_call
     = Return (VDict (LLMAdvisor.degraded_response
                        (Sample.service_down "2026-11-03 10:00:05")
                        Sample.query
                        (VStr "wheat") (ServiceError "Connection error.")))
  /\ fst first_call <> fst second_call.
Proof.
  cbv zeta.
  assert (H1 : fst (LLMAdvisor.get_advisory Sample.runtime
                      (Sample.service_down "2026-11-03 10:00:00")
                      Sample.analysis Sample.query false LLMAdvisor.init)
               = Return (VDict (LLMAdvisor.degraded_response
                                  (Sample.service_down "2026-11-03 10:00:00")
                                  Sample.query (VStr "wheat")
                                  (ServiceError "Connection error."))))
    by (vm_compute; reflexivity).
  assert (H2 : fst (LLMAdvisor.get_advisory Sample.runtime
                      (Sample.service_down "2026-11-03 10:00:05")
                      Sample.analysis Sample.query false
                      (snd (LLMAdvisor.get_advisory Sample.runtime
                              (Sample.service_down "2026-11-03 10:00:00")
                              Sample.analysis Sample.query false
                              LLMAdvisor.init)))
               = Return (VDict (LLMAdvisor.degraded_response
                                  (Sample.service_down "2026-11-03 10:00:05")
                                  Sample.query (VStr "wheat")
                                  (ServiceError "Connection error."))))
    by (vm_compute; reflexivity).
  split; [exact H1 |]. split; [exact H2 |].
  rewrite H1, H2. vm_compute. intros E. discriminate E.
Qed.

(** C8, at the input on which the code fails.  The service answers, and the
    cache file cannot be written: the write sits in the same [try] as the
    call to the service, so its exception reaches the handler meant for the
    service, which discards the answer and returns the degraded response. *)
Theorem cache_write_failure_discards_advice rt :
  (forall req,
     chat_completion (Sample.read_only_cache "2026-11-03 10:00:00") req
     = Return "Hold for two weeks.")
  /\ LLMAdvisor.get_advisory rt (Sample.read_only_cache "2026-11-03 10:00:00")
       Sample.analysis Sample.query false LLMAdvisor.init
     = (Return
          (VDict
             [ ("query", VStr "Should I sell my wheat now or wait?");
               ("crop", VStr "wheat");
               ("advice",
                VStr "Unable to generate advisory at this time. Error: [Errno 30] Read-only file system");
               ("timestamp", VStr "2026-11-03 10:00:00") ]),
        {| LLMAdvisor.files := ∅;
           LLMAdvisor.log :=
             [ (INFO, "Generating new LLM advisory for query: Should I sell my wheat now or ...");
               (ERROR, "Error generating advisory: [Errno 30] Read-only file system") ] |}).
Proof.
  split; [reflexivity |].
  destruct (sample_analysis_prepared rt) as [prompt Hprep].
  assert (Hmiss : not_served rt Sample.analysis Sample.query false
                    LLMAdvisor.init) by (right; left; apply lookup_empty).
  rewrite (get_advisory_generates rt _ _ _ _ _ _ _ _ _ _ Hmiss Hprep).
  cbn [chat_completion write_fault Sample.read_only_cache].
  unfold miss_log. cbn [LLMAdvisor.files LLMAdvisor.init].
  rewrite lookup_empty. reflexivity.
Qed.

(** * Further properties of the analyzers *)

(** The record [analyze_price_trends] builds from a window. *)
Definition price_analysis_of (rt : PyRuntime) (crop timeframe : string)
    (w : list Q) (first current_price : Q) : dict :=
  let price_change := (current_price - first)%Q in
  let price_change_pct := (price_change / first * (100 # 1))%Q in
  let projected_price :=
    (current_price
     + (mean (iloc_slice (Some (-7)%Z) None w)
        - mean (iloc_slice (Some (-14)%Z) (Some (-7)%Z) w)))%Q in
  [ ("crop", VStr crop);
    ("timeframe", VStr timeframe);
    ("current_price", VNum current_price);
    ("average_price", VNum (mean w));
    ("price_change", VNum price_change);
    ("price_change_pct", VNum price_change_pct);
    ("trend", VStr (price_trend price_change_pct));
    ("volatility", VNum (std rt w));
    ("projected_price",
     VNum (if (7 <? length w)%nat then projected_price else current_price));
    ("projection_pct",
     if (7 <? length w)%nat
     then VNum ((projected_price / current_price - 1) * (100 # 1))%Q
     else VInt 0) ].

Lemma analyze_price_trends_returns rt src crop timeframe s first rest :
  price_window src crop timeframe = first :: rest ->
  analyze_price_trends rt src crop timeframe s
  = (Return (Some (price_analysis_of rt crop timeframe (first :: rest)
                     first (List.last rest first))),
     {| analysis_results :=
          <[crop ++ "_" ++ timeframe
            := price_analysis_of rt crop timeframe (first :: rest)
                 first (List.last rest first)]> (analysis_results s);
        log := (log s ++ [price_line crop timeframe;
                          chart_line src crop timeframe])%list |}).
Proof.
  intros Hw. unfold price_window in Hw. unfold analyze_price_trends.
  set (F := List.filter _ _) in *.
  assert (HF : length F = length (first :: rest))
    by (now rewrite <- (length_map p_price), Hw).
  assert (Hframe : load_or_fetch_historical_prices src crop <> []).
  { apply (filter_nonempty (fun r =>
      datetime_now src - timeframe_days timeframe * 86400 <=? p_date r)).
    fold F. intros E. rewrite E in Hw. discriminate. }
  destruct (load_or_fetch_historical_prices src crop) as [| r0 frame] eqn:Eframe;
    [congruence |].
  run_monad. cbn [map label_zero].
  rewrite HF, Hw.
  change (0 <? length (first :: rest))%nat with true. cbn iota.
  rewrite iloc_last, iloc_first.
  unfold _generate_price_chart, price_analysis_of, chart_line, price_line.
  run_monad.
  destruct (7 <? length (first :: rest))%nat eqn:E7;
    destruct (chart_fault src); run_monad;
    cbn [analysis_results log]; rewrite <- ?app_assoc; reflexivity.
Qed.

(** The record [analyze_market_sentiment] builds from the news. *)
Definition sentiment_analysis_of (crop : string) (news_data : list news_row)
  : dict :=
  let pos_count := sentiment_count "positive" news_data in
  let neg_count := sentiment_count "negative" news_data in
  let neutral_count := sentiment_count "neutral" news_data in
  let total_count := pos_count + neg_count + neutral_count in
  let sentiment_score :=
    if 0 <? total_count
    then VNum (inject_Z (pos_count - neg_count) / inject_Z total_count)%Q
    else VInt 0 in
  [ ("crop", VStr crop);
    ("sentiment_score", sentiment_score);
    ("sentiment_trend", VStr (sentiment_trend_of (number sentiment_score)));
    ("positive_news_count", VInt pos_count);
    ("negative_news_count", VInt neg_count);
    ("neutral_news_count", VInt neutral_count);
    ("headlines", VList (map n_headline news_data)) ].

Lemma analyze_market_sentiment_returns src crop s :
  load_or_fetch_market_news src crop <> [] ->
  analyze_market_sentiment src crop s
  = (Return (Some (sentiment_analysis_of crop
                     (load_or_fetch_market_news src crop))),
     {| analysis_results :=
          <[crop ++ "_sentiment"
            := sentiment_analysis_of crop (load_or_fetch_market_news src crop)]>
            (analysis_results s);
        log := (log s ++ [sentiment_line crop])%list |}).
Proof.
  intros Hne. unfold analyze_market_sentiment, sentiment_analysis_of,
    sentiment_line. run_monad.
  destruct (load_or_fetch_market_news src crop) as [| r rest] eqn:E;
    [congruence |].
  change (0 <? length (r :: rest))%nat with true. cbn iota.
  set (total := sentiment_count "positive" (r :: rest)
                + sentiment_count "negative" (r :: rest)
                + sentiment_count "neutral" (r :: rest)).
  destruct (Z.ltb_spec 0 total) as [Hpos | Hzero]; [| reflexivity].
  unfold truediv. destruct (Z.eqb_spec total 0) as [E0 | _]; [lia |].
  reflexivity.
Qed.

(** The record [analyze_weather_impact] builds from the forecast. *)
Definition weather_analysis_of (crop region : string)
    (weather_data : list weather_row) : dict :=
  let avg_temp := mean (map w_temperature weather_data) in
  let total_precip := Qsum (map w_precipitation weather_data) in
  [ ("crop", VStr crop);
    ("region", VStr region);
    ("average_temperature", VNum avg_temp);
    ("total_precipitation", VNum total_precip);
    ("weather_impact", VStr (fst (weather_verdict crop avg_temp total_precip)));
    ("explanation", VStr (snd (weather_verdict crop avg_temp total_precip))) ].

Lemma analyze_weather_impact_returns src crop region s :
  load_or_fetch_weather_forecast src region <> [] ->
  analyze_weather_impact src crop region s
  = (Return (Some (weather_analysis_of crop region
                     (load_or_fetch_weather_forecast src region))),
     {| analysis_results :=
          <[crop ++ "_weather"
            := weather_analysis_of crop region
                 (load_or_fetch_weather_forecast src region)]>
            (analysis_results s);
        log := (log s ++ [weather_line crop region])%list |}).
Proof.
  intros Hne. unfold analyze_weather_impact, weather_analysis_of, weather_line.
  run_monad.
  destruct (load_or_fetch_weather_forecast src region) as [| r rest] eqn:E;
    [congruence |].
  change (0 <? length (r :: rest))%nat with true. cbn iota.
  destruct (weather_verdict crop _ _) as [impact explanation].
  reflexivity.
Qed.

(** The lines logged when data is missing. *)
Definition no_price_line (crop timeframe : string) : log_record :=
  (WARNING, "No data available for " ++ crop ++ " over " ++ timeframe).

Definition no_news_line (crop : string) : log_record :=
  (WARNING, "No news data available for " ++ crop).

Definition no_weather_line (region : string) : log_record :=
  (WARNING, "No weather data available for " ++ region).

Lemma analyze_price_trends_old_rows rt src crop timeframe s :
  load_or_fetch_historical_prices src crop <> [] ->
  price_window src crop timeframe = [] ->
  analyze_price_trends rt src crop timeframe s
  = (Return None,
     {| analysis_results := analysis_results s;
        log := (log s ++ [price_line crop timeframe;
                          no_price_line crop timeframe])%list |}).
Proof.
  intros Hframe Hw. unfold price_window in Hw.
  unfold analyze_price_trends, price_line, no_price_line.
  destruct (load_or_fetch_historical_prices src crop) as [| r0 frame] eqn:Ef;
    [congruence |].
  run_monad. cbn [map label_zero].
  apply map_eq_nil in Hw. rewrite Hw. cbn [length Nat.ltb Nat.leb].
  cbn [log analysis_results]. rewrite <- app_assoc. reflexivity.
Qed.

Lemma analyze_market_sentiment_empty src crop s :
  load_or_fetch_market_news src crop = [] ->
  analyze_market_sentiment src crop s
  = (Return None,
     {| analysis_results := analysis_results s;
        log := (log s ++ [sentiment_line crop; no_news_line crop])%list |}).
Proof.
  intros Hnews. unfold analyze_market_sentiment, sentiment_line, no_news_line.
  run_monad. rewrite Hnews. cbn [length Nat.ltb Nat.leb].
  cbn [log analysis_results]. rewrite <- app_assoc. reflexivity.
Qed.

Lemma analyze_weather_impact_empty src crop region s :
  load_or_fetch_weather_forecast src region = [] ->
  analyze_weather_impact src crop region s
  = (Return None,
     {| analysis_results := analysis_results s;
        log := (log s ++ [weather_line crop region;
                          no_weather_line region])%list |}).
Proof.
  intros Hw. unfold analyze_weather_impact, weather_line, no_weather_line.
  run_monad. rewrite Hw. cbn [length Nat.ltb Nat.leb].
  cbn [log analysis_results]. rewrite <- app_assoc. reflexivity.
Qed.

(** ** More data to compute with *)

Module Demo.

(** The sample source seen a hundred days later: every price is older than
    any timeframe. *)
Definition source_much_later : data_source :=
  {| load_or_fetch_historical_prices :=
       load_or_fetch_historical_prices Sample.source;
     load_or_fetch_market_news := load_or_fetch_market_news Sample.source;
     load_or_fetch_weather_forecast :=
       load_or_fetch_weather_forecast Sample.source;
     datetime_now := 109 * 86400;
     today := "1970-04-20";
     chart_fault := None |}.

(** The sample source when drawing the chart fails. *)
Definition source_without_display : data_source :=
  {| load_or_fetch_historical_prices :=
       load_or_fetch_historical_prices Sample.source;
     load_or_fetch_market_news := load_or_fetch_market_news Sample.source;
     load_or_fetch_weather_forecast :=
       load_or_fetch_weather_forecast Sample.source;
     datetime_now := datetime_now Sample.source;
     today := today Sample.source;
     chart_fault := Some (OSError "no display name and no $DISPLAY") |}.

(** The sample source with an item whose label is none of the three. *)
Definition source_with_unlabelled_news : data_source :=
  {| load_or_fetch_historical_prices :=
       load_or_fetch_historical_prices Sample.source;
     load_or_fetch_market_news := fun _ =>
       [ Sample.news 1 "Wheat futures mixed in thin trade" "mixed";
         Sample.news 2 "New trade deal may boost wheat exports" "positive" ];
     load_or_fetch_weather_forecast :=
       load_or_fetch_weather_forecast Sample.source;
     datetime_now := datetime_now Sample.source;
     today := today Sample.source;
     chart_fault := None |}.

(** An analyzer that has analysed wheat over one month on the sample
    source. *)
Definition analyzer_after_one_call : DataAnalyzer.state :=
  snd (DataAnalyzer.get_comprehensive_analysis Sample.runtime Sample.source
         "wheat" "1 month" DataAnalyzer.init).

End Demo.

(** * Further properties of [get_comprehensive_analysis] *)

Ltac skip_step H :=
  rewrite bind_run, unless_present_run; cbn [analysis_results];
  rewrite H; cbn beta iota.

(** X1. With the three keys present the aggregate call consults the store
    alone: it returns the record whose three sections are the stored
    records, dated by the data source, logs its one line and leaves the
    store as it is, whatever prices, news and forecast the data source now
    holds. *)
Theorem stored_sub_analyses_are_served rt src crop timeframe s
    price_analysis sentiment_analysis weather_analysis :
  analysis_results s !! (crop ++ "_" ++ timeframe) = Some price_analysis ->
  analysis_results s !! (crop ++ "_sentiment") = Some sentiment_analysis ->
  analysis_results s !! (crop ++ "_weather") = Some weather_analysis ->
  get_comprehensive_analysis rt src crop timeframe s
  = (Return [ ("crop", VStr crop);
              ("timeframe", VStr timeframe);
              ("price_analysis", VDict price_analysis);
              ("sentiment_analysis", VDict sentiment_analysis);
              ("weather_analysis", VDict weather_analysis);
              ("analysis_date", VStr (today src)) ],
     {| analysis_results := analysis_results s;
        log := (log s ++ [comprehensive_line crop])%list |}).
Proof.
  intros Hp Hs Hw. unfold get_comprehensive_analysis, comprehensive_line.
  rewrite bind_run. unfold DataAnalyzer.logging at 1. cbn beta iota.
  skip_step Hp. skip_step Hs. skip_step Hw.
  unfold results_get. run_monad. cbn [analysis_results].
  now rewrite Hp, Hs, Hw.
Qed.

Lemma stored_sub_analyses_are_served_witness :
  DataAnalyzer.get_comprehensive_analysis Sample.runtime
    Sample.source_without_prices "wheat" "1 month" Demo.analyzer_after_one_call
  = (Return
       [ ("crop", VStr "wheat");
         ("timeframe", VStr "1 month");
         ("price_analysis",
          VDict (default [] (analysis_results Demo.analyzer_after_one_call
                             !! "wheat_1 month")));
         ("sentiment_analysis",
          VDict (default [] (analysis_results Demo.analyzer_after_one_call
                             !! "wheat_sentiment")));
         ("weather_analysis",
          VDict (default [] (analysis_results Demo.analyzer_after_one_call
                             !! "wheat_weather")));
         ("analysis_date", VStr (today Sample.source_without_prices)) ],
     {| analysis_results := analysis_results Demo.analyzer_after_one_call;
        log := (log Demo.analyzer_after_one_call
                ++ [comprehensive_line "wheat"])%list |}).
Proof.
  apply (stored_sub_analyses_are_served Sample.runtime
           Sample.source_without_prices "wheat" "1 month"
           Demo.analyzer_after_one_call);
    vm_compute; reflexivity.
Defined.



(** X3. On an analyzer that holds none of the three keys, with a timeframe
    label that is neither "sentiment" nor "weather" and all three data sets
    not empty, the aggregate record carries exactly the three records the
    analyzers build, and they are stored under the three keys. *)
Theorem fresh_aggregate_is_the_three_analyses rt src crop timeframe s
    first rest :
  analysis_results s !! (crop ++ "_" ++ timeframe) = None ->
  analysis_results s !! (crop ++ "_sentiment") = None ->
  analysis_results s !! (crop ++ "_weather") = None ->
  timeframe <> "sentiment" -> timeframe <> "weather" ->
  price_window src crop timeframe = first :: rest ->
  load_or_fetch_market_news src crop <> [] ->
  load_or_fetch_weather_forecast src "midwest" <> [] ->
  let price_analysis :=
    price_analysis_of rt crop timeframe (first :: rest) first
      (List.last rest first) in
  let sentiment_analysis :=
    sentiment_analysis_of crop (load_or_fetch_market_news src crop) in
  let weather_analysis :=
    weather_analysis_of crop "midwest"
      (load_or_fetch_weather_forecast src "midwest") in
  get_comprehensive_analysis rt src crop timeframe s
  = (Return [ ("crop", VStr crop);
              ("timeframe", VStr timeframe);
              ("price_analysis", VDict price_analysis);
              ("sentiment_analysis", VDict sentiment_analysis);
              ("weather_analysis", VDict weather_analysis);
              ("analysis_date", VStr (today src)) ],
     {| analysis_results :=
          <[crop ++ "_weather" := weather_analysis]>
            (<[crop ++ "_sentiment" := sentiment_analysis]>
               (<[crop ++ "_" ++ timeframe := price_analysis]>
                  (analysis_results s)));
        log := (log s ++ [ comprehensive_line crop;
                           price_line crop timeframe;
                           chart_line src crop timeframe;
                           sentiment_line crop;
                           weather_line crop "midwest" ])%list |}).
Proof.
  intros Hp Hs Hw Hts Htw Hwin Hnews Hfc pa sa wa.
  assert (Hps : crop ++ "_" ++ timeframe <> crop ++ "_sentiment").
  { intros E. apply (inj (String.app crop)) in E. vm_compute in E. congruence. }
  assert (Hpw : crop ++ "_" ++ timeframe <> crop ++ "_weather").
  { intros E. apply (inj (String.app crop)) in E. vm_compute in E. congruence. }
  assert (Hsw := sentiment_key_is_not_weather_key crop).
  unfold get_comprehensive_analysis, comprehensive_line.
  rewrite bind_run. unfold DataAnalyzer.logging at 1. cbn beta iota.
  rewrite bind_run, unless_present_run. cbn [analysis_results].
  rewrite Hp, (analyze_price_trends_returns _ _ _ _ _ _ _ Hwin). fold pa.
  rewrite bind_run, unless_present_run. cbn [analysis_results].
  rewrite lookup_insert_ne, Hs by exact Hps.
  rewrite (analyze_market_sentiment_returns _ _ _ Hnews). fold sa.
  rewrite bind_run, unless_present_run. cbn [analysis_results].
  rewrite !lookup_insert_ne, Hw by congruence.
  rewrite (analyze_weather_impact_returns _ _ _ _ Hfc). fold wa.
  unfold results_get. run_monad. cbn [analysis_results log].
  rewrite (lookup_insert_ne _ (crop ++ "_weather") (crop ++ "_" ++ timeframe))
    by congruence.
  rewrite (lookup_insert_ne _ (crop ++ "_sentiment") (crop ++ "_" ++ timeframe))
    by congruence.
  rewrite lookup_insert_eq.
  rewrite (lookup_insert_ne _ (crop ++ "_weather") (crop ++ "_sentiment"))
    by congruence.
  rewrite !lookup_insert_eq. cbn [default].
  rewrite <- !app_assoc. reflexivity.
Qed.

Lemma fresh_aggregate_is_the_three_analyses_witness :
  DataAnalyzer.get_comprehensive_analysis Sample.runtime Sample.source
    "wheat" "1 month" DataAnalyzer.init
  = (Return Sample.analysis, Demo.analyzer_after_one_call)
  /\ DataAnalyzer.get_comprehensive_analysis Sample.runtime Sample.source
       "wheat" "1 month" DataAnalyzer.init
     = (Return
          [ ("crop", VStr "wheat");
            ("timeframe", VStr "1 month");
            ("price_analysis",
             VDict (price_analysis_of Sample.runtime "wheat" "1 month"
                      (price_window Sample.source "wheat" "1 month")
                      (100 # 1) (110 # 1)));
            ("sentiment_analysis",
             VDict (sentiment_analysis_of "wheat"
                      (load_or_fetch_market_news Sample.source "wheat")));
            ("weather_analysis",
             VDict (weather_analysis_of "wheat" "midwest"
                      (load_or_fetch_weather_forecast Sample.source "midwest")));
            ("analysis_date", VStr (today Sample.source)) ],
        {| analysis_results :=
             <["wheat_weather"
               := weather_analysis_of "wheat" "midwest"
                    (load_or_fetch_weather_forecast Sample.source "midwest")]>
               (<["wheat_sentiment"
                  := sentiment_analysis_of "wheat"
                       (load_or_fetch_market_news Sample.source "wheat")]>
                  (<["wheat_1 month"
                     := price_analysis_of Sample.runtime "wheat" "1 month"
                          (price_window Sample.source "wheat" "1 month")
                          (100 # 1) (110 # 1)]> ∅));
           log := [ comprehensive_line "wheat";
                    price_line "wheat" "1 month";
                    chart_line Sample.source "wheat" "1 month";
                    sentiment_line "wheat";
                    weather_line "wheat" "midwest" ] |}).
Proof.
  split; [vm_compute; reflexivity |].
  apply (fresh_aggregate_is_the_three_analyses Sample.runtime Sample.source
           "wheat" "1 month" DataAnalyzer.init (100 # 1)
           [102 # 1; 99 # 1; 101 # 1; 105 # 1; 108 # 1; 107 # 1; 110 # 1]%Q);
    try (vm_compute; reflexivity); try discriminate.
Defined.

(** X4. The price key [crop_timeframe] and the sentiment key [crop_sentiment]
    coincide for the timeframe label "sentiment" (analysed, like every
    unknown label, over 30 days): the price analysis is stored under the
    sentiment key, the sentiment analyzer is not run whatever news there is,
    and the record carries the price analysis in both sections. *)
Theorem timeframe_named_sentiment_shadows_the_news rt src crop s first rest :
  analysis_results s !! (crop ++ "_sentiment") = None ->
  price_window src crop "sentiment" = first :: rest ->
  let price_analysis :=
    price_analysis_of rt crop "sentiment" (first :: rest) first
      (List.last rest first) in
  exists c s' new,
    get_comprehensive_analysis rt src crop "sentiment" s = (Return c, s')
    /\ dict_get "price_analysis" c = Some (VDict price_analysis)
    /\ dict_get "sentiment_analysis" c = Some (VDict price_analysis)
    /\ logged s s' new
    /\ runs (sentiment_line crop) new = 0%nat.
Proof.
  intros Hs Hwin pa.
  assert (Hsw := sentiment_key_is_not_weather_key crop).
  unfold get_comprehensive_analysis.
  rewrite bind_run. unfold DataAnalyzer.logging at 1. cbn beta iota.
  rewrite bind_run, unless_present_run. cbn [analysis_results].
  change (crop ++ "_" ++ "sentiment") with (crop ++ "_sentiment").
  rewrite Hs.
  pose proof (analyze_price_trends_returns rt src crop "sentiment") as Hrun.
  change (crop ++ "_" ++ "sentiment") with (crop ++ "_sentiment") in Hrun.
  rewrite (Hrun _ _ _ Hwin). fold pa. clear Hrun.
  rewrite bind_run, unless_present_run. cbn [analysis_results].
  rewrite lookup_insert_eq.
  match goal with
  | |- context [bind _ _ ?st] =>
      destruct (weather_step src crop st)
        as (s3 & new3 & Hrun3 & Hlog3 & Hkeep3 & _ & Hnew3 & _)
  end.
  rewrite bind_run, Hrun3.
  unfold results_get. run_monad.
  cbn [analysis_results log] in Hkeep3, Hlog3.
  exists (comprehensive_of src crop "sentiment" (analysis_results s3)), s3,
    ([comprehensive_line crop; price_line crop "sentiment";
      chart_line src crop "sentiment"] ++ new3)%list.
  split; [reflexivity |].
  unfold comprehensive_of.
  change (crop ++ "_" ++ "sentiment") with (crop ++ "_sentiment").
  rewrite (Hkeep3 _ pa (lookup_insert_eq _ _ _)).
  split; [reflexivity |]. split; [reflexivity |]. split.
  - unfold logged in *. cbn [log] in Hlog3. rewrite Hlog3.
    unfold comprehensive_line. rewrite <- !app_assoc. reflexivity.
  - rewrite runs_app.
    destruct (runs_part (sentiment_line crop) (weather_line crop "midwest")
                new3 eq_refl Hnew3) as [_ H3].
    rewrite (H3 eq_refl).
    unfold chart_line. destruct (chart_fault src); reflexivity.
Qed.

Lemma timeframe_named_sentiment_shadows_the_news_witness :
  load_or_fetch_market_news Sample.source "wheat" <> []
  /\ exists c s' new,
       DataAnalyzer.get_comprehensive_analysis Sample.runtime Sample.source
         "wheat" "sentiment" DataAnalyzer.init = (Return c, s')
       /\ dict_get "price_analysis" c
          = Some (VDict (price_analysis_of Sample.runtime "wheat" "sentiment"
                           (price_window Sample.source "wheat" "1 month")
                           (100 # 1) (110 # 1)))
       /\ dict_get "sentiment_analysis" c
          = Some (VDict (price_analysis_of Sample.runtime "wheat" "sentiment"
                           (price_window Sample.source "wheat" "1 month")
                           (100 # 1) (110 # 1)))
       /\ logged DataAnalyzer.init s' new
       /\ runs (sentiment_line "wheat") new = 0%nat.
Proof.
  split; [vm_compute; discriminate |].
  apply (timeframe_named_sentiment_shadows_the_news Sample.runtime
           Sample.source "wheat" DataAnalyzer.init (100 # 1)
           [102 # 1; 99 # 1; 101 # 1; 105 # 1; 108 # 1; 107 # 1; 110 # 1]%Q);
    vm_compute; reflexivity.
Defined.

(** * Further properties of the three analyzers *)

Lemma filter_none {A} (f : A -> bool) (l : list A) :
  (forall x, In x l -> f x = false) -> List.filter f l = [].
Proof.
  induction l as [| x l IH]; intros H; [reflexivity |].
  cbn [List.filter]. rewrite (H x (or_introl eq_refl)).
  apply IH. intros y Hy. apply H. now right.
Qed.

(** Rows there are, but none within the timeframe: no result, nothing
    stored, a warning logged; the same data a timeframe later. *)
Theorem old_prices_yield_no_result rt src crop timeframe s :
  load_or_fetch_historical_prices src crop <> [] ->
  (forall r, In r (load_or_fetch_historical_prices src crop) ->
             p_date r < datetime_now src - timeframe_days timeframe * 86400) ->
  analyze_price_trends rt src crop timeframe s
  = (Return None,
     {| analysis_results := analysis_results s;
        log := (log s ++ [price_line crop timeframe;
                          no_price_line crop timeframe])%list |}).
Proof.
  intros Hframe Hold. apply analyze_price_trends_old_rows; [exact Hframe |].
  unfold price_window.
  rewrite filter_none; [reflexivity |].
  intros r Hr. apply Z.leb_gt. now apply Hold.
Qed.

Lemma old_prices_yield_no_result_witness :
  analyze_price_trends Sample.runtime Demo.source_much_later "wheat" "3 months"
    DataAnalyzer.init
  = (Return None,
     {| analysis_results := ∅;
        log := [price_line "wheat" "3 months";
                no_price_line "wheat" "3 months"] |}).
Proof.
  apply (old_prices_yield_no_result Sample.runtime Demo.source_much_later
           "wheat" "3 months" DataAnalyzer.init).
  - vm_compute; discriminate.
  - intros r Hr. cbn in Hr.
    repeat (destruct Hr as [<- | Hr]; [vm_compute; reflexivity |]).
    destruct Hr.
Defined.

(** X5. A failure to draw the chart changes the log and nothing else: on
    the same prices at the same time, [analyze_price_trends] returns the
    same result and stores the same records whether [matplotlib] raises or
    not. *)
Theorem chart_failure_leaves_the_analysis_alone rt src src' crop timeframe s :
  load_or_fetch_historical_prices src' crop
  = load_or_fetch_historical_prices src crop ->
  datetime_now src' = datetime_now src ->
  fst (analyze_price_trends rt src' crop timeframe s)
  = fst (analyze_price_trends rt src crop timeframe s)
  /\ analysis_results (snd (analyze_price_trends rt src' crop timeframe s))
     = analysis_results (snd (analyze_price_trends rt src crop timeframe s)).
Proof.
  intros Hframe Hnow.
  assert (Hwin : price_window src' crop timeframe
                 = price_window src crop timeframe)
    by (unfold price_window; now rewrite Hframe, Hnow).
  destruct (price_window src crop timeframe) as [| first rest] eqn:Hw.
  - destruct (load_or_fetch_historical_prices src crop) as [| r0 frame] eqn:Ef.
    + rewrite !analyze_price_trends_empty_frame by congruence. now split.
    + rewrite !analyze_price_trends_old_rows by congruence. now split.
  - rewrite (analyze_price_trends_returns rt src' crop timeframe s first rest)
      by congruence.
    rewrite (analyze_price_trends_returns rt src crop timeframe s first rest Hw).
    now split.
Qed.

Lemma chart_failure_leaves_the_analysis_alone_witness :
  fst (analyze_price_trends Sample.runtime Demo.source_without_display
         "wheat" "1 month" DataAnalyzer.init)
  = fst (analyze_price_trends Sample.runtime Sample.source
           "wheat" "1 month" DataAnalyzer.init)
  /\ analysis_results
       (snd (analyze_price_trends Sample.runtime Demo.source_without_display
               "wheat" "1 month" DataAnalyzer.init))
     = analysis_results
         (snd (analyze_price_trends Sample.runtime Sample.source
                 "wheat" "1 month" DataAnalyzer.init)).
Proof.
  apply (chart_failure_leaves_the_analysis_alone Sample.runtime Sample.source
           Demo.source_without_display "wheat" "1 month" DataAnalyzer.init);
    reflexivity.
Defined.

(** A label [analyze_market_sentiment] counts. *)
Definition counted_label (label : string) : bool :=
  String.eqb label "positive" || String.eqb label "negative"
  || String.eqb label "neutral".

Lemma counts_and_length news_data :
  sentiment_count "positive" news_data + sentiment_count "negative" news_data
  + sentiment_count "neutral" news_data
  = Z.of_nat (length (List.filter (fun r => counted_label (n_sentiment r))
                        news_data)).
Proof.
  unfold sentiment_count, counted_label.
  induction news_data as [| r l IH]; [reflexivity |].
  cbn [List.filter].
  destruct (String.eqb_spec (n_sentiment r) "positive") as [E | _].
  { rewrite E. cbn [String.eqb Ascii.eqb Bool.eqb andb orb length]. lia. }
  destruct (String.eqb_spec (n_sentiment r) "negative") as [E | _].
  { rewrite E. cbn [String.eqb Ascii.eqb Bool.eqb andb orb length]. lia. }
  destruct (String.eqb_spec (n_sentiment r) "neutral") as [E | _].
  { cbn [orb length]. lia. }
  cbn [orb]. exact IH.
Qed.

Lemma filter_length_all {A} (f : A -> bool) (l : list A) :
  length (List.filter f l) = length l <-> forall x, In x l -> f x = true.
Proof.
  induction l as [| x l IH]; [now split |].
  cbn [List.filter]. pose proof (List.filter_length_le f l) as Hle.
  destruct (f x) eqn:E; cbn [length].
  - split.
    + intros H y [<- | Hy]; [exact E |]. apply IH; [lia | exact Hy].
    + intros H. f_equal. apply IH. intros y Hy. apply H. now right.
  - split; [lia |]. intros H.
    rewrite (H x (or_introl eq_refl)) in E. discriminate.
Qed.

(** X6. The three counts of a sentiment analysis never sum to more than the
    number of headlines it lists, which is the number of news items; they
    sum to exactly that number when every item carries one of the three
    labels, and only then. *)
Theorem counted_news_and_headlines src crop s :
  load_or_fetch_market_news src crop <> [] ->
  exists analysis s' positive negative neutral,
    analyze_market_sentiment src crop s = (Return (Some analysis), s')
    /\ dict_get "positive_news_count" analysis = Some (VInt positive)
    /\ dict_get "negative_news_count" analysis = Some (VInt negative)
    /\ dict_get "neutral_news_count" analysis = Some (VInt neutral)
    /\ dict_get "headlines" analysis
       = Some (VList (map n_headline (load_or_fetch_market_news src crop)))
    /\ 0 <= positive /\ 0 <= negative /\ 0 <= neutral
    /\ positive + negative + neutral
       <= Z.of_nat (length (load_or_fetch_market_news src crop))
    /\ (positive + negative + neutral
        = Z.of_nat (length (load_or_fetch_market_news src crop))
        <-> forall r, In r (load_or_fetch_market_news src crop) ->
                      n_sentiment r = "positive"
                      \/ n_sentiment r = "negative"
                      \/ n_sentiment r = "neutral").
Proof.
  intros Hne. rewrite (analyze_market_sentiment_returns src crop s Hne).
  set (news_data := load_or_fetch_market_news src crop).
  do 5 eexists. split; [reflexivity |].
  unfold sentiment_analysis_of.
  split; [reflexivity |]. split; [reflexivity |]. split; [reflexivity |].
  split; [reflexivity |].
  split; [unfold sentiment_count; lia |].
  split; [unfold sentiment_count; lia |].
  split; [unfold sentiment_count; lia |].
  rewrite counts_and_length.
  pose proof (List.filter_length_le
                (fun r => counted_label (n_sentiment r)) news_data) as Hle.
  split; [lia |].
  rewrite Nat2Z.inj_iff, filter_length_all.
  split; intros H r Hr; specialize (H r Hr); unfold counted_label in *.
  - destruct (String.eqb_spec (n_sentiment r) "positive"); [tauto |].
    destruct (String.eqb_spec (n_sentiment r) "negative"); [tauto |].
    destruct (String.eqb_spec (n_sentiment r) "neutral"); [tauto |].
    discriminate.
  - destruct H as [-> | [-> | ->]]; reflexivity.
Qed.

Lemma counted_news_and_headlines_witness :
  exists analysis s' positive negative neutral,
    analyze_market_sentiment Demo.source_with_unlabelled_news "wheat"
      DataAnalyzer.init = (Return (Some analysis), s')
    /\ dict_get "positive_news_count" analysis = Some (VInt positive)
    /\ dict_get "negative_news_count" analysis = Some (VInt negative)
    /\ dict_get "neutral_news_count" analysis = Some (VInt neutral)
    /\ dict_get "headlines" analysis
       = Some (VList (map n_headline
                        (load_or_fetch_market_news
                           Demo.source_with_unlabelled_news "wheat")))
    /\ 0 <= positive /\ 0 <= negative /\ 0 <= neutral
    /\ positive + negative + neutral
       <= Z.of_nat (length (load_or_fetch_market_news
                              Demo.source_with_unlabelled_news "wheat"))
    /\ (positive + negative + neutral
        = Z.of_nat (length (load_or_fetch_market_news
                              Demo.source_with_unlabelled_news "wheat"))
        <-> forall r, In r (load_or_fetch_market_news
                              Demo.source_with_unlabelled_news "wheat") ->
                      n_sentiment r = "positive"
                      \/ n_sentiment r = "negative"
                      \/ n_sentiment r = "neutral").
Proof.
  apply (counted_news_and_headlines Demo.source_with_unlabelled_news "wheat"
           DataAnalyzer.init).
  vm_compute; discriminate.
Defined.

Lemma Qgt_bool_quotient (a t c : Z) (d : positive) :
  0 < t ->
  Qgt_bool (inject_Z a / inject_Z t) (c # d) = (c * t <? a * Z.pos d).
Proof.
  intros Ht. destruct t as [| tp | tp]; try lia.
  destruct (Qgt_boolP (inject_Z a / inject_Z (Z.pos tp)) (c # d)) as [H | H];
    destruct (Z.ltb_spec (c * Z.pos tp) (a * Z.pos d)) as [H' | H'];
    try reflexivity; exfalso;
    unfold Qlt, Qdiv, Qmult, Qinv, inject_Z in H; cbn in H; lia.
Qed.

Lemma Qlt_bool_quotient (a t c : Z) (d : positive) :
  0 < t ->
  Qlt_bool (inject_Z a / inject_Z t) (c # d) = (a * Z.pos d <? c * t).
Proof.
  intros Ht. destruct t as [| tp | tp]; try lia.
  destruct (Qlt_boolP (inject_Z a / inject_Z (Z.pos tp)) (c # d)) as [H | H];
    destruct (Z.ltb_spec (a * Z.pos d) (c * Z.pos tp)) as [H' | H'];
    try reflexivity; exfalso;
    unfold Qlt, Qdiv, Qmult, Qinv, inject_Z in H; cbn in H; lia.
Qed.

(** The sentiment ladder on the counts themselves: with [net] the positive
    count minus the negative one and [total] the sum of the three counts. *)
Definition trend_by_counts (net total : Z) : string :=
  if total <? 2 * net then "strongly positive"
  else if total <? 10 * net then "positive"
  else if 2 * net <? - total then "strongly negative"
  else if 10 * net <? - total then "negative"
  else "neutral".

(** X7. In whole numbers, the sentiment is strongly positive when the
    positive items outnumber the negative ones by more than half of the
    counted items, positive when by more than a tenth, and likewise on the
    negative side; exactly half, or exactly a tenth, is not enough. *)
Theorem sentiment_trend_by_counts src crop s :
  load_or_fetch_market_news src crop <> [] ->
  exists analysis s' positive negative neutral,
    analyze_market_sentiment src crop s = (Return (Some analysis), s')
    /\ dict_get "positive_news_count" analysis = Some (VInt positive)
    /\ dict_get "negative_news_count" analysis = Some (VInt negative)
    /\ dict_get "neutral_news_count" analysis = Some (VInt neutral)
    /\ dict_get "sentiment_trend" analysis
       = Some (VStr (trend_by_counts (positive - negative)
                       (positive + negative + neutral))).
Proof.
  intros Hne. rewrite (analyze_market_sentiment_returns src crop s Hne).
  set (news_data := load_or_fetch_market_news src crop).
  do 5 eexists. split; [reflexivity |].
  unfold sentiment_analysis_of.
  split; [reflexivity |]. split; [reflexivity |]. split; [reflexivity |].
  cbn [dict_get String.eqb Ascii.eqb Bool.eqb]. do 2 f_equal.
  set (p := sentiment_count "positive" news_data).
  set (n := sentiment_count "negative" news_data).
  set (u := sentiment_count "neutral" news_data).
  assert (Hp : 0 <= p) by (unfold p, sentiment_count; lia).
  assert (Hn : 0 <= n) by (unfold n, sentiment_count; lia).
  assert (Hu : 0 <= u) by (unfold u, sentiment_count; lia).
  unfold sentiment_trend_of, trend_by_counts.
  destruct (Z.ltb_spec 0 (p + n + u)) as [Hpos | Hzero].
  - cbn [number].
    rewrite !Qgt_bool_quotient, !Qlt_bool_quotient by exact Hpos.
    replace (5 * (p + n + u) <? (p - n) * 10) with (p + n + u <? 2 * (p - n))
      by (destruct (Z.ltb_spec (p + n + u) (2 * (p - n)));
          destruct (Z.ltb_spec (5 * (p + n + u)) ((p - n) * 10)); lia).
    replace (1 * (p + n + u) <? (p - n) * 10) with (p + n + u <? 10 * (p - n))
      by (destruct (Z.ltb_spec (p + n + u) (10 * (p - n)));
          destruct (Z.ltb_spec (1 * (p + n + u)) ((p - n) * 10)); lia).
    replace ((p - n) * 10 <? -5 * (p + n + u))
      with (2 * (p - n) <? - (p + n + u))
      by (destruct (Z.ltb_spec (2 * (p - n)) (- (p + n + u)));
          destruct (Z.ltb_spec ((p - n) * 10) (-5 * (p + n + u))); lia).
    replace ((p - n) * 10 <? -1 * (p + n + u))
      with (10 * (p - n) <? - (p + n + u))
      by (destruct (Z.ltb_spec (10 * (p - n)) (- (p + n + u)));
          destruct (Z.ltb_spec ((p - n) * 10) (-1 * (p + n + u))); lia).
    reflexivity.
  - assert (p = 0 /\ n = 0 /\ u = 0) as (-> & -> & ->) by lia.
    reflexivity.
Qed.

Lemma sentiment_trend_by_counts_witness :
  exists analysis s' positive negative neutral,
    analyze_market_sentiment Sample.source "wheat" DataAnalyzer.init
    = (Return (Some analysis), s')
    /\ dict_get "positive_news_count" analysis = Some (VInt positive)
    /\ dict_get "negative_news_count" analysis = Some (VInt negative)
    /\ dict_get "neutral_news_count" analysis = Some (VInt neutral)
    /\ dict_get "sentiment_trend" analysis
       = Some (VStr (trend_by_counts (positive - negative)
                       (positive + negative + neutral))).
Proof.
  apply (sentiment_trend_by_counts Sample.source "wheat" DataAnalyzer.init).
  vm_compute; discriminate.
Defined.

(** * Further properties of [get_advisory] *)

Section AdvisoryMore.
Import LLMAdvisor.

Variable rt : PyRuntime.

Ltac run_advisor :=
  unfold bind, ret, raise, lift, try_except, get_state, put_state,
    logging; cbn beta iota zeta.

(** [get_advisory] from line 41 on: what follows the look at the cache. *)
Definition after_cache_miss (env : environment) (analysis_data : dict)
    (farmer_query : string) : M state value :=
  (crop <- lift (dict_item analysis_data "crop") ;;
   timeframe <- lift (dict_item analysis_data "timeframe") ;;
   price_analysis <- lift (dict_item analysis_data "price_analysis") ;;
   sentiment_analysis <- lift (dict_item analysis_data "sentiment_analysis") ;;
   weather_analysis <- lift (dict_item analysis_data "weather_analysis") ;;
   prompt <- _format_prompt rt crop timeframe price_analysis
               sentiment_analysis weather_analysis farmer_query ;;
   try_except
     (advice_text <- lift (chat_completion env (request env prompt)) ;;
      current_price <- lift (obj_get price_analysis "current_price" VNone) ;;
      price_trend <- lift (obj_get price_analysis "trend" VNone) ;;
      projected_price_change <-
        lift (obj_get price_analysis "projection_pct" VNone) ;;
      market_sentiment <-
        lift (obj_get sentiment_analysis "sentiment_trend" VNone) ;;
      weather_impact <-
        lift (obj_get weather_analysis "weather_impact" VNone) ;;
      let advisory_response : dict :=
        [ ("query", VStr farmer_query);
          ("crop", crop);
          ("advice", VStr advice_text);
          ("data_summary",
           VDict [ ("current_price", current_price);
                   ("price_trend", price_trend);
                   ("projected_price_change", projected_price_change);
                   ("market_sentiment", market_sentiment);
                   ("weather_impact", weather_impact) ]);
          ("timestamp", VStr (strftime_now env)) ] in
      json_dump env (cache_file rt analysis_data farmer_query)
        (VDict advisory_response) ;;;
      logging INFO "Advisory generated and cached" ;;;
      ret (VDict advisory_response))
     (fun e =>
        logging ERROR ("Error generating advisory: " ++ str_exn e) ;;;
        ret (VDict (degraded_response env farmer_query crop e))))%py.

Lemma get_advisory_miss env analysis_data farmer_query force_refresh s :
  not_served rt analysis_data farmer_query force_refresh s ->
  get_advisory rt env analysis_data farmer_query force_refresh s
  = after_cache_miss env analysis_data farmer_query
      {| files := files s;
         log := (log s ++ miss_log rt analysis_data farmer_query
                            force_refresh s)%list |}.
Proof.
  intros Hmiss. unfold get_advisory, after_cache_miss, miss_log.
  rewrite bind_run. unfold get_state at 1. cbn beta iota.
  rewrite bind_run. unfold exists_.
  destruct Hmiss as [-> | [Hnone | [e Hbad]]].
  - cbn [negb andb]. unfold ret at 1. cbn beta iota.
    rewrite bind_run. unfold logging at 1. cbn beta iota. reflexivity.
  - rewrite Hnone, andb_false_r. unfold ret at 1. cbn beta iota.
    rewrite bind_run. unfold logging at 1. cbn beta iota.
    destruct force_refresh; reflexivity.
  - rewrite Hbad, andb_true_r. destruct force_refresh; cbn [negb].
    + unfold ret at 1. cbn beta iota.
      rewrite bind_run. unfold logging at 1. cbn beta iota. reflexivity.
    + unfold try_except at 1. rewrite bind_run. unfold json_load at 1.
      rewrite Hbad. cbn beta iota.
      rewrite bind_run. unfold logging at 1. cbn beta iota.
      unfold ret at 1. cbn beta iota.
      rewrite bind_run. unfold logging at 1. cbn beta iota.
      cbn [files log]. rewrite <- app_assoc. reflexivity.
Qed.





(** The first of the five items missing from the analysis data. *)
Definition first_missing (analysis_data : dict) : option string :=
  List.find (fun k => match dict_get k analysis_data with
                      | Some _ => false
                      | None => true
                      end)
    ["crop"; "timeframe"; "price_analysis"; "sentiment_analysis";
     "weather_analysis"].

(** X9. When no stored response is served and the analysis data lacks one of
    the five items, the call raises [KeyError] for the first one missing,
    before the service is called and outside the handler, and the cache is
    left as it was. *)
Theorem missing_item_raises env analysis_data farmer_query force_refresh s k :
  not_served rt analysis_data farmer_query force_refresh s ->
  first_missing analysis_data = Some k ->
  get_advisory rt env analysis_data farmer_query force_refresh s
  = (Raise (KeyError ("'" ++ k ++ "'")),
     {| files := files s;
        log := (log s ++ miss_log rt analysis_data farmer_query
                           force_refresh s)%list |}).
Proof.
  intros Hmiss Hk. rewrite (get_advisory_miss env _ _ _ _ Hmiss).
  unfold first_missing in Hk. cbn [List.find] in Hk.
  unfold after_cache_miss, dict_item.
  repeat (rewrite bind_run; unfold lift at 1;
          match type of Hk with
          | context [dict_get ?key analysis_data] =>
              destruct (dict_get key analysis_data);
              [| injection Hk as <-; reflexivity]
          end).
  discriminate Hk.
Qed.

(** X10. A readable entry under the key is returned as it is, whatever it
    holds, without a look at the analysis data (which may lack every item),
    without a call to the service and without a write: the result is the
    same in every environment. *)
Theorem stored_response_is_returned_unseen env env' analysis_data
    farmer_query s v :
  files s !! cache_file rt analysis_data farmer_query = Some (Json v) ->
  fst (get_advisory rt env analysis_data farmer_query false s) = Return v
  /\ files (snd (get_advisory rt env analysis_data farmer_query false s))
     = files s
  /\ get_advisory rt env' analysis_data farmer_query false s
     = get_advisory rt env analysis_data farmer_query false s.
Proof.
  intros Hv. rewrite !(get_advisory_hit rt _ _ _ _ v Hv). auto.
Qed.


(** X12. A forced refresh that succeeds replaces whatever the cache holds
    under the key, and the next call without refresh returns the refreshed
    response. *)
Theorem forced_refresh_replaces_the_entry env env2 analysis_data farmer_query
    s crop price_analysis sentiment_analysis weather_analysis prompt
    advice_text :
  prepared rt analysis_data farmer_query crop price_analysis
    sentiment_analysis weather_analysis prompt ->
  chat_completion env (request env prompt) = Return advice_text ->
  write_fault env = None ->
  let response :=
    VDict (advisory_response env farmer_query crop price_analysis
             sentiment_analysis weather_analysis advice_text) in
  exists s1,
    get_advisory rt env analysis_data farmer_query true s
    = (Return response, s1)
    /\ files s1
       = <[cache_file rt analysis_data farmer_query := Json response]>
           (files s)
    /\ fst (get_advisory rt env2 analysis_data farmer_query false s1)
       = Return response.
Proof.
  intros Hprep Hanswer Hwrite response.
  assert (Hmiss : not_served rt analysis_data farmer_query true s)
    by now left.
  rewrite (get_advisory_generates rt env _ _ _ _ _ _ _ _ _ Hmiss Hprep),
    Hanswer, Hwrite.
  eexists. split; [reflexivity |]. split; [reflexivity |].
  now rewrite (get_advisory_hit rt env2 _ _ _ _ (lookup_insert_eq _ _ _)).
Qed.


(** A value [format] accepts with the code [f]. *)
Definition is_number (v : value) : bool :=
  match v with
  | VNum _ | VInt _ => true
  | _ => false
  end.

(** A value that can be sliced and iterated over. *)
Definition is_sequence (v : value) : bool :=
  match v with
  | VList _ | VStr _ => true
  | _ => false
  end.

(** [section.get(key, 'N/A')] *)
Definition field_or_na (section : dict) (key : string) : value :=
  default (VStr "N/A") (dict_get key section).

(** The condition under which [_format_prompt] returns. *)
Definition formattable (crop price_analysis sentiment_analysis
    weather_analysis : value) : bool :=
  match crop, price_analysis, sentiment_analysis, weather_analysis with
  | VStr _, VDict p, VDict s, VDict w =>
      is_number (field_or_na p "current_price")
      && is_number (field_or_na p "price_change_pct")
      && is_number (field_or_na p "projection_pct")
      && is_number (field_or_na p "volatility")
      && is_sequence (default (VList []) (dict_get "headlines" s))
      && is_number (field_or_na w "average_temperature")
      && is_number (field_or_na w "total_precipitation")
  | _, _, _, _ => false
  end.

Definition number_text (n : nat) (v : value) : string :=
  match v with
  | VNum q => format_fixed rt n q
  | VInt z => format_fixed rt n (inject_Z z)
  | _ => EmptyString
  end.

Definition format_error (v : value) : exn :=
  match v with
  | VStr _ => ValueError "Unknown format code 'f' for object of type 'str'"
  | VNone =>
      TypeError "unsupported format string passed to NoneType.__format__"
  | VList _ =>
      TypeError "unsupported format string passed to list.__format__"
  | _ => TypeError "unsupported format string passed to dict.__format__"
  end.

Lemma format_f_cases n v :
  format_f rt n v
  = if is_number v then Return (number_text n v) else Raise (format_error v).
Proof. destruct v; reflexivity. Qed.

Definition lines_of (v : value) : list string :=
  match v with
  | VList l => map (fun headline => "  - " ++ headline) (firstn 3 l)
  | VStr s => map (fun headline => "  - " ++ headline) (chars (str_prefix 3 s))
  | _ => []
  end.

Definition slice_error (v : value) : exn :=
  match v with
  | VNone => TypeError "'NoneType' object is not subscriptable"
  | VInt _ => TypeError "'int' object is not subscriptable"
  | VNum _ => TypeError "'float' object is not subscriptable"
  | _ => TypeError "unhashable type: 'slice'"
  end.

Lemma headline_lines_cases v :
  headline_lines v
  = if is_sequence v then Return (lines_of v) else Raise (slice_error v).
Proof. destruct v; reflexivity. Qed.

Ltac dead :=
  solve [split;
         [intros [? H]; cbn beta iota delta [fst upper obj_get] in H;
          discriminate H
         | intros H;
           repeat match type of H with
                  | context [match ?v with VDict _ => _ | _ => _ end] =>
                      is_var v; destruct v
                  end;
           cbn beta iota delta [andb] in H; discriminate H]].

Ltac on_number n v :=
  rewrite (format_f_cases n v);
  destruct (is_number v); cbn beta iota; [| dead].

(** X14. The prompt is formatted exactly when the crop is a string, the three
    sections are records, the price section has numbers for
    [current_price], [price_change_pct], [projection_pct] and [volatility],
    the weather section has numbers for [average_temperature] and
    [total_precipitation], and [headlines], if there, is a list or a
    string.  A missing number is replaced by 'N/A', which the format
    rejects; the sentiment section may be empty. *)
Theorem prompt_is_formatted_exactly_when crop timeframe price_analysis
    sentiment_analysis weather_analysis farmer_query :
  (exists prompt,
     prompt_of rt crop timeframe price_analysis sentiment_analysis
       weather_analysis farmer_query = Return prompt)
  <-> formattable crop price_analysis sentiment_analysis weather_analysis
      = true.
Proof.
  unfold prompt_of, _format_prompt, formattable, field_or_na.
  unfold bind, lift, ret.
  destruct crop as [| c | | | |]; try dead.
  cbn beta iota delta [upper].
  destruct price_analysis as [| | | | | p]; try dead.
  cbn beta iota delta [obj_get].
  on_number 2%nat (default (VStr "N/A") (dict_get "current_price" p)).
  on_number 2%nat (default (VStr "N/A") (dict_get "price_change_pct" p)).
  on_number 2%nat (default (VStr "N/A") (dict_get "projection_pct" p)).
  on_number 2%nat (default (VStr "N/A") (dict_get "volatility" p)).
  destruct sentiment_analysis as [| | | | | sa]; try dead.
  cbn beta iota delta [obj_get].
  rewrite (headline_lines_cases (default (VList []) (dict_get "headlines" sa))).
  destruct (is_sequence (default (VList []) (dict_get "headlines" sa)));
    cbn beta iota; [| dead].
  destruct weather_analysis as [| | | | | wa]; try dead.
  cbn beta iota delta [obj_get].
  on_number 1%nat (default (VStr "N/A") (dict_get "average_temperature" wa)).
  on_number 1%nat (default (VStr "N/A") (dict_get "total_precipitation" wa)).
  split; [reflexivity | intros _; eexists; reflexivity].
Qed.
End AdvisoryMore.

(** ** The advisor properties on the sample analysis *)

(** A cache that holds an old response under the key of the sample analysis
    and query. *)
Definition cache_with_old_entry : LLMAdvisor.state :=
  {| LLMAdvisor.files :=
       {[ LLMAdvisor.cache_file Sample.runtime Sample.analysis Sample.query
          := Json (VStr "an old response") ]};
     LLMAdvisor.log := [] |}.

(** A cache that holds an entry under the key of an analysis without any
    item. *)
Definition cache_of_empty_analysis : LLMAdvisor.state :=
  {| LLMAdvisor.files :=
       {[ LLMAdvisor.cache_file Sample.runtime [] Sample.query
          := Json (VList ["not"; "a"; "response"]) ]};
     LLMAdvisor.log := [] |}.

Lemma missing_item_raises_witness :
  LLMAdvisor.get_advisory Sample.runtime
    (Sample.service_up "2026-11-03 10:00:00")
    [("crop", VStr "wheat"); ("timeframe", VStr "1 month");
     ("sentiment_analysis", VDict [])]
    Sample.query false LLMAdvisor.init
  = (Raise (KeyError ("'" ++ "price_analysis" ++ "'")),
     {| LLMAdvisor.files := LLMAdvisor.files LLMAdvisor.init;
        LLMAdvisor.log :=
          (LLMAdvisor.log LLMAdvisor.init
           ++ miss_log Sample.runtime
                [("crop", VStr "wheat"); ("timeframe", VStr "1 month");
                 ("sentiment_analysis", VDict [])]
                Sample.query false LLMAdvisor.init)%list |}).
Proof.
  apply (missing_item_raises Sample.runtime
           (Sample.service_up "2026-11-03 10:00:00")
           [("crop", VStr "wheat"); ("timeframe", VStr "1 month");
            ("sentiment_analysis", VDict [])]
           Sample.query false LLMAdvisor.init "price_analysis").
  - right; left. vm_compute. reflexivity.
  - vm_compute. reflexivity.
Defined.

Lemma stored_response_is_returned_unseen_witness :
  fst (LLMAdvisor.get_advisory Sample.runtime
         (Sample.service_down "2026-11-03 10:00:00") [] Sample.query false
         cache_of_empty_analysis)
  = Return (VList ["not"; "a"; "response"])
  /\ LLMAdvisor.files
       (snd (LLMAdvisor.get_advisory Sample.runtime
               (Sample.service_down "2026-11-03 10:00:00") [] Sample.query
               false cache_of_empty_analysis))
     = LLMAdvisor.files cache_of_empty_analysis
  /\ LLMAdvisor.get_advisory Sample.runtime
       (Sample.read_only_cache "2026-11-03 10:00:05") [] Sample.query false
       cache_of_empty_analysis
     = LLMAdvisor.get_advisory Sample.runtime
         (Sample.service_down "2026-11-03 10:00:00") [] Sample.query false
         cache_of_empty_analysis.
Proof.
  apply (stored_response_is_returned_unseen Sample.runtime
           (Sample.service_down "2026-11-03 10:00:00")
           (Sample.read_only_cache "2026-11-03 10:00:05")
           [] Sample.query cache_of_empty_analysis
           (VList ["not"; "a"; "response"])).
  vm_compute. reflexivity.
Defined.


Lemma forced_refresh_replaces_the_entry_witness :
  let response :=
    VDict (advisory_response (Sample.service_up "2026-11-03 10:00:00")
             Sample.query (VStr "wheat")
             (default VNone (dict_get "price_analysis" Sample.analysis))
             (default VNone (dict_get "sentiment_analysis" Sample.analysis))
             (default VNone (dict_get "weather_analysis" Sample.analysis))
             "Hold for two weeks.") in
  exists s1,
    LLMAdvisor.get_advisory Sample.runtime
      (Sample.service_up "2026-11-03 10:00:00")
      Sample.analysis Sample.query true cache_with_old_entry
    = (Return response, s1)
    /\ LLMAdvisor.files s1
       = <[LLMAdvisor.cache_file Sample.runtime Sample.analysis Sample.query
           := Json response]> (LLMAdvisor.files cache_with_old_entry)
    /\ fst (LLMAdvisor.get_advisory Sample.runtime
              (Sample.service_down "2026-11-03 10:00:05")
              Sample.analysis Sample.query false s1)
       = Return response.
Proof.
  eapply (forced_refresh_replaces_the_entry Sample.runtime
            (Sample.service_up "2026-11-03 10:00:00")
            (Sample.service_down "2026-11-03 10:00:05")
            Sample.analysis Sample.query cache_with_old_entry).
  - split; [reflexivity |]. eexists.
    split; [reflexivity |]. split; [reflexivity |].
    split; [reflexivity |]. split; [reflexivity |].
    vm_compute. reflexivity.
  - reflexivity.
  - reflexivity.
Defined.


(** * The analyzer and the advisor together *)

(** The sections of the record that an analyzer without stored results
    hands to the advisor: what the analyzers build, or the empty record
    where there is no data. *)
Definition price_section (rt : PyRuntime) (src : data_source)
    (crop timeframe : string) : dict :=
  match price_window src crop timeframe with
  | [] => []
  | first :: rest =>
      price_analysis_of rt crop timeframe (first :: rest) first
        (List.last rest first)
  end.

Definition sentiment_section (src : data_source) (crop : string) : dict :=
  match load_or_fetch_market_news src crop with
  | [] => []
  | (_ :: _) as news_data => sentiment_analysis_of crop news_data
  end.

Definition weather_section (src : data_source) (crop : string) : dict :=
  match load_or_fetch_weather_forecast src "midwest" with
  | [] => []
  | (_ :: _) as weather_data => weather_analysis_of crop "midwest" weather_data
  end.

Lemma unstored_aggregate rt src crop timeframe s :
  analysis_results s !! (crop ++ "_" ++ timeframe) = None ->
  analysis_results s !! (crop ++ "_sentiment") = None ->
  analysis_results s !! (crop ++ "_weather") = None ->
  timeframe <> "sentiment" -> timeframe <> "weather" ->
  load_or_fetch_historical_prices src crop <> [] ->
  fst (get_comprehensive_analysis rt src crop timeframe s)
  = Return [ ("crop", VStr crop);
             ("timeframe", VStr timeframe);
             ("price_analysis", VDict (price_section rt src crop timeframe));
             ("sentiment_analysis", VDict (sentiment_section src crop));
             ("weather_analysis", VDict (weather_section src crop));
             ("analysis_date", VStr (today src)) ].
Proof.
  intros Hp Hs Hw Hts Htw Hframe.
  assert (Hps : crop ++ "_" ++ timeframe <> crop ++ "_sentiment").
  { intros E. apply (inj (String.app crop)) in E. vm_compute in E. congruence. }
  assert (Hpw : crop ++ "_" ++ timeframe <> crop ++ "_weather").
  { intros E. apply (inj (String.app crop)) in E. vm_compute in E. congruence. }
  assert (Hsw := sentiment_key_is_not_weather_key crop).
  unfold price_section, sentiment_section, weather_section.
  unfold get_comprehensive_analysis.
  rewrite bind_run. unfold DataAnalyzer.logging at 1. cbn beta iota.
  rewrite bind_run, unless_present_run. cbn [analysis_results].
  rewrite Hp.
  destruct (price_window src crop timeframe) as [| first rest] eqn:Hwin;
    [rewrite (analyze_price_trends_old_rows _ _ _ _ _ Hframe Hwin)
    | rewrite (analyze_price_trends_returns _ _ _ _ _ _ _ Hwin)];
    (rewrite bind_run, unless_present_run; cbn [analysis_results];
     rewrite ?lookup_insert_ne by congruence; rewrite Hs;
     destruct (load_or_fetch_market_news src crop) as [| n news] eqn:Hnews;
     [rewrite (analyze_market_sentiment_empty _ _ _ Hnews)
     | rewrite (analyze_market_sentiment_returns src crop _
                  ltac:(rewrite Hnews; discriminate)), Hnews]);
    (rewrite bind_run, unless_present_run; cbn [analysis_results];
     rewrite ?lookup_insert_ne by congruence; rewrite Hw;
     destruct (load_or_fetch_weather_forecast src "midwest")
       as [| w forecast] eqn:Hfc;
     [rewrite (analyze_weather_impact_empty _ _ _ _ Hfc)
     | rewrite (analyze_weather_impact_returns src crop "midwest" _
                  ltac:(rewrite Hfc; discriminate)), Hfc]);
    unfold results_get; run_monad; cbn [analysis_results fst];
    repeat (rewrite lookup_insert_eq
            || rewrite lookup_insert_ne by congruence);
    rewrite ?Hp, ?Hs, ?Hw; reflexivity.
Qed.

Section AnalysisToAdvice.
Import LLMAdvisor.

Variable rt : PyRuntime.

(** An exception raised while the prompt is formatted is not handled: it
    leaves [get_advisory] before the service is called. *)
Lemma prompt_failure_escapes env analysis_data farmer_query force_refresh a
    crop timeframe price_analysis sentiment_analysis weather_analysis e :
  not_served rt analysis_data farmer_query force_refresh a ->
  dict_get "crop" analysis_data = Some crop ->
  dict_get "timeframe" analysis_data = Some timeframe ->
  dict_get "price_analysis" analysis_data = Some price_analysis ->
  dict_get "sentiment_analysis" analysis_data = Some sentiment_analysis ->
  dict_get "weather_analysis" analysis_data = Some weather_analysis ->
  prompt_of rt crop timeframe price_analysis sentiment_analysis
    weather_analysis farmer_query = Raise e ->
  get_advisory rt env analysis_data farmer_query force_refresh a
  = (Raise e,
     {| files := files a;
        log := (log a ++ miss_log rt analysis_data farmer_query
                           force_refresh a)%list |}).
Proof.
  intros Hmiss Hcrop Htf Hpa Hsa Hwa Hprompt.
  rewrite (get_advisory_miss rt env _ _ _ _ Hmiss).
  unfold after_cache_miss, dict_item.
  rewrite Hcrop, Htf, Hpa, Hsa, Hwa.
  do 5 (rewrite bind_run; unfold lift at 1; cbn beta iota).
  rewrite bind_run, _format_prompt_pure, Hprompt. reflexivity.
Qed.

(** X15. The record of an analyzer without stored results is accepted by the
    advisor exactly when there is a price within the timeframe and a
    forecast; news are not needed.  With both, a call that serves no stored
    response returns a response; without one of them it raises the
    [ValueError] of the format [.2f] or [.1f] applied to 'N/A', which no
    handler catches, and writes nothing. *)
Theorem advice_needs_prices_and_forecast env src crop timeframe s analysis s'
    farmer_query force_refresh a :
  analysis_results s !! (crop ++ "_" ++ timeframe) = None ->
  analysis_results s !! (crop ++ "_sentiment") = None ->
  analysis_results s !! (crop ++ "_weather") = None ->
  timeframe <> "sentiment" -> timeframe <> "weather" ->
  get_comprehensive_analysis rt src crop timeframe s = (Return analysis, s') ->
  not_served rt analysis farmer_query force_refresh a ->
  let call := get_advisory rt env analysis farmer_query force_refresh a in
  (price_window src crop timeframe <> [] ->
   load_or_fetch_weather_forecast src "midwest" <> [] ->
   exists response, fst call = Return (VDict response))
  /\ (price_window src crop timeframe = []
      \/ load_or_fetch_weather_forecast src "midwest" = [] ->
      fst call
      = Raise (ValueError "Unknown format code 'f' for object of type 'str'")
      /\ files (snd call) = files a).
Proof.
  intros Hp Hs Hw Hts Htw Hrun Hmiss call. unfold call. clear call.
  assert (Hframe : load_or_fetch_historical_prices src crop <> []).
  { intros Hempty.
    unfold get_comprehensive_analysis in Hrun.
    rewrite bind_run in Hrun. unfold DataAnalyzer.logging at 1 in Hrun.
    cbn beta iota in Hrun.
    rewrite bind_run, unless_present_run in Hrun.
    cbn [analysis_results] in Hrun.
    rewrite Hp, (analyze_price_trends_empty_frame _ _ _ _ _ Hempty) in Hrun.
    discriminate Hrun. }
  assert (Hc := unstored_aggregate rt src crop timeframe s Hp Hs Hw Hts Htw
                  Hframe).
  rewrite Hrun in Hc. cbn [fst] in Hc. injection Hc as ->.
  unfold price_section, sentiment_section, weather_section in *.
  split.
  - intros Hwin Hfc.
    destruct (price_window src crop timeframe) as [| first rest];
      [congruence |].
    destruct (load_or_fetch_weather_forecast src "midwest") as [| w forecast];
      [congruence |].
    match goal with
    | |- context [get_advisory _ _ ?d _ _ _] =>
        assert (Hprep : exists prompt,
                  prepared rt d farmer_query (VStr crop)
                    (default VNone (dict_get "price_analysis" d))
                    (default VNone (dict_get "sentiment_analysis" d))
                    (default VNone (dict_get "weather_analysis" d)) prompt)
    end.
    { unfold prepared, price_analysis_of.
      destruct (7 <? length (first :: rest))%nat;
        destruct (load_or_fetch_market_news src crop);
        eexists; (split; [reflexivity |]); eexists;
        repeat (split; [reflexivity |]); reflexivity. }
    destruct Hprep as [prompt Hprep].
    rewrite (get_advisory_generates rt env _ _ _ _ _ _ _ _ _ Hmiss Hprep).
    destruct (chat_completion env (request env prompt));
      [destruct (write_fault env) |]; eexists; reflexivity.
  - intros Hnone.
    match goal with
    | |- context [get_advisory _ _ ?d _ _ _] =>
        assert (Hprompt :
          prompt_of rt (VStr crop) (VStr timeframe)
            (default VNone (dict_get "price_analysis" d))
            (default VNone (dict_get "sentiment_analysis" d))
            (default VNone (dict_get "weather_analysis" d)) farmer_query
          = Raise (ValueError
                     "Unknown format code 'f' for object of type 'str'"))
    end.
    { destruct (price_window src crop timeframe) as [| first rest];
        [reflexivity |].
      destruct Hnone as [Hwin | Hfc]; [discriminate Hwin |].
      rewrite Hfc. unfold price_analysis_of.
      destruct (7 <? length (first :: rest))%nat;
        destruct (load_or_fetch_market_news src crop); reflexivity. }
    rewrite (prompt_failure_escapes env _ _ _ _ _ _ _ _ _ _ Hmiss
               eq_refl eq_refl eq_refl eq_refl eq_refl Hprompt).
    split; reflexivity.
Qed.
End AnalysisToAdvice.

(** The comprehensive analysis of wheat over one month a hundred days after
    the last price of the sample source. *)
Definition analysis_much_later : dict :=
  match fst (DataAnalyzer.get_comprehensive_analysis Sample.runtime
               Demo.source_much_later "wheat" "1 month" DataAnalyzer.init) with
  | Return d => d
  | Raise _ => []
  end.

Lemma advice_needs_prices_and_forecast_witness :
  let call :=
    LLMAdvisor.get_advisory Sample.runtime
      (Sample.service_up "2026-11-03 10:00:00") analysis_much_later
      Sample.query false LLMAdvisor.init in
  (price_window Demo.source_much_later "wheat" "1 month" <> [] ->
   load_or_fetch_weather_forecast Demo.source_much_later "midwest" <> [] ->
   exists response, fst call = Return (VDict response))
  /\ (price_window Demo.source_much_later "wheat" "1 month" = []
      \/ load_or_fetch_weather_forecast Demo.source_much_later "midwest" = [] ->
      fst call
      = Raise (ValueError "Unknown format code 'f' for object of type 'str'")
      /\ LLMAdvisor.files (snd call) = LLMAdvisor.files LLMAdvisor.init).
Proof.
  apply (advice_needs_prices_and_forecast Sample.runtime
           (Sample.service_up "2026-11-03 10:00:00") Demo.source_much_later
           "wheat" "1 month" DataAnalyzer.init analysis_much_later
           (snd (DataAnalyzer.get_comprehensive_analysis Sample.runtime
                   Demo.source_much_later "wheat" "1 month"
                   DataAnalyzer.init))
           Sample.query false LLMAdvisor.init).
  - vm_compute. reflexivity.
  - vm_compute. reflexivity.
  - vm_compute. reflexivity.
  - discriminate.
  - discriminate.
  - vm_compute. reflexivity.
  - right; left. vm_compute. reflexivity.
Defined.

(** * [cli.py] *)

Module Cli.

Open Scope py_scope.

(** The parsed command line. *)
Record arguments : Type := {
  crop : string;
  timeframe : string;
  query : string;
  refresh : bool;
  output : option string
}.

(** What a run sees of the outside beside the data source and the service:
    the exception raised by the three forced loads of [--refresh], if one
    is, and the exception raised when the [--output] file is opened for
    writing, if one is. *)
Record shell : Type := {
  refresh_fault : option exn;
  output_fault : option exn
}.

(** The standard output, line by line, the two components and the files
    written at [--output]. *)
Record state : Type := {
  stdout : list string;
  analyzer : DataAnalyzer.state;
  advisor : LLMAdvisor.state;
  written : gmap string value
}.

(** [print(line)] *)
Definition print (line : string) : M state unit :=
  fun s => (Return tt,
            {| stdout := stdout s ++ [line];
               analyzer := analyzer s;
               advisor := advisor s;
               written := written s |}).

(** A method of the analyzer called from [main]. *)
Definition on_analyzer {A} (m : M DataAnalyzer.state A) : M state A :=
  fun s =>
    let (o, a) := m (analyzer s) in
    (o, {| stdout := stdout s;
           analyzer := a;
           advisor := advisor s;
           written := written s |}).

(** A method of the advisor called from [main]. *)
Definition on_advisor {A} (m : M LLMAdvisor.state A) : M state A :=
  fun s =>
    let (o, a) := m (advisor s) in
    (o, {| stdout := stdout s;
           analyzer := analyzer s;
           advisor := a;
           written := written s |}).

(** The three loads with [force_refresh=True]; what they store is what the
    data source hands out afterwards. *)
Definition forced_loads (sh : shell) : M state unit :=
  match refresh_fault sh with
  | Some e => raise e
  | None => ret tt
  end.

(** [obj[key]] for a key that is a string *)
Definition subscript (obj : value) (key : string) : outcome value :=
  match obj with
  | VDict d => dict_item d key
  | VList _ =>
      Raise (TypeError "list indices must be integers or slices, not str")
  | VStr _ => Raise (TypeError "string indices must be integers, not 'str'")
  | VNone => Raise (TypeError "'NoneType' object is not subscriptable")
  | VInt _ => Raise (TypeError "'int' object is not subscriptable")
  | VNum _ => Raise (TypeError "'float' object is not subscriptable")
  end.

(** [obj.items()] *)
Definition items (obj : value) : outcome (list (string * value)) :=
  match obj with
  | VDict d => Return d
  | VList _ => Raise (AttributeError "'list' object has no attribute 'items'")
  | VStr _ => Raise (AttributeError "'str' object has no attribute 'items'")
  | VNone =>
      Raise (AttributeError "'NoneType' object has no attribute 'items'")
  | VInt _ => Raise (AttributeError "'int' object has no attribute 'items'")
  | VNum _ => Raise (AttributeError "'float' object has no attribute 'items'")
  end.

(** [s.replace('_', ' ')] *)
Fixpoint replace_underscores (s : string) : string :=
  match s with
  | EmptyString => EmptyString
  | String c s' =>
      String (if Ascii.eqb c "_" then " "%char else c) (replace_underscores s')
  end.

Definition is_lower (c : ascii) : bool :=
  let n := nat_of_ascii c in (97 <=? n)%nat && (n <=? 122)%nat.

Definition is_upper (c : ascii) : bool :=
  let n := nat_of_ascii c in (65 <=? n)%nat && (n <=? 90)%nat.

Definition to_upper (c : ascii) : ascii :=
  if is_lower c then ascii_of_nat (nat_of_ascii c - 32) else c.

Definition to_lower (c : ascii) : ascii :=
  if is_upper c then ascii_of_nat (nat_of_ascii c + 32) else c.

(** [s.title()] on ASCII text: a letter that follows a letter is lowered,
    any other letter is raised. *)
Fixpoint title_from (previous_is_cased : bool) (s : string) : string :=
  match s with
  | EmptyString => EmptyString
  | String c s' =>
      String (if previous_is_cased then to_lower c else to_upper c)
        (title_from (is_lower c || is_upper c) s')
  end.

Definition title (s : string) : string := title_from false s.

(** [for x in l: body] *)
Fixpoint for_each {A} (l : list A) (body : A -> M state unit) : M state unit :=
  match l with
  | [] => ret tt
  | x :: l' => body x ;;; for_each l' body
  end.

(** [with open(path, 'w') as f: json.dump(v, f, indent=2)] *)
Definition json_dump (sh : shell) (path : string) (v : value) : M state unit :=
  match output_fault sh with
  | Some e => raise e
  | None =>
      fun s => (Return tt,
                {| stdout := stdout s;
                   analyzer := analyzer s;
                   advisor := advisor s;
                   written := <[path := v]> (written s) |})
  end.

(** Lines 65 to 78 of [main]: the display of the advisory. *)
Definition display (rt : PyRuntime) (sh : shell) (args : arguments)
    (advisory : value) : M state unit :=
  print (LLMAdvisor.nl ++ "===== MARKET ADVICE =====") ;;;
  advice <- lift (subscript advisory "advice") ;;
  print (LLMAdvisor.py_str rt advice) ;;;
  print (LLMAdvisor.nl ++ "===== DATA SUMMARY =====") ;;;
  data_summary <- lift (subscript advisory "data_summary") ;;
  summary_items <- lift (items data_summary) ;;
  for_each summary_items
    (fun '(key, value) =>
       print ("- " ++ title (replace_underscores key) ++ ": "
              ++ LLMAdvisor.py_str rt value)) ;;;
  timestamp <- lift (subscript advisory "timestamp") ;;
  print (LLMAdvisor.nl ++ "Generated on: " ++ LLMAdvisor.py_str rt timestamp) ;;;
  match output args with
  | Some (String c path) =>
      json_dump sh (String c path) advisory ;;;
      print (LLMAdvisor.nl ++ "Results saved to " ++ String c path)
  | _ => ret tt
  end.

Definition main (rt : PyRuntime) (src : data_source) (env : environment)
    (sh : shell) (args : arguments) : M state unit :=
  print "🌾 AgriTech Market Advisor CLI" ;;;
  print ("Analyzing " ++ crop args ++ " for " ++ timeframe args
         ++ " timeframe") ;;;
  (if refresh args
   then print "Refreshing data..." ;;; forced_loads sh
   else ret tt) ;;;
  print "Analyzing market data..." ;;;
  analysis <-
    on_analyzer
      (DataAnalyzer.get_comprehensive_analysis rt src (crop args)
         (timeframe args)) ;;
  print "Generating personalized advice..." ;;;
  advisory <-
    on_advisor
      (LLMAdvisor.get_advisory rt env analysis (query args) (refresh args)) ;;
  display rt sh args advisory.

(** The state in which [main] runs: nothing printed, an analyzer and an
    advisor just constructed, the [cache/] directory and the files as they
    are on the disk. *)
Definition start (cache : gmap string file) (disk : gmap string value)
  : state :=
  {| stdout := [];
     analyzer := DataAnalyzer.init;
     advisor := {| LLMAdvisor.files := cache; LLMAdvisor.log := [] |};
     written := disk |}.

End Cli.

Section CommandLine.
Import LLMAdvisor.

Variable rt : PyRuntime.

(** What is printed before the analysis is asked for. *)
Definition opening (args : Cli.arguments) : list string :=
  [ "🌾 AgriTech Market Advisor CLI";
    "Analyzing " ++ Cli.crop args ++ " for " ++ Cli.timeframe args
    ++ " timeframe" ]
  ++ (if Cli.refresh args then ["Refreshing data..."] else [])
  ++ ["Analyzing market data..."].

(** [main] up to the display: the analyzer and then the advisor are called
    once each, on components just constructed. *)
Lemma main_run src env sh args cache disk analysis a1 o adv1 :
  (Cli.refresh args = true -> Cli.refresh_fault sh = None) ->
  get_comprehensive_analysis rt src (Cli.crop args) (Cli.timeframe args)
    DataAnalyzer.init = (Return analysis, a1) ->
  get_advisory rt env analysis (Cli.query args) (Cli.refresh args)
    {| files := cache; log := [] |} = (o, adv1) ->
  let st :=
    {| Cli.stdout :=
         (opening args ++ ["Generating personalized advice..."])%list;
       Cli.analyzer := a1;
       Cli.advisor := adv1;
       Cli.written := disk |} in
  Cli.main rt src env sh args (Cli.start cache disk)
  = match o with
    | Return advisory => Cli.display rt sh args advisory st
    | Raise e => (Raise e, st)
    end.
Proof.
  intros Hrefresh Hanalysis Hadvice st. subst st.
  unfold Cli.main, Cli.start, opening, Cli.on_analyzer, Cli.on_advisor,
    Cli.forced_loads.
  unfold bind at 1 2 3 4 5 6. unfold Cli.print at 1 2. cbn beta iota.
  destruct (Cli.refresh args) eqn:Er.
  - rewrite (Hrefresh eq_refl).
    unfold bind, ret, Cli.print. cbn beta iota. cbn [Cli.analyzer].
    rewrite Hanalysis. cbn beta iota. cbn [Cli.advisor].
    rewrite Hadvice. destruct o; reflexivity.
  - unfold bind, ret, Cli.print. cbn beta iota. cbn [Cli.analyzer].
    rewrite Hanalysis. cbn beta iota. cbn [Cli.advisor].
    rewrite Hadvice. destruct o; reflexivity.
Qed.
(** The lines of the data summary of a response built from the three
    sections. *)
Definition summary_lines (price_analysis sentiment_analysis
    weather_analysis : value) : list string :=
  [ "- Current Price: "
    ++ py_str rt (get_or_none "current_price" price_analysis);
    "- Price Trend: " ++ py_str rt (get_or_none "trend" price_analysis);
    "- Projected Price Change: "
    ++ py_str rt (get_or_none "projection_pct" price_analysis);
    "- Market Sentiment: "
    ++ py_str rt (get_or_none "sentiment_trend" sentiment_analysis);
    "- Weather Impact: "
    ++ py_str rt (get_or_none "weather_impact" weather_analysis) ].

(** The file named by [--output], when the option is there and not empty. *)
Definition saved_to (args : Cli.arguments) : option string :=
  match Cli.output args with
  | Some (String c path) => Some (String c path)
  | _ => None
  end.

(** What a run prints when the advisory is a full response with the given
    advice and timestamp. *)
Definition report (args : Cli.arguments) (advice_text timestamp : string)
    (price_analysis sentiment_analysis weather_analysis : value)
  : list string :=
  opening args
  ++ [ "Generating personalized advice...";
       nl ++ "===== MARKET ADVICE =====";
       advice_text;
       nl ++ "===== DATA SUMMARY =====" ]
  ++ summary_lines price_analysis sentiment_analysis weather_analysis
  ++ [ nl ++ "Generated on: " ++ timestamp ]
  ++ match saved_to args with
     | Some path => [ nl ++ "Results saved to " ++ path ]
     | None => []
     end.

Lemma print_run line out a adv disk :
  Cli.print line
    {| Cli.stdout := out; Cli.analyzer := a; Cli.advisor := adv;
       Cli.written := disk |}
  = (Return tt,
     {| Cli.stdout := (out ++ [line])%list; Cli.analyzer := a;
        Cli.advisor := adv; Cli.written := disk |}).
Proof. reflexivity. Qed.

Lemma for_each_print_run {A} (line : A -> string) (body : A -> M Cli.state unit)
    (l : list A) out a adv disk :
  (forall x, body x = Cli.print (line x)) ->
  Cli.for_each l body
    {| Cli.stdout := out; Cli.analyzer := a; Cli.advisor := adv;
       Cli.written := disk |}
  = (Return tt,
     {| Cli.stdout := (out ++ map line l)%list; Cli.analyzer := a;
        Cli.advisor := adv; Cli.written := disk |}).
Proof.
  intros Hbody. revert out.
  induction l as [| x l IH]; intros out; cbn [Cli.for_each map].
  - unfold ret. now rewrite app_nil_r.
  - rewrite bind_run, Hbody, print_run, IH, <- app_assoc. reflexivity.
Qed.

Lemma display_full_response sh args env0 farmer_query crop price_analysis
    sentiment_analysis weather_analysis advice_text a1 adv1 disk :
  (saved_to args <> None -> Cli.output_fault sh = None) ->
  let response :=
    VDict (advisory_response env0 farmer_query crop price_analysis
             sentiment_analysis weather_analysis advice_text) in
  Cli.display rt sh args response
    {| Cli.stdout :=
         (opening args ++ ["Generating personalized advice..."])%list;
       Cli.analyzer := a1;
       Cli.advisor := adv1;
       Cli.written := disk |}
  = (Return tt,
     {| Cli.stdout :=
          report args advice_text (strftime_now env0) price_analysis
            sentiment_analysis weather_analysis;
        Cli.analyzer := a1;
        Cli.advisor := adv1;
        Cli.written :=
          match saved_to args with
          | Some path => <[path := response]> disk
          | None => disk
          end |}).
Proof.
  intros Hout response. subst response.
  unfold Cli.display, report, saved_to, summary_lines, advisory_response in *.
  rewrite bind_run, print_run.
  rewrite bind_run. unfold lift at 1.
  cbn [Cli.subscript dict_item dict_get String.eqb Ascii.eqb Bool.eqb].
  cbn beta iota.
  rewrite bind_run, print_run.
  rewrite bind_run, print_run.
  rewrite bind_run. unfold lift at 1. cbn beta iota.
  rewrite bind_run. unfold lift at 1. cbn [Cli.items]. cbn beta iota.
  rewrite bind_run.
  rewrite (for_each_print_run
             (fun item : string * value =>
                "- " ++ Cli.title (Cli.replace_underscores (fst item)) ++ ": "
                ++ py_str rt (snd item)))
    by (intros [key v]; reflexivity).
  rewrite bind_run. unfold lift at 1. cbn beta iota.
  rewrite bind_run, print_run.
  cbn [py_str map fst snd].
  destruct (Cli.output args) as [[| c path] |].
  - unfold ret. rewrite <- !app_assoc. reflexivity.
  - rewrite bind_run. unfold Cli.json_dump at 1.
    rewrite Hout by discriminate. cbn beta iota.
    cbn [Cli.stdout Cli.analyzer Cli.advisor Cli.written].
    rewrite print_run, <- !app_assoc. reflexivity.
  - unfold ret. rewrite <- !app_assoc. reflexivity.
Qed.

(** X17. When the advice is generated and stored, the run returns after
    printing, in this order, the opening lines, the advice, the five lines
    of the summary with their keys in title case ([Current Price], [Price
    Trend], [Projected Price Change], [Market Sentiment], [Weather Impact])
    and the date of the response; with a non-empty [--output] the response
    is written to that file and a last line says so. *)
Theorem generated_advice_is_displayed src env sh args cache disk analysis a1
    crop price_analysis sentiment_analysis weather_analysis prompt
    advice_text :
  (Cli.refresh args = true -> Cli.refresh_fault sh = None) ->
  get_comprehensive_analysis rt src (Cli.crop args) (Cli.timeframe args)
    DataAnalyzer.init = (Return analysis, a1) ->
  not_served rt analysis (Cli.query args) (Cli.refresh args)
    {| files := cache; log := [] |} ->
  prepared rt analysis (Cli.query args) crop price_analysis
    sentiment_analysis weather_analysis prompt ->
  chat_completion env (request env prompt) = Return advice_text ->
  write_fault env = None ->
  (saved_to args <> None -> Cli.output_fault sh = None) ->
  let response :=
    VDict (advisory_response env (Cli.query args) crop price_analysis
             sentiment_analysis weather_analysis advice_text) in
  exists st,
    Cli.main rt src env sh args (Cli.start cache disk) = (Return tt, st)
    /\ Cli.stdout st
       = report args advice_text (strftime_now env) price_analysis
           sentiment_analysis weather_analysis
    /\ Cli.written st
       = match saved_to args with
         | Some path => <[path := response]> disk
         | None => disk
         end
    /\ files (Cli.advisor st)
       = <[cache_file rt analysis (Cli.query args) := Json response]> cache.
Proof.
  intros Hrefresh Hanalysis Hmiss Hprep Hanswer Hwrite Hout response.
  assert (Hadvice := get_advisory_generates rt env _ _ _ _ _ _ _ _ _
                       Hmiss Hprep).
  cbv zeta in Hadvice. rewrite Hanswer, Hwrite in Hadvice.
  eexists.
  rewrite (main_run src env sh args cache disk _ _ _ _ Hrefresh Hanalysis
             Hadvice).
  rewrite (display_full_response sh args env _ _ _ _ _ _ _ _ _ Hout).
  split; [reflexivity |]. split; [reflexivity |]. split; reflexivity.
Qed.

End CommandLine.

(** ** The command line on the sample data *)

(** [cli.py --crop wheat --query "Should I sell my wheat now or wait?"
    --output advice.json] *)
Definition wheat_command : Cli.arguments :=
  {| Cli.crop := "wheat";
     Cli.timeframe := "1 month";
     Cli.query := Sample.query;
     Cli.refresh := false;
     Cli.output := Some "advice.json" |}.

(** Nothing fails around the run. *)
Definition quiet_shell : Cli.shell :=
  {| Cli.refresh_fault := None; Cli.output_fault := None |}.


Lemma generated_advice_is_displayed_witness :
  let response :=
    VDict (advisory_response (Sample.service_up "2026-11-03 10:00:00")
             Sample.query (VStr "wheat")
             (default VNone (dict_get "price_analysis" Sample.analysis))
             (default VNone (dict_get "sentiment_analysis" Sample.analysis))
             (default VNone (dict_get "weather_analysis" Sample.analysis))
             "Hold for two weeks.") in
  exists st,
    Cli.main Sample.runtime Sample.source
      (Sample.service_up "2026-11-03 10:00:00") quiet_shell wheat_command
      (Cli.start ∅ ∅)
    = (Return tt, st)
    /\ Cli.stdout st
       = report Sample.runtime wheat_command "Hold for two weeks."
           "2026-11-03 10:00:00"
           (default VNone (dict_get "price_analysis" Sample.analysis))
           (default VNone (dict_get "sentiment_analysis" Sample.analysis))
           (default VNone (dict_get "weather_analysis" Sample.analysis))
    /\ Cli.written st
       = match saved_to wheat_command with
         | Some path => <[path := response]> ∅
         | None => ∅
         end
    /\ LLMAdvisor.files (Cli.advisor st)
       = <[LLMAdvisor.cache_file Sample.runtime Sample.analysis Sample.query
           := Json response]> ∅.
Proof.
  eapply (generated_advice_is_displayed Sample.runtime Sample.source
            (Sample.service_up "2026-11-03 10:00:00") quiet_shell
            wheat_command ∅ ∅ Sample.analysis Demo.analyzer_after_one_call).
  - discriminate.
  - vm_compute. reflexivity.
  - right; left. vm_compute. reflexivity.
  - split; [reflexivity |]. eexists.
    split; [reflexivity |]. split; [reflexivity |].
    split; [reflexivity |]. split; [reflexivity |].
    vm_compute. reflexivity.
  - reflexivity.
  - reflexivity.
  - reflexivity.
Defined.


(** The lines of the sample run. *)
Example lines_of_the_sample_run :
  report Sample.runtime wheat_command "Hold for two weeks."
    "2026-11-03 10:00:00"
    (default VNone (dict_get "price_analysis" Sample.analysis))
    (default VNone (dict_get "sentiment_analysis" Sample.analysis))
    (default VNone (dict_get "weather_analysis" Sample.analysis))
  = [ "🌾 AgriTech Market Advisor CLI";
      "Analyzing wheat for 1 month timeframe";
      "Analyzing market data...";
      "Generating personalized advice...";
      (LLMAdvisor.nl ++ "===== MARKET ADVICE =====")%string;
      "Hold for two weeks.";
      (LLMAdvisor.nl ++ "===== DATA SUMMARY =====")%string;
      "- Current Price: 110.000000";
      "- Price Trend: strongly increasing";
      "- Projected Price Change: 4.155844";
      "- Market Sentiment: positive";
      "- Weather Impact: neutral to positive";
      (LLMAdvisor.nl ++ "Generated on: 2026-11-03 10:00:00")%string;
      (LLMAdvisor.nl ++ "Results saved to advice.json")%string ].
Proof. vm_compute. reflexivity. Qed.

(** * The one-week timeframe on daily prices *)

(** One price a day at most, in the order of the dates: every row is dated
    at least a day after each row before it. *)
Fixpoint daily (frame : list price_row) : bool :=
  match frame with
  | [] => true
  | r :: rest =>
      forallb (fun r' => p_date r + 86400 <=? p_date r') rest && daily rest
  end.

Lemma forallb_filter {A} (p f : A -> bool) (l : list A) :
  forallb p l = true -> forallb p (List.filter f l) = true.
Proof.
  induction l as [| x l IH]; cbn [forallb List.filter]; [reflexivity |].
  intros [Hx Hl]%andb_prop.
  destruct (f x); cbn [forallb]; [rewrite Hx |]; auto.
Qed.

Lemma daily_filter f frame :
  daily frame = true -> daily (List.filter f frame) = true.
Proof.
  induction frame as [| r rest IH]; cbn [daily List.filter]; [reflexivity |].
  intros [Hr Hrest]%andb_prop.
  destruct (f r); cbn [daily]; [| auto].
  now rewrite (forallb_filter _ f _ Hr), IH.
Qed.

(** Rows a day apart within [n] days are [n] at most. *)
Lemma daily_count frame :
  daily frame = true ->
  forall lo (n : nat),
    (forall r, In r frame -> lo <= p_date r < lo + Z.of_nat n * 86400) ->
    (length frame <= n)%nat.
Proof.
  induction frame as [| r rest IH]; cbn [daily length]; [lia |].
  intros [Hr Hrest]%andb_prop lo n Hin.
  assert (Hfirst := Hin r (or_introl eq_refl)).
  destruct n as [| n]; [lia |].
  apply le_n_S, (IH Hrest (lo + 86400)).
  intros r' Hr'.
  assert (Hgap : p_date r + 86400 <= p_date r').
  { rewrite forallb_forall in Hr. apply Z.leb_le, Hr, Hr'. }
  assert (Hlate := Hin r' (or_intror Hr')).
  lia.
Qed.

(** X19. On daily prices, none of them dated later than now, the window of
    the timeframe "1 week" has seven rows at most, so that the test
    [len(filtered_data) > 7] fails: the projection is 0 and the projected
    price is the current price, whatever the prices are. *)
Theorem one_week_projection_is_flat rt src crop s first rest :
  daily (load_or_fetch_historical_prices src crop) = true ->
  (forall r, In r (load_or_fetch_historical_prices src crop) ->
             p_date r < datetime_now src) ->
  price_window src crop "1 week" = first :: rest ->
  exists analysis s',
    analyze_price_trends rt src crop "1 week" s = (Return (Some analysis), s')
    /\ dict_get "projection_pct" analysis = Some (VInt 0)
    /\ dict_get "projected_price" analysis
       = dict_get "current_price" analysis
    /\ (length (first :: rest) <= 7)%nat.
Proof.
  intros Hdaily Hpast Hwin.
  assert (Hlen : (length (first :: rest) <= 7)%nat).
  { rewrite <- Hwin. unfold price_window. rewrite length_map.
    apply (daily_count _ (daily_filter _ _ Hdaily)
             (datetime_now src - 7 * 86400) 7%nat).
    intros r [Hr Hkept]%filter_In.
    apply Z.leb_le in Hkept. specialize (Hpast r Hr).
    change (timeframe_days "1 week") with 7 in Hkept. lia. }
  rewrite (analyze_price_trends_returns _ _ _ _ _ _ _ Hwin).
  do 2 eexists. split; [reflexivity |].
  unfold price_analysis_of.
  destruct (Nat.ltb_spec 7 (length (first :: rest))) as [Hmore | _]; [lia |].
  split; [reflexivity |]. split; [reflexivity | exact Hlen].
Qed.

Lemma one_week_projection_is_flat_witness :
  exists analysis s',
    analyze_price_trends Sample.runtime Sample.source "wheat" "1 week"
      DataAnalyzer.init
    = (Return (Some analysis), s')
    /\ dict_get "projection_pct" analysis = Some (VInt 0)
    /\ dict_get "projected_price" analysis
       = dict_get "current_price" analysis
    /\ (length [102 # 1; 99 # 1; 101 # 1; 105 # 1; 108 # 1; 107 # 1; 110 # 1]%Q
        <= 7)%nat.
Proof.
  apply (one_week_projection_is_flat Sample.runtime Sample.source "wheat"
           DataAnalyzer.init (102 # 1)
           [99 # 1; 101 # 1; 105 # 1; 108 # 1; 107 # 1; 110 # 1]%Q).
  - vm_compute. reflexivity.
  - intros r Hr. vm_compute in Hr.
    repeat (destruct Hr as [<- | Hr]; [vm_compute; reflexivity |]).
    destruct Hr.
  - vm_compute. reflexivity.
Defined.

(** * What the prompt tells the service *)

(** X20. Of the three sections the prompt tells the service eleven things and
    nothing else: five fields of the price section, the sentiment trend with
    the first three headlines, and four fields of the weather section.  Two
    analyses that agree on these give the same prompt, whatever their
    average price, projected price, sentiment score and counts, region, or
    later headlines are. *)
Theorem prompt_tells_eleven_fields rt crop timeframe farmer_query
    p p' sa sa' w w' h h' :
  (forall key,
     In key ["current_price"; "trend"; "price_change_pct"; "projection_pct";
             "volatility"] ->
     field_or_na p key = field_or_na p' key) ->
  field_or_na sa "sentiment_trend" = field_or_na sa' "sentiment_trend" ->
  dict_get "headlines" sa = Some (VList h) ->
  dict_get "headlines" sa' = Some (VList h') ->
  firstn 3 h = firstn 3 h' ->
  (forall key,
     In key ["weather_impact"; "explanation"; "average_temperature";
             "total_precipitation"] ->
     field_or_na w key = field_or_na w' key) ->
  prompt_of rt crop timeframe (VDict p) (VDict sa) (VDict w) farmer_query
  = prompt_of rt crop timeframe (VDict p') (VDict sa') (VDict w') farmer_query.
Proof.
  intros Hp Hs Hh Hh' Hfirst Hw.
  unfold field_or_na in *.
  unfold prompt_of, LLMAdvisor._format_prompt, bind, lift, ret.
  cbn [LLMAdvisor.obj_get].
  rewrite (Hp "current_price"), (Hp "trend"), (Hp "price_change_pct"),
    (Hp "projection_pct"), (Hp "volatility") by (cbn [In]; tauto).
  rewrite Hs, Hh, Hh'. cbn [from_option id LLMAdvisor.headline_lines].
  rewrite Hfirst.
  rewrite (Hw "weather_impact"), (Hw "explanation"),
    (Hw "average_temperature"), (Hw "total_precipitation")
    by (cbn [In]; tauto).
  reflexivity.
Qed.

(** A section of the sample analysis. *)
Definition sample_section (key : string) : dict :=
  match dict_get key Sample.analysis with
  | Some (VDict section) => section
  | _ => []
  end.

Lemma prompt_tells_eleven_fields_witness :
  prompt_of Sample.runtime (VStr "wheat") (VStr "1 month")
    (VDict (sample_section "price_analysis"))
    (VDict (sample_section "sentiment_analysis"))
    (VDict (sample_section "weather_analysis")) Sample.query
  = prompt_of Sample.runtime (VStr "wheat") (VStr "1 month")
      (VDict (("average_price", VNum (1 # 1))
              :: sample_section "price_analysis"))
      (VDict (("headlines",
               VList (firstn 3 (map n_headline
                                  (load_or_fetch_market_news Sample.source
                                     "wheat"))
                      ++ ["Wheat falls on profit taking"]))
              :: ("sentiment_score", VNum (- 1 # 1))
              :: sample_section "sentiment_analysis"))
      (VDict (("region", VStr "south") :: sample_section "weather_analysis"))
      Sample.query.
Proof.
  apply (prompt_tells_eleven_fields Sample.runtime (VStr "wheat")
           (VStr "1 month") Sample.query
           (sample_section "price_analysis")
           (("average_price", VNum (1 # 1)) :: sample_section "price_analysis")
           (sample_section "sentiment_analysis")
           (("headlines",
             VList (firstn 3 (map n_headline
                                (load_or_fetch_market_news Sample.source
                                   "wheat"))
                    ++ ["Wheat falls on profit taking"]))
            :: ("sentiment_score", VNum (- 1 # 1))
            :: sample_section "sentiment_analysis")
           (sample_section "weather_analysis")
           (("region", VStr "south") :: sample_section "weather_analysis")
           (map n_headline (load_or_fetch_market_news Sample.source "wheat"))
           (firstn 3 (map n_headline
                        (load_or_fetch_market_news Sample.source "wheat"))
            ++ ["Wheat falls on profit taking"])).
  - intros key Hkey. cbn [In] in Hkey.
    repeat (destruct Hkey as [<- | Hkey]; [vm_compute; reflexivity |]).
    destruct Hkey.
  - vm_compute. reflexivity.
  - vm_compute. reflexivity.
  - vm_compute. reflexivity.
  - vm_compute. reflexivity.
  - intros key Hkey. cbn [In] in Hkey.
    repeat (destruct Hkey as [<- | Hkey]; [vm_compute; reflexivity |]).
    destruct Hkey.
Defined.

(** * [data_collector.py] *)

(** A file of the [data/] directory as [pd.read_csv] sees it: the rows it
    yields, or the exception it raises. *)
Inductive csv (A : Type) : Type :=
| Rows (rows : list A)
| Unparsable (e : exn).
Arguments Rows {A} rows.
Arguments Unparsable {A} e.

(** What the collector takes from [numpy] and [random].  The generators are
    a state [G] passed from draw to draw; an array is the function of its
    indices. *)
Record libraries (G : Type) : Type := {
  (** [np.pi] *)
  np_pi : Q;
  (** [np.sin(x)] *)
  np_sin : Q -> Q;
  (** [np.random.normal(loc, scale, n)] *)
  np_random_normal : Q -> Q -> nat -> G -> (nat -> Q) * G;
  (** [random.randint(a, b)] *)
  random_randint : Z -> Z -> G -> Z * G;
  (** [random.choice(seq)]: the index chosen in a sequence of that length *)
  random_choice : nat -> G -> nat * G;
  (** [random.uniform(a, b)] *)
  random_uniform : Q -> Q -> G -> Q * G
}.
Arguments np_pi {G} l.
Arguments np_sin {G} l x.
Arguments np_random_normal {G} l loc scale n g.
Arguments random_randint {G} l a b g.
Arguments random_choice {G} l n g.
Arguments random_uniform {G} l a b g.

(** What one call of the collector sees of the outside: the clock, and the
    exception [to_csv] raises, if it does. *)
Record moment : Type := {
  (** [datetime.now()], in seconds *)
  now : Z;
  to_csv_fault : option exn
}.

Module DataCollector.

(** The three files of [config], the three attributes of the collector,
    the generators and the log. *)
Record state (G : Type) : Type := {
  historical_prices_csv : option (csv price_row);
  market_news_csv : option (csv news_row);
  weather_forecast_csv : option (csv weather_row);
  historical_data : option (list price_row);
  news_data : option (list news_row);
  weather_data : option (list weather_row);
  generators : G;
  log : list log_record
}.
Arguments historical_prices_csv {G} s.
Arguments market_news_csv {G} s.
Arguments weather_forecast_csv {G} s.
Arguments historical_data {G} s.
Arguments news_data {G} s.
Arguments weather_data {G} s.
Arguments generators {G} s.
Arguments log {G} s.

Section Methods.

Context {G : Type}.
Variable lib : libraries G.
Variable env : moment.

Open Scope py_scope.

Definition logging (lv : level) (msg : string) : M (state G) unit :=
  fun s =>
    (Return tt,
     {| historical_prices_csv := historical_prices_csv s;
        market_news_csv := market_news_csv s;
        weather_forecast_csv := weather_forecast_csv s;
        historical_data := historical_data s;
        news_data := news_data s;
        weather_data := weather_data s;
        generators := generators s;
        log := log s ++ [(lv, msg)] |}).

(** A draw from the generators. *)
Definition draw {A} (f : G -> A * G) : M (state G) A :=
  fun s =>
    let (a, g) := f (generators s) in
    (Return a,
     {| historical_prices_csv := historical_prices_csv s;
        market_news_csv := market_news_csv s;
        weather_forecast_csv := weather_forecast_csv s;
        historical_data := historical_data s;
        news_data := news_data s;
        weather_data := weather_data s;
        generators := g;
        log := log s |}).

(** [pd.read_csv(file_path)] on a file that exists *)
Definition read_csv {A} (file : option (csv A)) : outcome (list A) :=
  match file with
  | Some (Rows rows) => Return rows
  | Some (Unparsable e) => Raise e
  | None => Raise (OSError "No such file or directory")
  end.

(** [os.path.exists(file_path)] *)
Definition exists_ {A} (file : option (csv A)) : bool :=
  match file with
  | Some _ => true
  | None => false
  end.

(** [pd.date_range(start=start, end=end_, freq='D')]: [start] and every
    whole day after it up to [end_]. *)
Definition date_range (start end_ : Z) : list Z :=
  if end_ <? start then []
  else map (fun k => start + Z.of_nat k * 86400)
         (seq 0 (S (Z.to_nat ((end_ - start) / 86400)))).

(** [np.linspace(start, stop, n)[i]] *)
Definition linspace (start stop : Q) (n i : nat) : Q :=
  (start + inject_Z (Z.of_nat i)
           * ((stop - start) / inject_Z (Z.of_nat n - 1)))%Q.

(** [self.historical_data = frame] *)
Definition set_historical_data (frame : list price_row) : M (state G) unit :=
  fun s =>
    (Return tt,
     {| historical_prices_csv := historical_prices_csv s;
        market_news_csv := market_news_csv s;
        weather_forecast_csv := weather_forecast_csv s;
        historical_data := Some frame;
        news_data := news_data s;
        weather_data := weather_data s;
        generators := generators s;
        log := log s |}).

(** [self.news_data = frame] *)
Definition set_news_data (frame : list news_row) : M (state G) unit :=
  fun s =>
    (Return tt,
     {| historical_prices_csv := historical_prices_csv s;
        market_news_csv := market_news_csv s;
        weather_forecast_csv := weather_forecast_csv s;
        historical_data := historical_data s;
        news_data := Some frame;
        weather_data := weather_data s;
        generators := generators s;
        log := log s |}).

(** [self.weather_data = frame] *)
Definition set_weather_data (frame : list weather_row) : M (state G) unit :=
  fun s =>
    (Return tt,
     {| historical_prices_csv := historical_prices_csv s;
        market_news_csv := market_news_csv s;
        weather_forecast_csv := weather_forecast_csv s;
        historical_data := historical_data s;
        news_data := news_data s;
        weather_data := Some frame;
        generators := generators s;
        log := log s |}).

(** [self.historical_data.to_csv(file_path, index=False)] *)
Definition historical_data_to_csv (frame : list price_row)
  : M (state G) unit :=
  match to_csv_fault env with
  | Some e => raise e
  | None =>
      fun s =>
        (Return tt,
         {| historical_prices_csv := Some (Rows frame);
            market_news_csv := market_news_csv s;
            weather_forecast_csv := weather_forecast_csv s;
            historical_data := historical_data s;
            news_data := news_data s;
            weather_data := weather_data s;
            generators := generators s;
            log := log s |})
  end.

(** [self.news_data.to_csv(file_path, index=False)]: a frame built from no
    entry has no column, and the file written from it has none to parse. *)
Definition news_data_to_csv (frame : list news_row) : M (state G) unit :=
  match to_csv_fault env with
  | Some e => raise e
  | None =>
      fun s =>
        (Return tt,
         {| historical_prices_csv := historical_prices_csv s;
            market_news_csv :=
              Some (match frame with
                    | [] => Unparsable
                              (ValueError "No columns to parse from file")
                    | _ :: _ => Rows frame
                    end);
            weather_forecast_csv := weather_forecast_csv s;
            historical_data := historical_data s;
            news_data := news_data s;
            weather_data := weather_data s;
            generators := generators s;
            log := log s |})
  end.

(** [self.weather_data.to_csv(file_path, index=False)] *)
Definition weather_data_to_csv (frame : list weather_row)
  : M (state G) unit :=
  match to_csv_fault env with
  | Some e => raise e
  | None =>
      fun s =>
        (Return tt,
         {| historical_prices_csv := historical_prices_csv s;
            market_news_csv := market_news_csv s;
            weather_forecast_csv := Some (Rows frame);
            historical_data := historical_data s;
            news_data := news_data s;
            weather_data := weather_data s;
            generators := generators s;
            log := log s |})
  end.

Definition base_price (crop : string) : Q :=
  if String.eqb crop "wheat" then 500 # 1
  else if String.eqb crop "corn" then 400 # 1
  else 600 # 1.

Definition load_or_fetch_historical_prices (crop : string)
    (force_refresh : bool) : M (state G) (list price_row) :=
  s <- get_state ;;
  if negb force_refresh && exists_ (historical_prices_csv s) then
    logging INFO ("Loading historical price data for " ++ crop
                  ++ " from file") ;;;
    frame <- lift (read_csv (historical_prices_csv s)) ;;
    set_historical_data frame ;;;
    ret frame
  else
    logging INFO ("Generating sample historical price data for " ++ crop) ;;;
    let end_date := now env in
    let start_date := end_date - 365 * 2 * 86400 in
    let dates := date_range start_date end_date in
    let n := length dates in
    let trend := linspace (0 # 1) (100 # 1) n in
    let seasonality := fun i =>
      ((50 # 1) * np_sin lib (linspace (0 # 1) ((4 # 1) * np_pi lib) n i))%Q in
    noise <- draw (np_random_normal lib (0 # 1) (20 # 1) n) ;;
    let prices := fun i =>
      (base_price crop + trend i + seasonality i + noise i)%Q in
    let frame :=
      imap (fun i date =>
              {| p_date := date; p_crop := crop; p_price := prices i |})
        dates in
    set_historical_data frame ;;;
    historical_data_to_csv frame ;;;
    logging INFO "Saved historical price data to data/historical_prices.csv" ;;;
    ret frame.

Definition to_upper (c : ascii) : ascii :=
  let n := nat_of_ascii c in
  if (97 <=? n)%nat && (n <=? 122)%nat then ascii_of_nat (n - 32) else c.

Definition to_lower (c : ascii) : ascii :=
  let n := nat_of_ascii c in
  if (65 <=? n)%nat && (n <=? 90)%nat then ascii_of_nat (n + 32) else c.

Fixpoint lower (s : string) : string :=
  match s with
  | EmptyString => EmptyString
  | String c s' => String (to_lower c) (lower s')
  end.

(** [s.capitalize()] on ASCII text *)
Definition capitalize (s : string) : string :=
  match s with
  | EmptyString => EmptyString
  | String c s' => String (to_upper c) (lower s')
  end.

(** The headlines to choose from, each with its sentiment. *)
Definition news_samples (crop : string) : list (string * string) :=
  [ ("Global demand for " ++ crop ++ " increases amid supply concerns",
     "positive");
    ("New trade deal may boost " ++ crop ++ " exports", "positive");
    ("Weather conditions threaten " ++ crop
     ++ " yield in major producing regions", "negative");
    (capitalize crop ++ " prices stabilize after recent volatility",
     "neutral");
    ("Report shows increased " ++ crop ++ " stockpiles", "negative");
    ("Analysts predict strong " ++ crop ++ " market for next quarter",
     "positive") ].

(** [for _ in range(n): entries.append(item)] *)
Fixpoint times {A} (n : nat) (item : M (state G) A) : M (state G) (list A) :=
  match n with
  | O => ret []
  | S n' =>
      x <- item ;;
      rest <- times n' item ;;
      ret (x :: rest)
  end.

(** [for date in dates: entries.extend(body(date))] *)
Fixpoint for_each {A B} (l : list A) (body : A -> M (state G) (list B))
  : M (state G) (list B) :=
  match l with
  | [] => ret []
  | x :: l' =>
      entries <- body x ;;
      rest <- for_each l' body ;;
      ret (entries ++ rest)%list
  end.

Definition load_or_fetch_market_news (crop : string) (days : Z)
    (force_refresh : bool) : M (state G) (list news_row) :=
  s <- get_state ;;
  if negb force_refresh && exists_ (market_news_csv s) then
    logging INFO ("Loading market news data for " ++ crop ++ " from file") ;;;
    frame <- lift (read_csv (market_news_csv s)) ;;
    set_news_data frame ;;;
    ret frame
  else
    logging INFO ("Generating sample market news data for " ++ crop) ;;;
    let end_date := now env in
    let start_date := end_date - days * 86400 in
    let dates := date_range start_date end_date in
    news_entries <-
      for_each dates
        (fun date =>
           daily_news_count <- draw (random_randint lib 0 2) ;;
           times (Z.to_nat daily_news_count)
             (chosen <- draw (random_choice lib
                                (length (news_samples crop))) ;;
              let news_entry :=
                nth chosen (news_samples crop) (EmptyString, EmptyString) in
              ret {| n_date := date;
                     n_crop := crop;
                     n_headline := fst news_entry;
                     n_sentiment := snd news_entry |})) ;;
    set_news_data news_entries ;;;
    news_data_to_csv news_entries ;;;
    logging INFO "Saved market news data to data/market_news.csv" ;;;
    ret news_entries.

Definition conditions : list string :=
  ["sunny"; "cloudy"; "rainy"; "partly cloudy"].

Definition load_or_fetch_weather_forecast (region : string)
    (force_refresh : bool) : M (state G) (list weather_row) :=
  s <- get_state ;;
  if negb force_refresh && exists_ (weather_forecast_csv s) then
    logging INFO ("Loading weather forecast data for " ++ region
                  ++ " from file") ;;;
    frame <- lift (read_csv (weather_forecast_csv s)) ;;
    set_weather_data frame ;;;
    ret frame
  else
    logging INFO ("Generating sample weather forecast data for " ++ region) ;;;
    let start_date := now env in
    let end_date := start_date + 14 * 86400 in
    let dates := date_range start_date end_date in
    weather_entries <-
      for_each dates
        (fun date =>
           temperature <- draw (random_uniform lib (15 # 1) (30 # 1)) ;;
           precipitation <- draw (random_uniform lib (0 # 1) (20 # 1)) ;;
           chosen <- draw (random_choice lib (length conditions)) ;;
           ret [ {| w_date := date;
                    w_region := region;
                    w_temperature := temperature;
                    w_precipitation := precipitation;
                    w_conditions := nth chosen conditions EmptyString |} ]) ;;
    set_weather_data weather_entries ;;;
    weather_data_to_csv weather_entries ;;;
    logging INFO "Saved weather forecast data to data/weather_forecast.csv" ;;;
    ret weather_entries.

End Methods.

(** A collector just constructed on a [data/] directory without files. *)
Definition init {G} (g : G) : state G :=
  {| historical_prices_csv := None;
     market_news_csv := None;
     weather_forecast_csv := None;
     historical_data := None;
     news_data := None;
     weather_data := None;
     generators := g;
     log := [] |}.

End DataCollector.

(** ** What the collector generates *)

Section Collector.

Context {G : Type}.
Variable lib : libraries G.

Ltac collector_fields :=
  cbn [DataCollector.historical_prices_csv DataCollector.market_news_csv
       DataCollector.weather_forecast_csv DataCollector.historical_data
       DataCollector.news_data DataCollector.weather_data
       DataCollector.generators DataCollector.log].

(** A generation is due: the refresh is forced or the file is not there. *)
Definition due {A} (force_refresh : bool) (file : option (csv A)) : Prop :=
  force_refresh = true \/ file = None.

Lemma due_test {A} force_refresh (file : option (csv A)) :
  due force_refresh file ->
  negb force_refresh && DataCollector.exists_ file = false.
Proof.
  intros [-> | ->]; [reflexivity |]. now destruct force_refresh.
Qed.

Lemma date_range_days start (days : nat) :
  DataCollector.date_range start (start + Z.of_nat days * 86400)
  = map (fun k => start + Z.of_nat k * 86400) (seq 0 (S days)).
Proof.
  unfold DataCollector.date_range.
  destruct (Z.ltb_spec (start + Z.of_nat days * 86400) start); [lia |].
  replace (start + Z.of_nat days * 86400 - start) with (Z.of_nat days * 86400)
    by lia.
  now rewrite Z.div_mul, Nat2Z.id by lia.
Qed.

(** The frame of prices generated at [env] for [crop] with the noise
    [noise]. *)
Definition generated_prices (env : moment) (crop : string) (noise : nat -> Q)
  : list price_row :=
  imap (fun i date =>
          {| p_date := date;
             p_crop := crop;
             p_price :=
               (DataCollector.base_price crop
                + DataCollector.linspace (0 # 1) (100 # 1) 731 i
                + (50 # 1)
                  * np_sin lib
                      (DataCollector.linspace (0 # 1)
                         ((4 # 1) * np_pi lib) 731 i)
                + noise i)%Q |})
    (map (fun k => now env - 730 * 86400 + Z.of_nat k * 86400) (seq 0 731)).

Lemma load_or_fetch_historical_prices_generates env crop force_refresh
    (s : DataCollector.state G) :
  due force_refresh (DataCollector.historical_prices_csv s) ->
  to_csv_fault env = None ->
  let draw := np_random_normal lib (0 # 1) (20 # 1) 731
                (DataCollector.generators s) in
  let frame := generated_prices env crop (fst draw) in
  DataCollector.load_or_fetch_historical_prices lib env crop force_refresh s
  = (Return frame,
     {| DataCollector.historical_prices_csv := Some (Rows frame);
        DataCollector.market_news_csv := DataCollector.market_news_csv s;
        DataCollector.weather_forecast_csv :=
          DataCollector.weather_forecast_csv s;
        DataCollector.historical_data := Some frame;
        DataCollector.news_data := DataCollector.news_data s;
        DataCollector.weather_data := DataCollector.weather_data s;
        DataCollector.generators := snd draw;
        DataCollector.log :=
          (DataCollector.log s
           ++ [(INFO,
                ("Generating sample historical price data for " ++ crop)
                %string);
               (INFO,
                "Saved historical price data to data/historical_prices.csv")])
          %list |}).
Proof.
  intros Hdue Hcsv draw frame. subst draw frame.
  unfold DataCollector.load_or_fetch_historical_prices.
  rewrite bind_run. unfold get_state at 1. cbn beta iota.
  rewrite (due_test _ _ Hdue). cbn zeta.
  assert (Hdates :
    DataCollector.date_range (now env - 365 * 2 * 86400) (now env)
    = map (fun k => now env - 730 * 86400 + Z.of_nat k * 86400) (seq 0 731)).
  { rewrite <- (date_range_days (now env - 730 * 86400) 730). f_equal; lia. }
  rewrite Hdates, length_map, length_seq.
  rewrite bind_run. unfold DataCollector.logging at 1. cbn beta iota.
  rewrite bind_run. unfold DataCollector.draw at 1.
  cbn [DataCollector.generators].
  destruct (np_random_normal lib (0 # 1) (20 # 1) 731
              (DataCollector.generators s)) as [noise g] eqn:Edraw.
  cbn beta iota. cbn [fst snd]. collector_fields.
  fold (generated_prices env crop noise).
  rewrite bind_run. unfold DataCollector.set_historical_data at 1.
  cbn beta iota. collector_fields.
  rewrite bind_run. unfold DataCollector.historical_data_to_csv at 1.
  rewrite Hcsv. cbn beta iota. collector_fields.
  rewrite bind_run. unfold DataCollector.logging at 1.
  cbn beta iota. collector_fields.
  unfold ret. now rewrite <- app_assoc.
Qed.

Lemma load_or_fetch_historical_prices_loads env crop
    (s : DataCollector.state G) frame :
  DataCollector.historical_prices_csv s = Some (Rows frame) ->
  DataCollector.load_or_fetch_historical_prices lib env crop false s
  = (Return frame,
     {| DataCollector.historical_prices_csv := Some (Rows frame);
        DataCollector.market_news_csv := DataCollector.market_news_csv s;
        DataCollector.weather_forecast_csv :=
          DataCollector.weather_forecast_csv s;
        DataCollector.historical_data := Some frame;
        DataCollector.news_data := DataCollector.news_data s;
        DataCollector.weather_data := DataCollector.weather_data s;
        DataCollector.generators := DataCollector.generators s;
        DataCollector.log :=
          (DataCollector.log s
           ++ [(INFO,
                ("Loading historical price data for " ++ crop ++ " from file")
                %string)])%list |}).
Proof.
  intros Hfile. unfold DataCollector.load_or_fetch_historical_prices.
  rewrite bind_run. unfold get_state at 1. cbn beta iota.
  rewrite Hfile. cbn [negb andb DataCollector.exists_].
  rewrite bind_run. unfold DataCollector.logging at 1. cbn beta iota.
  rewrite bind_run. unfold lift at 1. cbn [DataCollector.read_csv].
  cbn beta iota.
  rewrite bind_run. unfold DataCollector.set_historical_data at 1.
  cbn beta iota. collector_fields. rewrite Hfile. reflexivity.
Qed.

Lemma imap_rows {A B} (f : nat -> A -> B) (P : B -> Prop) (l : list A) :
  (forall i x, P (f i x)) -> Forall P (imap f l).
Proof.
  revert f. induction l as [| x l IH]; intros f Hf; cbn [imap].
  - constructor.
  - constructor; [apply Hf | apply IH; intros i y; apply Hf].
Qed.

Lemma imap_dates {A} (f : nat -> Z -> A) (date : A -> Z) (l : list Z) :
  (forall i x, date (f i x) = x) -> map date (imap f l) = l.
Proof.
  revert f. induction l as [| x l IH]; intros f Hf; cbn [imap map].
  - reflexivity.
  - rewrite Hf, IH; [reflexivity |]. intros i y. apply Hf.
Qed.

Lemma generated_prices_dates env crop noise :
  map p_date (generated_prices env crop noise)
  = map (fun k => now env - 730 * 86400 + Z.of_nat k * 86400) (seq 0 731).
Proof. unfold generated_prices. now apply imap_dates. Qed.

Lemma generated_prices_crop env crop noise :
  Forall (fun r => p_crop r = crop) (generated_prices env crop noise).
Proof. unfold generated_prices. now apply imap_rows. Qed.

Lemma generated_prices_length env crop noise :
  length (generated_prices env crop noise) = 731%nat.
Proof.
  rewrite <- (length_map p_date), generated_prices_dates, length_map.
  apply length_seq.
Qed.

(** [daily] looks at the dates only. *)
Fixpoint daily_dates (dates : list Z) : bool :=
  match dates with
  | [] => true
  | d :: rest => forallb (fun d' => d + 86400 <=? d') rest && daily_dates rest
  end.

Lemma daily_of_dates frame : daily frame = daily_dates (map p_date frame).
Proof.
  induction frame as [| r rest IH]; cbn [daily daily_dates map];
    [reflexivity |].
  rewrite IH. f_equal.
  clear IH. induction rest as [| r' rest IH]; cbn [forallb map];
    [reflexivity |].
  now rewrite IH.
Qed.

Lemma daily_dates_of_days start (first n : nat) :
  daily_dates (map (fun k => start + Z.of_nat k * 86400) (seq first n)) = true.
Proof.
  revert first. induction n as [| n IH]; intros first; cbn [seq map daily_dates];
    [reflexivity |].
  rewrite IH, andb_true_r.
  apply forallb_forall. intros d [k [<- Hk%in_seq]]%in_map_iff.
  apply Z.leb_le. lia.
Qed.

Lemma generated_prices_daily env crop noise :
  daily (generated_prices env crop noise) = true.
Proof.
  rewrite daily_of_dates, generated_prices_dates.
  apply daily_dates_of_days.
Qed.

Lemma generated_prices_range env crop noise r :
  In r (generated_prices env crop noise) ->
  now env - 730 * 86400 <= p_date r <= now env.
Proof.
  intros Hr. apply (in_map p_date) in Hr.
  rewrite generated_prices_dates in Hr.
  apply in_map_iff in Hr as [k [<- Hk%in_seq]]. lia.
Qed.
(** X21. The history generated for one crop is the history of every crop:
    a load that generates (forced, or without a file) returns 731 rows, all
    labelled with the crop asked for, and writes them to the one file of
    prices; any later load that is not forced returns these same rows for
    whatever crop is asked, draws nothing and leaves the file as it is. *)
Theorem generated_history_serves_every_crop env env2 crop crop2 force_refresh
    (s : DataCollector.state G) :
  due force_refresh (DataCollector.historical_prices_csv s) ->
  to_csv_fault env = None ->
  exists frame s1 s2,
    DataCollector.load_or_fetch_historical_prices lib env crop force_refresh s
    = (Return frame, s1)
    /\ length frame = 731%nat
    /\ Forall (fun r => p_crop r = crop) frame
    /\ DataCollector.historical_prices_csv s1 = Some (Rows frame)
    /\ DataCollector.load_or_fetch_historical_prices lib env2 crop2 false s1
       = (Return frame, s2)
    /\ DataCollector.historical_prices_csv s2 = Some (Rows frame)
    /\ DataCollector.generators s2 = DataCollector.generators s1.
Proof.
  intros Hdue Hcsv.
  rewrite (load_or_fetch_historical_prices_generates env crop force_refresh s
             Hdue Hcsv).
  do 3 eexists. split; [reflexivity |].
  split; [apply generated_prices_length |].
  split; [apply generated_prices_crop |].
  split; [reflexivity |].
  split; [now apply load_or_fetch_historical_prices_loads |].
  split; reflexivity.
Qed.

(** The window of one week on daily prices that are not later than now. *)
Lemma week_window_is_short src crop :
  daily (load_or_fetch_historical_prices src crop) = true ->
  (forall r, In r (load_or_fetch_historical_prices src crop) ->
             p_date r < datetime_now src) ->
  (length (price_window src crop "1 week") <= 7)%nat.
Proof.
  intros Hdaily Hpast. unfold price_window. rewrite length_map.
  apply (daily_count _ (daily_filter _ _ Hdaily)
           (datetime_now src - 7 * 86400) 7%nat).
  intros r [Hr Hkept]%filter_In.
  apply Z.leb_le in Hkept. specialize (Hpast r Hr).
  change (timeframe_days "1 week") with 7 in Hkept. lia.
Qed.

(** X22. The generated history under the one-week analysis.  The rows are a
    day apart and end at the time of the generation, so that an analysis
    over "1 week" made later, within seven days, finds seven rows at most:
    it returns a result whose projection is 0 and whose projected price is
    the current price, whatever noise was drawn.  The file is not generated
    again by itself: more than seven days after the generation the same
    analysis finds no row and returns no result. *)
Theorem generated_history_in_the_one_week_analysis env crop force_refresh
    (s : DataCollector.state G) :
  due force_refresh (DataCollector.historical_prices_csv s) ->
  to_csv_fault env = None ->
  exists frame s1,
    DataCollector.load_or_fetch_historical_prices lib env crop force_refresh s
    = (Return frame, s1)
    /\ forall rt src crop' a,
         load_or_fetch_historical_prices src crop' = frame ->
         (now env < datetime_now src <= now env + 7 * 86400 ->
          exists analysis a',
            analyze_price_trends rt src crop' "1 week" a
            = (Return (Some analysis), a')
            /\ dict_get "projection_pct" analysis = Some (VInt 0)
            /\ dict_get "projected_price" analysis
               = dict_get "current_price" analysis)
         /\ (now env + 7 * 86400 < datetime_now src ->
             exists a',
               analyze_price_trends rt src crop' "1 week" a
               = (Return None, a')).
Proof.
  intros Hdue Hcsv.
  rewrite (load_or_fetch_historical_prices_generates env crop force_refresh s
             Hdue Hcsv).
  cbv zeta.
  set (frame := generated_prices env crop _).
  do 2 eexists. split; [reflexivity |].
  intros rt src crop' a Hframe.
  assert (Hlast : exists r, In r frame /\ p_date r = now env).
  { assert (Hin : In (now env) (map p_date frame)).
    { unfold frame. rewrite generated_prices_dates.
      apply in_map_iff. exists 730%nat. split; [lia |].
      apply in_seq. lia. }
    apply in_map_iff in Hin as [r [Hdate Hr]]. eauto. }
  split.
  - intros [Hlater Hweek].
    assert (Hshort := week_window_is_short src crop').
    rewrite Hframe in Hshort.
    specialize (Hshort (generated_prices_daily env crop _)).
    assert (Hpast : forall r, In r frame -> p_date r < datetime_now src).
    { intros r Hr. apply generated_prices_range in Hr. lia. }
    specialize (Hshort Hpast).
    destruct (price_window src crop' "1 week") as [| first rest] eqn:Hwin.
    { exfalso. destruct Hlast as (r & Hr & Hdate).
      unfold price_window in Hwin. apply map_eq_nil in Hwin.
      assert (Hkept : In r (List.filter
                (fun r => datetime_now src - timeframe_days "1 week" * 86400
                          <=? p_date r)
                (load_or_fetch_historical_prices src crop'))).
      { apply filter_In. rewrite Hframe. split; [exact Hr |].
        apply Z.leb_le. change (timeframe_days "1 week") with 7. lia. }
      rewrite Hwin in Hkept. destruct Hkept. }
    rewrite (analyze_price_trends_returns _ _ _ _ _ _ _ Hwin).
    do 2 eexists. split; [reflexivity |].
    unfold price_analysis_of.
    destruct (Nat.ltb_spec 7 (length (first :: rest))) as [Hmore | _];
      [lia |].
    split; reflexivity.
  - intros Hstale.
    rewrite (analyze_price_trends_old_rows rt src crop' "1 week" a).
    + eexists. reflexivity.
    + rewrite Hframe. destruct Hlast as (r & Hr & _).
      intros Hnil. rewrite Hnil in Hr. destruct Hr.
    + unfold price_window. rewrite filter_none; [reflexivity |].
      intros r Hr. rewrite Hframe in Hr.
      apply generated_prices_range in Hr.
      apply Z.leb_gt. change (timeframe_days "1 week") with 7. lia.
Qed.
(** The state after draws: everything but the generators is as it was. *)
Definition set_generators (g : G) (s : DataCollector.state G)
  : DataCollector.state G :=
  {| DataCollector.historical_prices_csv :=
       DataCollector.historical_prices_csv s;
     DataCollector.market_news_csv := DataCollector.market_news_csv s;
     DataCollector.weather_forecast_csv := DataCollector.weather_forecast_csv s;
     DataCollector.historical_data := DataCollector.historical_data s;
     DataCollector.news_data := DataCollector.news_data s;
     DataCollector.weather_data := DataCollector.weather_data s;
     DataCollector.generators := g;
     DataCollector.log := DataCollector.log s |}.

Definition only_draws (s s' : DataCollector.state G) : Prop :=
  s' = set_generators (DataCollector.generators s') s.

Lemma only_draws_refl s : only_draws s s.
Proof. now destruct s. Qed.

Lemma only_draws_trans s1 s2 s3 :
  only_draws s1 s2 -> only_draws s2 s3 -> only_draws s1 s3.
Proof.
  unfold only_draws. intros H12 H23. rewrite H23 at 1. rewrite H12 at 1.
  reflexivity.
Qed.

Lemma draw_run {A} (f : G -> A * G) s :
  DataCollector.draw f s
  = (Return (fst (f (DataCollector.generators s))),
     set_generators (snd (f (DataCollector.generators s))) s).
Proof.
  unfold DataCollector.draw. now destruct (f (DataCollector.generators s)).
Qed.

Lemma times_draws {A} (P : A -> Prop) (n : nat)
    (item : M (DataCollector.state G) A) :
  (forall s, exists x s', item s = (Return x, s') /\ P x /\ only_draws s s') ->
  forall s, exists l s',
    DataCollector.times n item s = (Return l, s')
    /\ Forall P l /\ length l = n /\ only_draws s s'.
Proof.
  intros Hitem. induction n as [| n IH]; intros s; cbn [DataCollector.times].
  - exists [], s. repeat split; [constructor | apply only_draws_refl].
  - destruct (Hitem s) as (x & s1 & Hx & HP & H1).
    destruct (IH s1) as (l & s2 & Hl & HPl & Hlen & H2).
    exists (x :: l), s2.
    rewrite bind_run, Hx, bind_run, Hl.
    repeat split; [now constructor | cbn [length]; lia
                  | eapply only_draws_trans; eassumption].
Qed.

Lemma for_each_draws {A B} (P : A -> list B -> Prop) (l : list A)
    (body : A -> M (DataCollector.state G) (list B)) :
  (forall x s, In x l ->
     exists entries s',
       body x s = (Return entries, s') /\ P x entries /\ only_draws s s') ->
  forall s, exists parts s',
    DataCollector.for_each l body s = (Return (concat parts), s')
    /\ Forall2 P l parts /\ only_draws s s'.
Proof.
  induction l as [| x l IH]; intros Hbody s; cbn [DataCollector.for_each].
  - exists [], s. repeat split; [constructor | apply only_draws_refl].
  - destruct (Hbody x s (or_introl eq_refl)) as (e & s1 & He & HP & H1).
    destruct (IH (fun y st Hy => Hbody y st (or_intror Hy)) s1)
      as (parts & s2 & Hparts & HPs & H2).
    exists (e :: parts), s2.
    rewrite bind_run, He, bind_run, Hparts.
    repeat split; [now constructor | eapply only_draws_trans; eassumption].
Qed.
(** [random.uniform(a, b)] returns a number between [a] and [b]. *)
Definition uniform_in_range : Prop :=
  forall (a b : Q) (g : G),
    (a <= b)%Q ->
    (a <= fst (random_uniform lib a b g) <= b)%Q.

(** A row of a forecast generated at [env] for [region]. *)
Definition generated_forecast_row (env : moment) (region : string)
    (r : weather_row) : Prop :=
  w_region r = region
  /\ (15 # 1 <= w_temperature r <= 30 # 1)%Q
  /\ (0 # 1 <= w_precipitation r <= 20 # 1)%Q
  /\ now env <= w_date r <= now env + 14 * 86400.

Lemma singletons_concat {A B} (P : A -> B -> Prop) (l : list A)
    (parts : list (list B)) :
  Forall2 (fun x entries => exists y, entries = [y] /\ P x y) l parts ->
  length (concat parts) = length l
  /\ Forall (fun y => exists x, In x l /\ P x y) (concat parts).
Proof.
  induction 1 as [| x entries l parts (y & -> & Hy) _ [IHlen IHall]];
    cbn [concat length app].
  - split; [reflexivity | constructor].
  - split; [now rewrite IHlen |].
    constructor; [exists x; split; [now left | exact Hy] |].
    eapply Forall_impl; [exact IHall |].
    intros z (x' & Hx' & Hz). exists x'. split; [now right | exact Hz].
Qed.

Lemma load_or_fetch_weather_forecast_generates env region force_refresh
    (s : DataCollector.state G) :
  uniform_in_range ->
  due force_refresh (DataCollector.weather_forecast_csv s) ->
  to_csv_fault env = None ->
  exists frame g,
    DataCollector.load_or_fetch_weather_forecast lib env region force_refresh s
    = (Return frame,
       {| DataCollector.historical_prices_csv :=
            DataCollector.historical_prices_csv s;
          DataCollector.market_news_csv := DataCollector.market_news_csv s;
          DataCollector.weather_forecast_csv := Some (Rows frame);
          DataCollector.historical_data := DataCollector.historical_data s;
          DataCollector.news_data := DataCollector.news_data s;
          DataCollector.weather_data := Some frame;
          DataCollector.generators := g;
          DataCollector.log :=
            (DataCollector.log s
             ++ [(INFO,
                  ("Generating sample weather forecast data for " ++ region)
                  %string);
                 (INFO,
                  "Saved weather forecast data to data/weather_forecast.csv")])
            %list |})
    /\ length frame = 15%nat
    /\ Forall (generated_forecast_row env region) frame.
Proof.
  intros Huniform Hdue Hcsv.
  unfold DataCollector.load_or_fetch_weather_forecast.
  rewrite bind_run. unfold get_state at 1. cbn beta iota.
  rewrite (due_test _ _ Hdue). cbn zeta.
  replace (now env + 14 * 86400) with (now env + Z.of_nat 14 * 86400) by lia.
  rewrite date_range_days.
  rewrite bind_run. unfold DataCollector.logging at 1. cbn beta iota.
  match goal with
  | |- context [DataCollector.for_each ?l ?body] =>
      pose proof (for_each_draws
                    (fun date entries =>
                       exists r, entries = [r]
                                 /\ generated_forecast_row env region r
                                 /\ w_date r = date)
                    l body) as Hloop
  end.
  lapply Hloop; [clear Hloop; intros Hloop |].
  2: { clear Hloop. intros date st Hdate.
       rewrite bind_run, draw_run. cbn beta iota.
       rewrite bind_run, draw_run. cbn beta iota.
       rewrite bind_run, draw_run. cbn beta iota.
       do 2 eexists. split; [reflexivity |]. split; [| reflexivity].
       eexists. split; [reflexivity |]. split; [| reflexivity].
       unfold generated_forecast_row.
       cbn [w_region w_temperature w_precipitation w_date].
       split; [reflexivity |].
       split; [apply Huniform; unfold Qle; cbn; lia |].
       split; [apply Huniform; unfold Qle; cbn; lia |].
       apply in_map_iff in Hdate as [k [<- Hk%in_seq]]. lia. }
  match goal with
  | |- context [bind _ _ ?st] =>
      destruct (Hloop st) as (parts & s1 & Hrun & Hparts & Hdraws)
  end.
  rewrite bind_run, Hrun. rewrite Hdraws.
  unfold set_generators. collector_fields.
  rewrite bind_run. unfold DataCollector.set_weather_data at 1.
  cbn beta iota. collector_fields.
  rewrite bind_run. unfold DataCollector.weather_data_to_csv at 1.
  rewrite Hcsv. cbn beta iota. collector_fields.
  rewrite bind_run. unfold DataCollector.logging at 1.
  cbn beta iota. collector_fields.
  destruct (singletons_concat
              (fun date r => generated_forecast_row env region r
                             /\ w_date r = date) _ _ Hparts)
    as [Hlen Hrows].
  do 2 eexists. split; [unfold ret; now rewrite <- app_assoc |].
  split; [now rewrite Hlen, length_map, length_seq |].
  eapply Forall_impl; [exact Hrows |].
  now intros r (date & _ & Hr & _).
Qed.
Lemma Qsum_bounds (lo hi : Q) (l : list Q) :
  Forall (fun x => lo <= x <= hi)%Q l ->
  (Qlen l * lo <= Qsum l <= Qlen l * hi)%Q.
Proof.
  unfold Qlen. induction 1 as [| x l Hx _ IH].
  - cbn [length Qsum fold_right Z.of_nat].
    change (inject_Z (Z.of_nat 0)) with (0 # 1)%Q. lra.
  - cbn [length Qsum fold_right]. fold (Qsum l).
    rewrite Nat2Z.inj_succ. unfold Z.succ. rewrite inject_Z_plus.
    change (inject_Z 1) with (1 # 1)%Q. lra.
Qed.

Lemma mean_bounds (lo hi : Q) (l : list Q) :
  l <> [] ->
  Forall (fun x => lo <= x <= hi)%Q l ->
  (lo <= mean l <= hi)%Q.
Proof.
  intros Hne Hall. destruct (Qsum_bounds lo hi l Hall) as [Hlo Hhi].
  assert (Hpos : (0 < Qlen l)%Q).
  { unfold Qlen. destruct l; [congruence |].
    rewrite <- (Zlt_Qlt 0). cbn [length]. lia. }
  unfold mean. split.
  - apply Qle_shift_div_l; [exact Hpos | lra].
  - apply Qle_shift_div_r; [exact Hpos | lra].
Qed.

(** X23. The generated forecast under the weather analysis.  A load that
    generates returns 15 rows with temperatures drawn between 15 and 30 and
    precipitations between 0 and 20, so that every analysis of it reports an
    average temperature between 15 and 30 and a total precipitation between
    0 and 300, and two branches of the classification are never taken: for
    wheat the one of low temperatures with excessive rainfall, for corn the
    one of high heat. *)
Theorem generated_forecast_in_the_weather_analysis env region force_refresh
    (s : DataCollector.state G) :
  uniform_in_range ->
  due force_refresh (DataCollector.weather_forecast_csv s) ->
  to_csv_fault env = None ->
  exists frame s1,
    DataCollector.load_or_fetch_weather_forecast lib env region force_refresh s
    = (Return frame, s1)
    /\ length frame = 15%nat
    /\ DataCollector.weather_forecast_csv s1 = Some (Rows frame)
    /\ forall src crop a,
         load_or_fetch_weather_forecast src "midwest" = frame ->
         exists analysis a' t p e,
           analyze_weather_impact src crop "midwest" a
           = (Return (Some analysis), a')
           /\ dict_get "average_temperature" analysis = Some (VNum t)
           /\ (15 # 1 <= t <= 30 # 1)%Q
           /\ dict_get "total_precipitation" analysis = Some (VNum p)
           /\ (0 # 1 <= p <= 300 # 1)%Q
           /\ dict_get "explanation" analysis = Some (VStr e)
           /\ e <> "Low temperatures and excessive rainfall may damage wheat crops."
           /\ e <> "High heat and insufficient moisture may stress corn crops.".
Proof.
  intros Huniform Hdue Hcsv.
  destruct (load_or_fetch_weather_forecast_generates env region force_refresh
              s Huniform Hdue Hcsv) as (frame & g & Hrun & Hlen & Hrows).
  rewrite Hrun. do 2 eexists. split; [reflexivity |].
  split; [exact Hlen |]. split; [reflexivity |].
  intros src crop a Hframe.
  assert (Hne : load_or_fetch_weather_forecast src "midwest" <> []).
  { rewrite Hframe. intros E. rewrite E in Hlen. discriminate. }
  rewrite (analyze_weather_impact_returns src crop "midwest" a Hne), Hframe.
  assert (Ht : (15 # 1 <= mean (map w_temperature frame) <= 30 # 1)%Q).
  { apply mean_bounds.
    - intros E. apply map_eq_nil in E. rewrite E in Hlen. discriminate.
    - apply Forall_map. eapply Forall_impl; [exact Hrows |].
      now intros r (_ & Hr & _). }
  assert (Hp : (0 # 1 <= Qsum (map w_precipitation frame) <= 300 # 1)%Q).
  { destruct (Qsum_bounds (0 # 1) (20 # 1) (map w_precipitation frame))
      as [Hlo Hhi].
    - apply Forall_map. eapply Forall_impl; [exact Hrows |].
      now intros r (_ & _ & Hr & _).
    - unfold Qlen in *. rewrite length_map, Hlen in Hlo, Hhi.
      change (inject_Z (Z.of_nat 15)) with (15 # 1)%Q in Hlo, Hhi. lra. }
  do 5 eexists. split; [reflexivity |]. unfold weather_analysis_of.
  split; [reflexivity |]. split; [exact Ht |].
  split; [reflexivity |]. split; [exact Hp |].
  split; [reflexivity |].
  set (t := mean (map w_temperature frame)) in *.
  set (p := Qsum (map w_precipitation frame)) in *.
  unfold weather_verdict.
  destruct (Qlt_boolP t (15 # 1)) as [Hcold | _]; [lra |].
  destruct (Qgt_boolP t (30 # 1)) as [Hhot | _]; [lra |].
  cbn [andb].
  destruct (String.eqb crop "wheat");
    [destruct (Qgt_bool t (25 # 1) && Qlt_bool p (10 # 1));
     cbn [snd]; split; discriminate |].
  destruct (String.eqb crop "corn");
    [destruct (Qlt_bool t (18 # 1) || Qlt_bool p (15 # 1));
     cbn [snd]; split; discriminate |].
  destruct (String.eqb crop "soybeans");
    [destruct (Qlt_bool t (20 # 1) || Qlt_bool p (10 # 1));
     [| destruct (Qgt_bool p (40 # 1))];
     cbn [snd]; split; discriminate |].
  cbn [snd]. split; discriminate.
Qed.
(** [random.choice(seq)] returns an element of a sequence that is not
    empty. *)
Definition choice_in_range : Prop :=
  forall (n : nat) (g : G),
    (0 < n)%nat -> (fst (random_choice lib n g) < n)%nat.

(** A row of the news generated at [env] for [crop]. *)
Definition generated_news_row (env : moment) (crop : string) (r : news_row)
  : Prop :=
  n_crop r = crop
  /\ In (n_headline r, n_sentiment r) (DataCollector.news_samples crop)
  /\ now env - 30 * 86400 <= n_date r <= now env.

Lemma parts_concat {A B} (P : A -> B -> Prop) (l : list A)
    (parts : list (list B)) :
  Forall2 (fun x entries => Forall (P x) entries) l parts ->
  Forall (fun y => exists x, In x l /\ P x y) (concat parts).
Proof.
  induction 1 as [| x entries l parts Hentries _ IH]; cbn [concat].
  - constructor.
  - apply Forall_app. split.
    + eapply Forall_impl; [exact Hentries |].
      intros y Hy. exists x. split; [now left | exact Hy].
    + eapply Forall_impl; [exact IH |].
      intros y (x' & Hx' & Hy). exists x'. split; [now right | exact Hy].
Qed.

Lemma load_or_fetch_market_news_generates env crop force_refresh
    (s : DataCollector.state G) :
  choice_in_range ->
  due force_refresh (DataCollector.market_news_csv s) ->
  to_csv_fault env = None ->
  exists frame g,
    DataCollector.load_or_fetch_market_news lib env crop 30 force_refresh s
    = (Return frame,
       {| DataCollector.historical_prices_csv :=
            DataCollector.historical_prices_csv s;
          DataCollector.market_news_csv :=
            Some (match frame with
                  | [] => Unparsable
                            (ValueError "No columns to parse from file")
                  | _ :: _ => Rows frame
                  end);
          DataCollector.weather_forecast_csv :=
            DataCollector.weather_forecast_csv s;
          DataCollector.historical_data := DataCollector.historical_data s;
          DataCollector.news_data := Some frame;
          DataCollector.weather_data := DataCollector.weather_data s;
          DataCollector.generators := g;
          DataCollector.log :=
            (DataCollector.log s
             ++ [(INFO,
                  ("Generating sample market news data for " ++ crop)%string);
                 (INFO, "Saved market news data to data/market_news.csv")])
            %list |})
    /\ Forall (generated_news_row env crop) frame.
Proof.
  intros Hchoice Hdue Hcsv.
  unfold DataCollector.load_or_fetch_market_news.
  rewrite bind_run. unfold get_state at 1. cbn beta iota.
  rewrite (due_test _ _ Hdue). cbn zeta.
  assert (Hdates :
    DataCollector.date_range (now env - 30 * 86400) (now env)
    = map (fun k => now env - 30 * 86400 + Z.of_nat k * 86400) (seq 0 31)).
  { rewrite <- (date_range_days (now env - 30 * 86400) 30). f_equal; lia. }
  rewrite Hdates.
  rewrite bind_run. unfold DataCollector.logging at 1. cbn beta iota.
  match goal with
  | |- context [DataCollector.for_each ?l ?body] =>
      pose proof (for_each_draws
                    (fun date entries =>
                       Forall (fun r => generated_news_row env crop r
                                        /\ n_date r = date) entries)
                    l body) as Hloop
  end.
  lapply Hloop; [clear Hloop; intros Hloop |].
  2: { clear Hloop. intros date st Hdate.
       rewrite bind_run, draw_run. cbn beta iota.
       match goal with
       | |- context [DataCollector.times ?n ?item ?st1] =>
           destruct (times_draws
                       (fun r => generated_news_row env crop r
                                 /\ n_date r = date) n item)
             with (s := st1) as (entries & st2 & Hrun & Hrows & _ & Hdraws)
       end.
       - intros st1. rewrite bind_run, draw_run. cbn beta iota.
         do 2 eexists. split; [reflexivity |]. split; [| reflexivity].
         split; [| reflexivity]. unfold generated_news_row.
         cbn [n_crop n_headline n_sentiment n_date].
         split; [reflexivity |]. split.
         + rewrite <- surjective_pairing. apply nth_In, Hchoice.
           cbn [length DataCollector.news_samples]. lia.
         + apply in_map_iff in Hdate as [k [<- Hk%in_seq]]. lia.
       - exists entries, st2. split; [exact Hrun |]. split; [exact Hrows |].
         eapply only_draws_trans; [| exact Hdraws]. reflexivity. }
  match goal with
  | |- context [bind _ _ ?st] =>
      destruct (Hloop st) as (parts & s1 & Hrun & Hparts & Hdraws)
  end.
  rewrite bind_run, Hrun. rewrite Hdraws.
  unfold set_generators. collector_fields.
  rewrite bind_run. unfold DataCollector.set_news_data at 1.
  cbn beta iota. collector_fields.
  rewrite bind_run. unfold DataCollector.news_data_to_csv at 1.
  rewrite Hcsv. cbn beta iota. collector_fields.
  rewrite bind_run. unfold DataCollector.logging at 1.
  cbn beta iota. collector_fields.
  do 2 eexists. split; [unfold ret; now rewrite <- app_assoc |].
  eapply Forall_impl; [exact (parts_concat _ _ _ Hparts) |].
  now intros r (date & _ & Hr & _).
Qed.

(** X24. The generated news under the sentiment analysis.  A load that
    generates returns rows labelled with the crop asked for, dated within
    the last 30 days, each with one of the six sample headlines and its
    label, which is one of "positive", "negative" and "neutral"; so that
    every sentiment analysis of these rows counts each of them: the three
    counts sum to the number of headlines. *)
Theorem generated_news_in_the_sentiment_analysis env crop force_refresh
    (s : DataCollector.state G) :
  choice_in_range ->
  due force_refresh (DataCollector.market_news_csv s) ->
  to_csv_fault env = None ->
  exists frame s1,
    DataCollector.load_or_fetch_market_news lib env crop 30 force_refresh s
    = (Return frame, s1)
    /\ Forall (fun r =>
                 n_crop r = crop
                 /\ In (n_headline r, n_sentiment r)
                      (DataCollector.news_samples crop)
                 /\ (n_sentiment r = "positive" \/ n_sentiment r = "negative"
                     \/ n_sentiment r = "neutral")
                 /\ now env - 30 * 86400 <= n_date r <= now env) frame
    /\ forall src crop' a,
         load_or_fetch_market_news src crop' = frame ->
         frame <> [] ->
         exists analysis a' positive negative neutral,
           analyze_market_sentiment src crop' a = (Return (Some analysis), a')
           /\ dict_get "positive_news_count" analysis = Some (VInt positive)
           /\ dict_get "negative_news_count" analysis = Some (VInt negative)
           /\ dict_get "neutral_news_count" analysis = Some (VInt neutral)
           /\ dict_get "headlines" analysis
              = Some (VList (map n_headline frame))
           /\ positive + negative + neutral = Z.of_nat (length frame).
Proof.
  intros Hchoice Hdue Hcsv.
  destruct (load_or_fetch_market_news_generates env crop force_refresh s
              Hchoice Hdue Hcsv) as (frame & g & Hrun & Hrows).
  rewrite Hrun. do 2 eexists. split; [reflexivity |].
  assert (Hlabels : forall r, In r frame ->
            n_sentiment r = "positive" \/ n_sentiment r = "negative"
            \/ n_sentiment r = "neutral").
  { intros r Hr. rewrite List.Forall_forall in Hrows.
    destruct (Hrows r Hr) as (_ & Hsample & _).
    cbn [DataCollector.news_samples In] in Hsample.
    repeat (destruct Hsample as [Hsample | Hsample];
            [injection Hsample as _ <-; tauto |]).
    destruct Hsample. }
  split.
  - rewrite List.Forall_forall in *. intros r Hr.
    destruct (Hrows r Hr) as (Hcrop & Hsample & Hdate).
    split; [exact Hcrop |]. split; [exact Hsample |].
    split; [now apply Hlabels | exact Hdate].
  - intros src crop' a Hframe Hne.
    rewrite (analyze_market_sentiment_returns src crop' a) by congruence.
    rewrite Hframe. do 5 eexists. split; [reflexivity |].
    unfold sentiment_analysis_of.
    split; [reflexivity |]. split; [reflexivity |]. split; [reflexivity |].
    split; [reflexivity |].
    rewrite counts_and_length. f_equal.
    apply filter_length_all. intros r Hr. unfold counted_label.
    destruct (Hlabels r Hr) as [-> | [-> | ->]]; reflexivity.
Qed.
End Collector.

(** ** The collector on sample generators *)

(** Generators to compute with: the state counts the draws; the noise and
    the season are flat, a number is drawn at either end of its range and an
    element by the count. *)
Definition sample_libraries : libraries nat :=
  {| np_pi := 355 # 113;
     np_sin := fun _ => 0 # 1;
     np_random_normal := fun _ _ _ g => (fun _ => 0 # 1, S g);
     random_randint := fun a b g =>
       (a + Z.of_nat g mod (b - a + 1), S g);
     random_choice := fun n g => ((g mod n)%nat, S g);
     random_uniform := fun a b g => (if Nat.even g then a else b, S g) |}.

(** Noon of the day after the last price of the sample source; [to_csv]
    works. *)
Definition sample_moment : moment :=
  {| now := 9 * 86400; to_csv_fault := None |}.

Lemma sample_choice_in_range : choice_in_range sample_libraries.
Proof.
  intros n g Hn. cbn [random_choice sample_libraries fst].
  apply Nat.mod_upper_bound. lia.
Qed.

Lemma sample_uniform_in_range : uniform_in_range sample_libraries.
Proof.
  intros a b g Hab. cbn [random_uniform sample_libraries fst].
  destruct (Nat.even g); split; (exact Hab || apply Qle_refl).
Qed.

Lemma generated_history_serves_every_crop_witness :
  exists frame s1 s2,
    DataCollector.load_or_fetch_historical_prices sample_libraries
      sample_moment "wheat" false (DataCollector.init 0%nat)
    = (Return frame, s1)
    /\ length frame = 731%nat
    /\ Forall (fun r => p_crop r = "wheat") frame
    /\ DataCollector.historical_prices_csv s1 = Some (Rows frame)
    /\ DataCollector.load_or_fetch_historical_prices sample_libraries
         {| now := 10 * 86400; to_csv_fault := None |} "corn" false s1
       = (Return frame, s2)
    /\ DataCollector.historical_prices_csv s2 = Some (Rows frame)
    /\ DataCollector.generators s2 = DataCollector.generators s1.
Proof.
  apply (generated_history_serves_every_crop sample_libraries sample_moment
           {| now := 10 * 86400; to_csv_fault := None |} "wheat" "corn" false
           (DataCollector.init 0%nat)).
  - right. reflexivity.
  - reflexivity.
Defined.

Lemma generated_history_in_the_one_week_analysis_witness :
  exists frame s1,
    DataCollector.load_or_fetch_historical_prices sample_libraries
      sample_moment "wheat" true (DataCollector.init 0%nat)
    = (Return frame, s1)
    /\ forall rt src crop' a,
         load_or_fetch_historical_prices src crop' = frame ->
         (now sample_moment < datetime_now src
          <= now sample_moment + 7 * 86400 ->
          exists analysis a',
            analyze_price_trends rt src crop' "1 week" a
            = (Return (Some analysis), a')
            /\ dict_get "projection_pct" analysis = Some (VInt 0)
            /\ dict_get "projected_price" analysis
               = dict_get "current_price" analysis)
         /\ (now sample_moment + 7 * 86400 < datetime_now src ->
             exists a',
               analyze_price_trends rt src crop' "1 week" a
               = (Return None, a')).
Proof.
  apply (generated_history_in_the_one_week_analysis sample_libraries
           sample_moment "wheat" true (DataCollector.init 0%nat)).
  - left. reflexivity.
  - reflexivity.
Defined.

Lemma generated_forecast_in_the_weather_analysis_witness :
  exists frame s1,
    DataCollector.load_or_fetch_weather_forecast sample_libraries
      sample_moment "midwest" false (DataCollector.init 0%nat)
    = (Return frame, s1)
    /\ length frame = 15%nat
    /\ DataCollector.weather_forecast_csv s1 = Some (Rows frame)
    /\ forall src crop a,
         load_or_fetch_weather_forecast src "midwest" = frame ->
         exists analysis a' t p e,
           analyze_weather_impact src crop "midwest" a
           = (Return (Some analysis), a')
           /\ dict_get "average_temperature" analysis = Some (VNum t)
           /\ (15 # 1 <= t <= 30 # 1)%Q
           /\ dict_get "total_precipitation" analysis = Some (VNum p)
           /\ (0 # 1 <= p <= 300 # 1)%Q
           /\ dict_get "explanation" analysis = Some (VStr e)
           /\ e <> "Low temperatures and excessive rainfall may damage wheat crops."
           /\ e <> "High heat and insufficient moisture may stress corn crops.".
Proof.
  apply (generated_forecast_in_the_weather_analysis sample_libraries
           sample_moment "midwest" false (DataCollector.init 0%nat)).
  - exact sample_uniform_in_range.
  - right. reflexivity.
  - reflexivity.
Defined.

Lemma generated_news_in_the_sentiment_analysis_witness :
  exists frame s1,
    DataCollector.load_or_fetch_market_news sample_libraries sample_moment
      "wheat" 30 false (DataCollector.init 0%nat)
    = (Return frame, s1)
    /\ Forall (fun r =>
                 n_crop r = "wheat"
                 /\ In (n_headline r, n_sentiment r)
                      (DataCollector.news_samples "wheat")
                 /\ (n_sentiment r = "positive" \/ n_sentiment r = "negative"
                     \/ n_sentiment r = "neutral")
                 /\ now sample_moment - 30 * 86400 <= n_date r
                    <= now sample_moment) frame
    /\ forall src crop' a,
         load_or_fetch_market_news src crop' = frame ->
         frame <> [] ->
         exists analysis a' positive negative neutral,
           analyze_market_sentiment src crop' a = (Return (Some analysis), a')
           /\ dict_get "positive_news_count" analysis = Some (VInt positive)
           /\ dict_get "negative_news_count" analysis = Some (VInt negative)
           /\ dict_get "neutral_news_count" analysis = Some (VInt neutral)
           /\ dict_get "headlines" analysis
              = Some (VList (map n_headline frame))
           /\ positive + negative + neutral = Z.of_nat (length frame).
Proof.
  apply (generated_news_in_the_sentiment_analysis sample_libraries
           sample_moment "wheat" false (DataCollector.init 0%nat)).
  - exact sample_choice_in_range.
  - right. reflexivity.
  - reflexivity.
Defined.

(** The news of the sample generators: the draws of the first days. *)
Example first_generated_news :
  firstn 3
    (match fst (DataCollector.load_or_fetch_market_news sample_libraries
                  sample_moment "wheat" 30 false (DataCollector.init 0%nat))
     with
     | Return frame => map (fun r => (n_headline r, n_sentiment r)) frame
     | Raise _ => []
     end)
  = [ ("Weather conditions threaten wheat yield in major producing regions",
       "negative");
      ("Analysts predict strong wheat market for next quarter", "positive");
      ("Weather conditions threaten wheat yield in major producing regions",
       "negative") ].
Proof. vm_compute. reflexivity. Qed.

Example capitalized_sample :
  nth 3 (DataCollector.news_samples "sweet CORN") (EmptyString, EmptyString)
  = ("Sweet corn prices stabilize after recent volatility", "neutral").
Proof. reflexivity. Qed.

(** The analyzer on what the sample generators produce, an hour after the
    generation: the history was generated for wheat and is analysed for
    corn. *)
Definition generated_source : data_source :=
  {| load_or_fetch_historical_prices := fun _ =>
       match fst (DataCollector.load_or_fetch_historical_prices
                    sample_libraries sample_moment "wheat" false
                    (DataCollector.init 0%nat)) with
       | Return frame => frame
       | Raise _ => []
       end;
     load_or_fetch_market_news := fun _ =>
       match fst (DataCollector.load_or_fetch_market_news sample_libraries
                    sample_moment "wheat" 30 false
                    (DataCollector.init 0%nat)) with
       | Return frame => frame
       | Raise _ => []
       end;
     load_or_fetch_weather_forecast := fun _ =>
       match fst (DataCollector.load_or_fetch_weather_forecast
                    sample_libraries sample_moment "midwest" false
                    (DataCollector.init 0%nat)) with
       | Return frame => frame
       | Raise _ => []
       end;
     datetime_now := now sample_moment + 3600;
     today := "1970-01-10";
     chart_fault := None |}.

Example corn_on_the_history_of_wheat :
  match fst (analyze_price_trends Sample.runtime generated_source "corn"
               "1 week" DataAnalyzer.init) with
  | Return (Some analysis) =>
      (dict_get "crop" analysis,
       LLMAdvisor.format_f Sample.runtime 2
         (default VNone (dict_get "current_price" analysis)),
       dict_get "projection_pct" analysis)
  | _ => (None, Raise (ValueError EmptyString), None)
  end
  = (Some (VStr "corn"), Return "600.00", Some (VInt 0)).
Proof. vm_compute. reflexivity. Qed.
